(** * Simple-Excel-Merge: the merge and split scripts, embedded and verified

    The two scripts [merge_excel_files.py] and [split_excel_sheets.py] are
    glue around the file system, pandas and openpyxl.  The development
    models
    - paths as the strings the scripts build ([os.path.join], [split], ...),
    - the file system as a finite map from path strings to nodes,
    - the console and the library calls that touch files as a trace of
      events,
    - Python exceptions and [sys.exit] as an error monad over that state,
    and then states the properties of the two pipelines over this model. *)

From stdpp Require Import gmap strings list sorting pretty.
From Stdlib Require Import ZArith Ascii.

(** ** Python [str] methods used by the scripts *)

Module Str.

Definition slash : ascii := "/"%char.
Definition dot : ascii := "."%char.

(** [s.startswith(pre)] *)
Fixpoint startswith (s pre : string) {struct pre} : bool :=
  match pre with
  | EmptyString => true
  | String a pre' =>
      match s with
      | EmptyString => false
      | String b s' => bool_decide (a = b) && startswith s' pre'
      end
  end.

(** [s.endswith(suf)]: some tail of [s] is [suf]. *)
Fixpoint endswith (s suf : string) : bool :=
  bool_decide (s = suf)
  || match s with
     | EmptyString => false
     | String _ s' => endswith s' suf
     end.

(** [c not in s] *)
Fixpoint lacks (c : ascii) (s : string) : bool :=
  match s with
  | EmptyString => true
  | String a s' => negb (bool_decide (a = c)) && lacks c s'
  end.

(** [s == c * len(s)] *)
Fixpoint all_are (c : ascii) (s : string) : bool :=
  match s with
  | EmptyString => true
  | String a s' => bool_decide (a = c) && all_are c s'
  end.

(** [s.rstrip(c)] *)
Fixpoint rstrip (c : ascii) (s : string) : string :=
  match s with
  | EmptyString => EmptyString
  | String a s' =>
      match rstrip c s' with
      | EmptyString => if bool_decide (a = c) then EmptyString else String a EmptyString
      | r => String a r
      end
  end.

(** [i = s.rfind(c)]: [Some (s[:i], s[i+1:])], or [None] when [i = -1]. *)
Fixpoint rsplit (c : ascii) (s : string) : option (string * string) :=
  match s with
  | EmptyString => None
  | String a s' =>
      match rsplit c s' with
      | Some (h, t) => Some (String a h, t)
      | None => if bool_decide (a = c) then Some (EmptyString, s') else None
      end
  end.

(** [s.endswith(c)] for a single character [c]. *)
Fixpoint ends_in (c : ascii) (s : string) : bool :=
  match s with
  | EmptyString => false
  | String a EmptyString => bool_decide (a = c)
  | String _ s' => ends_in c s'
  end.

(** [s.lower()], on the letters [A] to [Z]. *)
Definition lower_char (a : ascii) : ascii :=
  let n := nat_of_ascii a in
  if bool_decide (65 ≤ n ≤ 90) then ascii_of_nat (n + 32) else a.

Fixpoint lower (s : string) : string :=
  match s with
  | EmptyString => EmptyString
  | String a s' => String (lower_char a) (lower s')
  end.

(** [sep.join(l)] *)
Fixpoint join (sep : string) (l : list string) : string :=
  match l with
  | [] => ""
  | [x] => x
  | x :: l' => x +:+ sep +:+ join sep l'
  end.

End Str.

(** ** [os.path] (posixpath) *)

Module Path.

(** [os.path.join(a, b)] *)
Definition join (a b : string) : string :=
  if Str.startswith b "/" then b
  else if bool_decide (a = "") || Str.ends_in Str.slash a then a +:+ b
  else a +:+ "/" +:+ b.

(** [os.path.split(p)]: head and tail around the last slash, the head
    without its trailing slashes unless it consists of slashes only. *)
Definition split (p : string) : string * string :=
  match Str.rsplit Str.slash p with
  | None => ("", p)
  | Some (h, t) =>
      let head := h +:+ "/" in
      (if Str.all_are Str.slash head then head else Str.rstrip Str.slash head, t)
  end.

Definition dirname (p : string) : string := fst (split p).
Definition basename (p : string) : string := snd (split p).

(** [os.path.splitext(p)]: the extension starts at the last dot of the last
    component, unless only dots precede it there. *)
Definition splitext (p : string) : string * string :=
  let '(pre, name) :=
    match Str.rsplit Str.slash p with
    | None => ("", p)
    | Some (h, t) => (h +:+ "/", t)
    end in
  match Str.rsplit Str.dot name with
  | Some (a, b) =>
      if Str.all_are Str.dot a then (p, "") else (pre +:+ a, "." +:+ b)
  | None => (p, "")
  end.

End Path.

(** ** Spreadsheet data *)

(** A cell as plain value: a text, a whole number, or nothing.  The scripts
    never look inside a cell; the libraries do, and cells of the other Excel
    types (fractions, dates, truth values) are not part of this model. *)
Inductive cell : Type :=
  | CText (s : string)
  | CInt (z : Z)
  | CBlank.

Global Instance cell_eq_dec : EqDecision cell.
Proof. solve_decision. Defined.

(** A column label of a frame.  pandas labels a column with the value of its
    header cell: a [str] for a text, an [int] for a whole number. *)
Inductive label : Type :=
  | LText (s : string)
  | LInt (z : Z).

Global Instance label_eq_dec : EqDecision label.
Proof. solve_decision. Defined.

Global Instance label_countable : Countable label :=
  inj_countable'
    (λ c, match c with LText s => inl s | LInt z => inr z end)
    (λ x, match x with inl s => LText s | inr z => LInt z end)
    (λ c, match c with LText _ | LInt _ => eq_refl end).

(** A pandas [DataFrame]: column labels and rows, a row holding one cell per
    column in column order. *)
Record DataFrame : Type := mkFrame {
  columns : list label;
  rows : list (list cell)
}.

Global Instance DataFrame_eq_dec : EqDecision DataFrame.
Proof. solve_decision. Defined.

(** An openpyxl worksheet, as [iter_rows(values_only=True)] shows it, and a
    workbook as the list of its sheets in [wb.sheetnames] order. *)
Record Sheet : Type := mkSheet {
  title : string;
  sheet_rows : list (list cell)
}.

Global Instance Sheet_eq_dec : EqDecision Sheet.
Proof. solve_decision. Defined.

Definition Workbook : Type := list Sheet.

Definition sheetnames (wb : Workbook) : list string := title <$> wb.

(** ** The file system *)

Inductive content : Type :=
  | Xlsx (wb : Workbook)
  | Csv (df : DataFrame)
  | Other.

(** A directory holds the names of its entries in the order the operating
    system lists them; the entry [n] of directory [d] is the node at
    [Path.join d n].  Paths are told apart by their spelling; the directory
    the process runs in is the one spelled [""], as in [Path.dirname]. *)
Inductive node : Type :=
  | Dir (names : list string)
  | File (c : content).

Abbreviation FS := (gmap string node).

Definition exists_ (fs : FS) (p : string) : bool :=
  match fs !! p with Some _ => true | None => false end.

Definition isdir (fs : FS) (p : string) : bool :=
  match fs !! p with Some (Dir _) => true | _ => false end.

Definition isfile (fs : FS) (p : string) : bool :=
  match fs !! p with Some (File _) => true | _ => false end.

(** ** Exceptions *)

Inductive exn_kind : Type :=
  | FileExistsError
  | FileNotFoundError
  | NotADirectoryError
  | IsADirectoryError
  | ValueError
  | TypeError
  | KeyError
  | InvalidFileException
  | BadZipFile.

Definition is_OSError (k : exn_kind) : bool :=
  match k with
  | FileExistsError | FileNotFoundError | NotADirectoryError | IsADirectoryError => true
  | ValueError | TypeError | KeyError | InvalidFileException | BadZipFile => false
  end.

(** [Exc k msg] is an instance of [Exception] whose [str] is [msg];
    [SystemExit] is what [sys.exit] raises and no [except Exception] catches. *)
Inductive exn : Type :=
  | Exc (k : exn_kind) (msg : string)
  | SystemExit (code : Z).

Inductive result (A : Type) : Type :=
  | Ok (a : A)
  | Raise (e : exn).
Arguments Ok {A} a.
Arguments Raise {A} e.

(** ** The process state and the monad of Python statements *)

(** What a run leaves behind besides the file system: the lines printed, the
    [pandas.read_excel] calls and the files written, in program order. *)
Inductive event : Type :=
  | EPrint (line : string)
  | ERead (path : string) (usecols : option (list label))
  | EWrite (path : string).

Global Instance event_eq_dec : EqDecision event.
Proof. solve_decision. Defined.

Record OS : Type := mkOS {
  fs : FS;
  trace : list event
}.

(** A statement runs from a state to a state and either completes with a
    value or raises; what it did before raising stays done. *)
Definition Py (A : Type) : Type := OS → result A * OS.

Global Instance Py_ret : MRet Py := λ A a s, (Ok a, s).

Global Instance Py_bind : MBind Py := λ A B k m s,
  match m s with
  | (Ok a, s') => k a s'
  | (Raise e, s') => (Raise e, s')
  end.

Global Instance Py_throw : MThrow exn Py := λ A e s, (Raise e, s).

(** [try: m  except K as e: h e] for the exception classes [K] selected by
    [catches]; [SystemExit] is never among them. *)
Definition try_except {A} (m : Py A) (catches : exn_kind → bool)
    (h : exn_kind → string → Py A) : Py A := λ s,
  match m s with
  | (Raise (Exc k msg), s') =>
      if catches k then h k msg s' else (Raise (Exc k msg), s')
  | r => r
  end.

Definition except_Exception (k : exn_kind) : bool := true.
Definition except_OSError (k : exn_kind) : bool := is_OSError k.
Definition except_FileExistsError (k : exn_kind) : bool :=
  match k with FileExistsError => true | _ => false end.

Definition get_fs : Py FS := λ s, (Ok (fs s), s).
Definition put_fs (f : FS) : Py unit := λ s, (Ok tt, mkOS f (trace s)).
Definition emit (e : event) : Py unit := λ s, (Ok tt, mkOS (fs s) (trace s ++ [e])).
Definition lift {A} (r : result A) : Py A := λ s, (r, s).

(** [for i, x in enumerate(xs, start=i): loc = body(i, x, loc)] *)
Fixpoint for_enumerate {A L} (body : nat → A → L → Py L) (i : nat) (xs : list A)
    (loc : L) : Py L :=
  match xs with
  | [] => mret loc
  | x :: xs' => loc' ← body i x loc; for_enumerate body (S i) xs' loc'
  end.

(** [for x in xs: body(x)] *)
Fixpoint for_each {A} (body : A → Py unit) (xs : list A) : Py unit :=
  match xs with
  | [] => mret tt
  | x :: xs' => body x;; for_each body xs'
  end.

(** The exit status of a process that ran the script [m] from [s]: 0 when the
    script falls off its end, the argument of [sys.exit], and 1 after an
    uncaught exception. *)
Definition exit_code {A} (r : result A * OS) : Z :=
  match r.1 with
  | Ok _ => 0
  | Raise (SystemExit c) => c
  | Raise (Exc _ _) => 1
  end.

(** The lines on the console, and the files written, of a trace. *)
Definition printed (tr : list event) : list string :=
  omap (λ e, match e with EPrint l => Some l | _ => None end) tr.

Definition written (tr : list event) : list string :=
  omap (λ e, match e with EWrite p => Some p | _ => None end) tr.

(** The files opened by a [read_excel] call without [usecols], the first
    call of every iteration of the merge loop.  A later file whose headers
    match is read once more, with [usecols]; [reads] lists every call. *)
Definition opened (tr : list event) : list string :=
  omap (λ e, match e with ERead p None => Some p | _ => None end) tr.

Definition reads (tr : list event) : list string :=
  omap (λ e, match e with ERead p _ => Some p | _ => None end) tr.

(** ** File system calls *)

Definition nl : string := String "010"%char "".
Definition tab : string := String "009"%char "".
Definition quoted (p : string) : string := "'" +:+ p +:+ "'".

(** [os.mkdir(name)] *)
Definition mkdir (name : string) : Py unit :=
  f ← get_fs;
  match f !! name with
  | Some _ => mthrow (Exc FileExistsError ("[Errno 17] File exists: " +:+ quoted name))
  | None =>
      let '(head, tail) := Path.split name in
      match f !! head with
      | Some (Dir names) =>
          put_fs (<[name := Dir []]> (<[head := Dir (names ++ [tail])]> f))
      | Some (File _) =>
          mthrow (Exc NotADirectoryError ("[Errno 20] Not a directory: " +:+ quoted name))
      | None =>
          mthrow (Exc FileNotFoundError ("[Errno 2] No such file or directory: " +:+ quoted name))
      end
  end.

(** The last statement of [os.makedirs(name, exist_ok=True)]: [mkdir], whose
    [OSError] is let through unless [name] is a directory. *)
Definition mkdir_exist_ok (name : string) : Py unit :=
  try_except (mkdir name) except_OSError
    (λ k msg, f ← get_fs; if isdir f name then mret tt else mthrow (Exc k msg)).

(** [os.makedirs(name, exist_ok=True)], the recursion of the library function
    unrolled [n] times; [String.length name] unrollings are enough, every
    recursive call being on a shorter name. *)
Fixpoint makedirs_rec (n : nat) (name : string) : Py unit :=
  let '(head, tail) := Path.split name in
  let '(head, tail) := if bool_decide (tail = "") then Path.split head else (head, tail) in
  f ← get_fs;
  if negb (bool_decide (head = "")) && negb (bool_decide (tail = "")) && negb (exists_ f head)
  then
    match n with
    | O => mkdir_exist_ok name
    | S n' =>
        try_except (makedirs_rec n' head) except_FileExistsError (λ _ _, mret tt);;
        if bool_decide (tail = ".") then mret tt else mkdir_exist_ok name
    end
  else mkdir_exist_ok name.

Definition makedirs (name : string) : Py unit :=
  makedirs_rec (String.length name) name.

(** Creating or overwriting the regular file [path]; every library call that
    saves a file goes through it. *)
Definition write_file (path : string) (c : content) : Py unit :=
  f ← get_fs;
  let '(head, tail) := Path.split path in
  match f !! path, f !! head with
  | Some (Dir _), _ =>
      mthrow (Exc IsADirectoryError ("[Errno 21] Is a directory: " +:+ quoted path))
  | _, Some (Dir names) =>
      put_fs (<[path := File c]>
                (<[head := Dir (if bool_decide (tail ∈ names) then names else names ++ [tail])]> f));;
      emit (EWrite path)
  | _, Some (File _) =>
      mthrow (Exc NotADirectoryError ("[Errno 20] Not a directory: " +:+ quoted path))
  | _, None =>
      mthrow (Exc FileNotFoundError ("[Errno 2] No such file or directory: " +:+ quoted path))
  end.

(** [os.walk(top)] as the list of the triples [(root, dirs, files)] it
    yields, top-down, followed [depth] levels down; a [top] that is no
    directory yields nothing. *)
Fixpoint walk (depth : nat) (f : FS) (top : string)
    : list (string * list string * list string) :=
  match f !! top with
  | Some (Dir names) =>
      let dirs := filter (λ n, isdir f (Path.join top n) = true) names in
      let files := filter (λ n, isdir f (Path.join top n) = false) names in
      (top, dirs, files) ::
      match depth with
      | O => []
      | S d => mjoin ((λ n, walk d f (Path.join top n)) <$> dirs)
      end
  | _ => []
  end.

Definition os_walk (f : FS) (top : string) : list (string * list string * list string) :=
  walk (size f) f top.

(** [print(line)] and the logging helpers of both scripts. *)
Definition print (line : string) : Py unit := emit (EPrint line).

Definition VERBOSE : bool := false.

Definition debug (line : string) : Py unit :=
  if negb VERBOSE then mret tt else print ("(DD) " +:+ line).
Definition warn (line : string) : Py unit := print ("(WW) " +:+ line).
Definition error (line : string) : Py unit := print ("(EE) " +:+ line).
Definition log (line : string) : Py unit := print ("(--) " +:+ line).
Definition info (line : string) : Py unit := log line.

Definition sys_exit {A} (code : Z) : Py A := mthrow (SystemExit code).

Definition safe_shutdown {A} (exit_code : Z) : Py A :=
  print "";; sys_exit exit_code.

(** ** The environment of a run *)

Record DateTime : Type := mkDateTime {
  year : nat;
  month : nat;
  day : nat;
  hour : nat;
  minute : nat
}.

Definition digit (n : nat) : ascii :=
  match n `mod` 10 with
  | 0 => "0" | 1 => "1" | 2 => "2" | 3 => "3" | 4 => "4"
  | 5 => "5" | 6 => "6" | 7 => "7" | 8 => "8" | _ => "9"
  end%char.

Definition digits2 (n : nat) (rest : string) : string :=
  String (digit (n `div` 10)) (String (digit n) rest).

(** [d.strftime("%Y%m%d_%H%M")] *)
Definition strftime (d : DateTime) : string :=
  digits2 (year d `div` 100) (digits2 (year d) (digits2 (month d) (digits2 (day d)
    (String "_"%char (digits2 (hour d) (digits2 (minute d) "")))))).

(** What a script gets from outside: [sys.argv], the resolved path of the
    script file, [os.path.abspath] (which depends on the working
    directory), and the clock. *)
Record Env : Type := mkEnv {
  argv : list string;
  realpath_file : string;
  abspath : string → string;
  now : DateTime
}.

(** ** pandas *)

(** [str(c)] for a label. *)
Definition label_str (c : label) : string :=
  match c with
  | LText s => s
  | LInt z => pretty z
  end.

Definition is_text (c : label) : bool :=
  match c with
  | LText _ => true
  | LInt _ => false
  end.

(** The cell a label is written to by [to_excel]. *)
Definition label_cell (c : label) : cell :=
  match c with
  | LText s => CText s
  | LInt z => CInt z
  end.

(** [repr] of a list whose items are spelled [items]. *)
Definition py_list (items : list string) : string := "[" +:+ Str.join ", " items +:+ "]".

(** *** From the sheet to the frame *)

(** The reader hands a cell without value on as the empty text, so such a
    cell and a cell that holds the empty text are the same to pandas. *)
Definition is_empty_cell (c : cell) : bool :=
  match c with
  | CText s => bool_decide (s = "")
  | CInt _ => false
  | CBlank => true
  end.

(** [l] without the elements at its end that [drop] marks. *)
Fixpoint rstrip_list {A} (drop : A → bool) (l : list A) : list A :=
  match l with
  | [] => []
  | x :: l' =>
      match rstrip_list drop l' with
      | [] => if drop x then [] else [x]
      | r => x :: r
      end
  end.

(** [get_sheet_data] of the openpyxl reader of pandas: every row loses the
    empty cells at its end, the rows after the last row that keeps a cell
    are dropped, and the rows are then filled up with empty cells to the
    width of the widest. *)
Definition get_sheet_data (rs : list (list cell)) : list (list cell) :=
  let data := rstrip_list (λ row, bool_decide (row = [])) (rstrip_list is_empty_cell <$> rs) in
  let max_width := max_list (length <$> data) in
  (λ row, row ++ replicate (max_width - length row) CBlank) <$> data.

(** The label of the column whose header cell is [c] at position [i]. *)
Definition header_label (i : nat) (c : cell) : label :=
  match c with
  | CText s => if bool_decide (s = "") then LText ("Unnamed: " +:+ pretty i) else LText s
  | CInt z => LInt z
  | CBlank => LText ("Unnamed: " +:+ pretty i)
  end.

(** The positions of the header cells in the order in which their labels
    are made unique: the named ones, then the unnamed ones. *)
Definition col_loop_order (header : list cell) : list nat :=
  let unnamed i := default false (is_empty_cell <$> header !! i) in
  filter (λ i, unnamed i = false) (seq 0 (length header))
  ++ filter (λ i, unnamed i = true) (seq 0 (length header)).

(** [f"{old_col}.{cur_count}"] *)
Definition numbered (old_col : label) (cur_count : nat) : label :=
  LText (label_str old_col +:+ "." +:+ pretty cur_count).

(** The loop [while cur_count > 0] that looks for a free name
    [f"{old_col}.{cur_count}"] for a label that is taken.  The loop ends
    after at most one round per column; [fuel] is chosen above that, and
    [RenameFacts.dedup_names_settled] shows that it is never used up. *)
Fixpoint next_free (fuel : nat) (this_columns : list label) (old_col : label)
    (counts : gmap label nat) (col : label) (cur_count : nat)
    : label * nat * gmap label nat :=
  match cur_count, fuel with
  | 0, _ | _, 0 => (col, cur_count, counts)
  | _, S fuel' =>
      let counts := <[old_col := cur_count + 1]> counts in
      let col := numbered old_col cur_count in
      let cur_count :=
        if bool_decide (col ∈ this_columns) then cur_count + 1 else counts !!! col in
      next_free fuel' this_columns old_col counts col cur_count
  end.

(** One round of the loop over the positions: the label at position [i]
    stays if it was not met before, and is renamed otherwise. *)
Definition dedup_step (st : list label * gmap label nat) (i : nat)
    : list label * gmap label nat :=
  let '(this_columns, counts) := st in
  match this_columns !! i with
  | None => st
  | Some col =>
      let '(col', cur_count, counts') :=
        next_free (S (length this_columns)) this_columns col counts col (counts !!! col) in
      (<[i := col']> this_columns, <[col' := cur_count + 1]> counts')
  end.

(** Labels that occur twice are renamed apart: [id, id] becomes
    [id, id.1]. *)
Definition dedup_names (order : list nat) (this_columns : list label) : list label :=
  (foldl dedup_step (this_columns, ∅) order).1.

(** The texts pandas reads as a missing value. *)
Definition STR_NA_VALUES : list string :=
  ["-1.#IND"; "1.#QNAN"; "1.#IND"; "-1.#QNAN"; "#N/A N/A"; "#N/A"; "N/A"; "n/a"; "NA";
   "<NA>"; "#NA"; "NULL"; "null"; "NaN"; "-NaN"; "nan"; "-nan"; "None"; ""].

Definition na_value (c : cell) : cell :=
  match c with
  | CText s => if bool_decide (s ∈ STR_NA_VALUES) then CBlank else c
  | _ => c
  end.

(** The frame of a sheet: the first row of the sheet data gives the labels,
    the other rows are the data, with the missing-value texts read as
    missing.  pandas goes on to read a column whose texts all spell numbers,
    or all spell truth values, as these values; sheets with such texts are
    outside this model. *)
Definition to_frame (rs : list (list cell)) : DataFrame :=
  match get_sheet_data rs with
  | [] => mkFrame [] []
  | header :: data =>
      mkFrame (dedup_names (col_loop_order header) (imap header_label header))
              (fmap (M:=list) (fmap (M:=list) na_value) data)
  end.

(** *** [usecols] *)

(** The items of [row] at the positions marked in [keep]. *)
Definition pick {A} (keep : list bool) (row : list A) : list A :=
  omap (λ kc : bool * A, if kc.1 then Some kc.2 else None) (zip keep row).

(** The columns of [df] that [keep] marks. *)
Definition take_columns (keep : list bool) (df : DataFrame) : DataFrame :=
  mkFrame (pick keep (columns df)) (pick keep <$> rows df).

Definition label_position (c : label) : option Z :=
  match c with
  | LText _ => None
  | LInt z => Some z
  end.

(** [read_excel(path, usecols=usecols)] for a list, on the file whose full
    frame is [df].
    - A sheet without data gives the empty frame, whatever [usecols] is.
    - An empty list gives the empty frame.
    - A list of texts names the columns to keep, in the order of the file;
      a name that the file lacks is an error.
    - A list of numbers gives the positions of the columns to keep; a
      position beyond the last column is an error.
    - Any other list is an error. *)
Definition usecols_select (usecols : list label) (df : DataFrame) : result DataFrame :=
  if bool_decide (columns df = []) then Ok (mkFrame [] [])
  else if bool_decide (usecols = []) then Ok (mkFrame [] [])
  else if forallb is_text usecols then
    match filter (λ c, c ∉ columns df) usecols with
    | [] => Ok (take_columns ((λ c, bool_decide (c ∈ usecols)) <$> columns df) df)
    | missing =>
        Raise (Exc ValueError
                 ("Usecols do not match columns, columns expected but not found: "
                  +:+ py_list ((λ c, quoted (label_str c)) <$> missing)))
    end
  else if forallb (λ c, negb (is_text c)) usecols then
    let positions := omap label_position usecols in
    match filter (λ z, (Z.of_nat (length (columns df)) ≤ z)%Z) positions with
    | [] =>
        Ok (take_columns (imap (λ i _, bool_decide (Z.of_nat i ∈ positions)) (columns df)) df)
    | missing =>
        Raise (Exc ValueError
                 ("Defining usecols with out-of-bounds indices is not allowed. "
                  +:+ py_list (pretty <$> missing) +:+ " are out-of-bounds."))
    end
  else
    Raise (Exc ValueError
             "'usecols' must either be list-like of all strings, all integers or a callable.").

(** [pandas.read_excel(path)] and [pandas.read_excel(path, usecols=names)]:
    the first sheet of the workbook.  pandas tells the format by the
    content of the file, not by its name. *)
Definition read_excel (path : string) (usecols : option (list label)) : Py DataFrame :=
  emit (ERead path usecols);;
  f ← get_fs;
  match f !! path with
  | None =>
      mthrow (Exc FileNotFoundError ("[Errno 2] No such file or directory: " +:+ quoted path))
  | Some (Dir _) =>
      mthrow (Exc IsADirectoryError ("[Errno 21] Is a directory: " +:+ quoted path))
  | Some (File (Xlsx (sh :: _))) =>
      let df := to_frame (sheet_rows sh) in
      match usecols with
      | None => mret df
      | Some names => lift (usecols_select names df)
      end
  | Some (File _) =>
      mthrow (Exc ValueError
                "Excel file format cannot be determined, you must specify an engine manually.")
  end.

(** The position of label [c] among [cols]. *)
Fixpoint index_of (c : label) (cols : list label) : option nat :=
  match cols with
  | [] => None
  | c' :: cols' => if bool_decide (c = c') then Some 0 else S <$> index_of c cols'
  end.

(** The labels of all frames, each once, in the order of first appearance. *)
Definition union_columns (frames : list DataFrame) : list label :=
  foldl (λ (acc : list label) c, if bool_decide (c ∈ acc) then acc else acc ++ [c]) []
        (frames ≫= columns).

(** A row of a frame with columns [cols], laid out for the columns [all]. *)
Definition reindex (cols all : list label) (row : list cell) : list cell :=
  (λ c, default CBlank (index_of c cols ≫= λ i, row !! i)) <$> all.

(** [pandas.concat(frames, axis=0, ignore_index=True)]: the rows of all
    frames in order; frames with the same columns keep them, otherwise the
    result has the union of the columns and blanks where a frame has none. *)
Definition concat (frames : list DataFrame) : result DataFrame :=
  match frames with
  | [] => Raise (Exc ValueError "No objects to concatenate")
  | df :: rest =>
      if bool_decide (Forall (λ g, columns g = columns df) rest) then
        Ok (mkFrame (columns df) (frames ≫= rows))
      else
        let all := union_columns frames in
        Ok (mkFrame all (frames ≫= λ g, reindex (columns g) all <$> rows g))
  end.

(** [df.to_excel(path, index=False)] *)
Definition to_excel (df : DataFrame) (path : string) : Py unit :=
  write_file path (Xlsx [mkSheet "Sheet1" ((label_cell <$> columns df) :: rows df)]).

(** [df.to_csv(path, index=False)] *)
Definition to_csv (df : DataFrame) (path : string) : Py unit :=
  write_file path (Csv df).

(** ** merge_excel_files.py *)

Module Merge.

Section script.
Context (env : Env).

Definition this_file_path : string := realpath_file env.
Definition this_file_dir : string := Path.dirname this_file_path.
Definition this_file_name : string := Path.basename this_file_path.
Definition files_to_merge_dir : string := abspath env (argv env !!! 1).
Definition target_dir_path : string := Path.join files_to_merge_dir "merged_excel_files".

(** The locals [frames] and [headers] of [merge_excel_data_in_path]. *)
Record locals : Type := mkLocals {
  frames : list DataFrame;
  headers : option (list label)
}.

(** [file_name.endswith(('.xlsx', '.xls')) and not file_name.startswith('merged_')] *)
Definition eligible (file_name : string) : bool :=
  (Str.endswith file_name ".xlsx" || Str.endswith file_name ".xls")
  && negb (Str.startswith file_name "merged_").

(** The [for root, dirs, files in os.walk(folder_path)] loop, which
    breaks at the end of its first iteration. *)
Definition collect (f : FS) (folder_path : string) : list string :=
  match os_walk f folder_path with
  | (root, dirs, files) :: _ => Path.join root <$> filter (λ n, eligible n = true) files
  | [] => []
  end.

Definition sorted (l : list string) : list string := merge_sort String.le l.

(** One iteration of the loop over the sorted files.  The locals are
    assigned after the last statement of the [try] block that can
    raise, so the handler continues from the locals the iteration
    started with. *)
Definition merge_file (i : nat) (file_with_path : string) (loc : locals) : Py locals :=
  try_except
    (loc' ←
       (if bool_decide (i = 0) then
          initial_dataframe ← read_excel file_with_path None;
          let headers := columns initial_dataframe in
          print ("Grabbing headers from first file..." +:+ nl);;
          print ("Wait for all merge operations to finish..." +:+ nl);;
          mret (mkLocals (frames loc ++ [initial_dataframe]) (Some headers))
        else
          temp_dataframe ← read_excel file_with_path None;
          let current_headers := columns temp_dataframe in
          match headers loc with
          | None => mthrow (Exc TypeError "object of type 'NoneType' has no len()")
          | Some headers =>
              if negb (bool_decide (take (length headers) current_headers = headers)) then
                mthrow (Exc ValueError ("Headers do not match for file: " +:+ file_with_path))
              else
                processed_dataframe ← read_excel file_with_path (Some headers);
                mret (mkLocals (frames loc ++ [processed_dataframe]) (Some headers))
          end);
     print ("Appending data from file: " +:+ quoted (Path.basename file_with_path));;
     mret loc')
    except_Exception
    (λ _ e,
       print "";;
       error ("Error while reading " +:+ file_with_path +:+ ":" +:+ nl +:+ tab +:+ e +:+ nl);;
       mret loc).

(** The loop over the sorted files and the final concatenation. *)
Definition merge_files (excel_files_sorted : list string) : Py (option DataFrame) :=
  loc ← for_enumerate merge_file 0 excel_files_sorted (mkLocals [] None);
  match frames loc with
  | _ :: _ => merged ← lift (concat (frames loc)); mret (Some merged)
  | [] => mret None
  end.

Definition merge_excel_data_in_path (folder_path : string) : Py (option DataFrame) :=
  f ← get_fs;
  let excel_files := collect f folder_path in
  let excel_files_sorted := sorted excel_files in
  merge_files excel_files_sorted.

Definition main : Py unit :=
  print ("Looking for Excel files in given path to merge..." +:+ nl);;
  (if bool_decide (files_to_merge_dir = this_file_dir) then
     error "Error: Path same as script file path. Use a subfolder for files to be merged.";;
     safe_shutdown 1
   else mret tt);;
  dataframe ← merge_excel_data_in_path files_to_merge_dir;
  match dataframe with
  | Some dataframe =>
      let timestamp := strftime (now env) in
      let target_XLSX_file_path :=
        Path.join target_dir_path ("merged_excel_data_" +:+ timestamp +:+ ".xlsx") in
      to_excel dataframe target_XLSX_file_path;;
      let target_CSV_file_path :=
        Path.join target_dir_path ("merged_excel_data_" +:+ timestamp +:+ ".csv") in
      to_csv dataframe target_CSV_file_path;;
      print (nl +:+ "Merge operation COMPLETE. Look in the 'merged_excel_files' subfolder.");;
      print (nl +:+ "Merged XLSX file name:" +:+ nl +:+ nl +:+ "    "
             +:+ quoted target_XLSX_file_path);;
      print (nl +:+ "Merged CSV file name:" +:+ nl +:+ nl +:+ "    "
             +:+ quoted target_CSV_file_path)
  | None =>
      print "";;
      info "No Excel files were found or successfully read."
  end.

(** The module, top to bottom, run as [__main__]. *)
Definition script : Py unit :=
  (if bool_decide (length (argv env) < 2) then
     error "Error: No arguments given. Provide a path to a folder with Excel files to merge.";;
     safe_shutdown 1
   else mret tt);;
  debug "";;
  debug ("this_file_path = " +:+ quoted this_file_path);;
  debug ("this_file_dir = " +:+ quoted this_file_dir);;
  debug ("this_file_name = " +:+ quoted this_file_name);;
  debug ("files_to_merge_dir = " +:+ quoted files_to_merge_dir);;
  debug ("target_dir_path = " +:+ quoted target_dir_path);;
  try_except (makedirs target_dir_path) except_OSError
    (λ _ os_err,
       print ("Error creating directory " +:+ quoted target_dir_path +:+ ":" +:+ nl +:+ tab
              +:+ os_err);;
       safe_shutdown 1);;
  print "";;
  main;;
  safe_shutdown 0.

End script.

End Merge.

(** ** openpyxl *)

(** The extensions [load_workbook] accepts. *)
Definition SUPPORTED_FORMATS : list string := [".xlsx"; ".xlsm"; ".xltx"; ".xltm"].

(** [os.path.splitext(path)[-1].lower()] *)
Definition file_format (path : string) : string := Str.lower (Path.splitext path).2.

Definition supported_format (path : string) : bool :=
  bool_decide (file_format path ∈ SUPPORTED_FORMATS).

Definition unsupported_message (file_format : string) : string :=
  if bool_decide (file_format = ".xls") then
    "openpyxl does not support the old .xls file format, please use xlrd to read this file, "
    +:+ "or convert it to the more recent .xlsx file format."
  else if bool_decide (file_format = ".xlsb") then
    "openpyxl does not support binary format .xlsb, please convert this file to .xlsx format "
    +:+ "if you want to open it with openpyxl"
  else
    "openpyxl does not support " +:+ file_format
    +:+ " file format, please check you can open it with Excel first. Supported formats are: "
    +:+ Str.join "," SUPPORTED_FORMATS.

(** [openpyxl.load_workbook(path)]: the name of the file is checked before
    the file is opened, and a file that is opened has to be a workbook. *)
Definition load_workbook (path : string) : Py Workbook :=
  if negb (supported_format path) then
    mthrow (Exc InvalidFileException (unsupported_message (file_format path)))
  else
    f ← get_fs;
    match f !! path with
    | Some (File (Xlsx wb)) => mret wb
    | Some (File _) => mthrow (Exc BadZipFile "File is not a zip file")
    | Some (Dir _) =>
        mthrow (Exc IsADirectoryError ("[Errno 21] Is a directory: " +:+ quoted path))
    | None =>
        mthrow (Exc FileNotFoundError ("[Errno 2] No such file or directory: " +:+ quoted path))
    end.

(** [wb[sheet_name]] *)
Definition wb_getitem (wb : Workbook) (sheet_name : string) : result Sheet :=
  match list_find (λ sh, title sh = sheet_name) wb with
  | Some (_, sh) => Ok sh
  | None => Raise (Exc KeyError ("Worksheet " +:+ sheet_name +:+ " does not exist."))
  end.

(** The active sheet of [openpyxl.Workbook()]. *)
Definition new_worksheet : Sheet := mkSheet "Sheet" [].

(** The characters openpyxl refuses in a sheet title. *)
Definition invalid_title_chars : list ascii :=
  ["\"; "*"; "?"; ":"; "/"; "["; "]"]%char.

Definition valid_title (t : string) : bool :=
  forallb (λ c, Str.lacks c t) invalid_title_chars.

(** The first character of [t] that a sheet title may not hold. *)
Fixpoint first_invalid (t : string) : string :=
  match t with
  | EmptyString => ""
  | String a t' =>
      if bool_decide (a ∈ invalid_title_chars) then String a "" else first_invalid t'
  end.

(** [avoid_duplicate_name(names, value)] for a workbook with the single sheet
    title [name]: a [value] that equals [name] up to case gets the count 1
    appended, the title found under that spelling carrying no count. *)
Definition avoid_duplicate_name (name value : string) : string :=
  if bool_decide (Str.lower name = Str.lower value) then value +:+ "1" else value.

(** [ws.title = value] for the only sheet [ws] of a workbook: a title with
    a character that a sheet title may not hold is refused; a title other
    than the one the sheet has is first kept apart from the titles of the
    workbook, that is from the title of [ws] itself. *)
Definition set_title (ws : Sheet) (value : string) : result Sheet :=
  if valid_title value then
    let value :=
      if bool_decide (title ws ≠ value) then avoid_duplicate_name (title ws) value
      else value in
    Ok (mkSheet value (sheet_rows ws))
  else
    Raise (Exc ValueError ("Invalid character " +:+ first_invalid value
                           +:+ " found in sheet title")).

(** [ws.append(row)] *)
Definition ws_append (ws : Sheet) (row : list cell) : Sheet :=
  mkSheet (title ws) (sheet_rows ws ++ [row]).

(** [wb.save(path)] *)
Definition save (wb : Workbook) (path : string) : Py unit :=
  write_file path (Xlsx wb).

(** ** split_excel_sheets.py *)

Module Split.

Section script.
Context (env : Env).

Definition this_file_path : string := realpath_file env.
Definition this_file_dir : string := Path.dirname this_file_path.
Definition this_file_name : string := Path.basename this_file_path.

Definition folder_name_of (excel_file : string) : string :=
  (Path.splitext excel_file).1 +:+ "_" +:+ strftime (now env).

(** The body of the loop over [wb.sheetnames]. *)
Definition split_sheet (wb : Workbook) (folder_name sheet_name : string) : Py unit :=
  sheet ← lift (wb_getitem wb sheet_name);
  let new_ws := new_worksheet in
  new_ws ← lift (set_title new_ws sheet_name);
  let new_ws := foldl ws_append new_ws (sheet_rows sheet) in
  let new_file := Path.join folder_name (sheet_name +:+ ".xlsx") in
  save [new_ws] new_file;;
  print ("Saved: " +:+ new_file).

Definition split_worksheets_to_files (excel_file : string) : Py unit :=
  wb ← load_workbook excel_file;
  let folder_name := folder_name_of excel_file in
  makedirs folder_name;;
  for_each (split_sheet wb folder_name) (sheetnames wb).

(** The module, top to bottom, run as [__main__]. *)
Definition script : Py unit :=
  (if bool_decide (length (argv env) < 2) then
     error "Error: No arguments given. Provide a path to an Excel file with multiple sheets.";;
     safe_shutdown 1
   else mret tt);;
  debug "";;
  debug ("this_file_path = " +:+ quoted this_file_path);;
  debug ("this_file_dir = " +:+ quoted this_file_dir);;
  debug ("this_file_name = " +:+ quoted this_file_name);;
  print "";;
  (if bool_decide (length (argv env) ≠ 2) then
     print ("Usage: " +:+ this_file_name +:+ " <excel_file>");;
     sys_exit 1
   else mret tt);;
  let excel_file := argv env !!! 1 in
  f ← get_fs;
  (if negb (isfile f excel_file) then
     print ("Error: File " +:+ quoted excel_file +:+ " not found.");;
     sys_exit 1
   else mret tt);;
  split_worksheets_to_files excel_file.

End script.

End Split.

(** * Properties of the scripts *)

(** ** Running statements *)

Ltac py_unfold :=
  unfold safe_shutdown, sys_exit, error, info, log, print in *;
  unfold mbind, Py_bind, mret, Py_ret, mthrow, Py_throw, try_except, get_fs, put_fs,
    emit, lift in *.

(** What [pandas.read_excel(path)] returns on the file system [f]. *)
Definition frame_of (f : FS) (path : string) : result DataFrame :=
  (read_excel path None (mkOS f [])).1.

(** The frame [pandas.read_excel(path, usecols=names)] returns for a list of
    text labels that the file has: the columns with these labels. *)
Definition select (names : list label) (df : DataFrame) : DataFrame :=
  mkFrame (filter (λ c, c ∈ names) (columns df))
          (pick ((λ c, bool_decide (c ∈ names)) <$> columns df) <$> rows df).

Lemma read_excel_run path usecols s :
  read_excel path usecols s =
    ((read_excel path usecols (mkOS (fs s) [])).1, mkOS (fs s) (trace s ++ [ERead path usecols])).
Proof.
  destruct s as [f tr]. unfold read_excel. py_unfold. cbn.
  destruct (f !! path) as [[names|[[|sh wb]|df|]]|]; try reflexivity.
  destruct usecols; reflexivity.
Qed.

Lemma read_excel_usecols path names f df :
  frame_of f path = Ok df →
  (read_excel path (Some names) (mkOS f [])).1 = usecols_select names df.
Proof.
  unfold frame_of, read_excel. py_unfold. cbn.
  destruct (f !! path) as [[?|[[|sh wb]|?|]]|]; cbn; try discriminate.
  by intros [= <-].
Qed.

Lemma frame_of_raises f path e :
  frame_of f path = Raise e → ∃ k msg, e = Exc k msg.
Proof.
  unfold frame_of, read_excel. py_unfold. cbn.
  destruct (f !! path) as [[?|[[|sh wb]|?|]]|]; cbn; intros [= <-]; eauto.
Qed.

Lemma usecols_select_raises names df e :
  usecols_select names df = Raise e → ∃ msg, e = Exc ValueError msg.
Proof.
  unfold usecols_select.
  repeat case_bool_decide; try discriminate.
  destruct (forallb is_text names).
  { destruct (filter _ names); [discriminate|]. intros [= <-]. eauto. }
  destruct (forallb _ names).
  { destruct (filter _ (omap label_position names)); [discriminate|]. intros [= <-]. eauto. }
  intros [= <-]. eauto.
Qed.

Lemma usecols_select_nil df : usecols_select [] df = Ok (mkFrame [] []).
Proof. unfold usecols_select. by repeat case_bool_decide. Qed.

Lemma usecols_select_no_columns names df :
  columns df = [] → usecols_select names df = Ok (mkFrame [] []).
Proof. intros Hc. unfold usecols_select. by rewrite bool_decide_eq_true_2. Qed.

Lemma pick_filter {A} (P : A → Prop) `{!∀ x, Decision (P x)} (l : list A) :
  pick ((λ x, bool_decide (P x)) <$> l) l = filter P l.
Proof.
  unfold pick. induction l as [|x l IH]; [done|].
  rewrite filter_cons, <- IH. cbn [fmap list_fmap zip zip_with omap list_omap].
  destruct (decide (P x)) as [Hx|Hx].
  - by rewrite bool_decide_eq_true_2.
  - by rewrite bool_decide_eq_false_2.
Qed.

Lemma filter_none {A} (P : A → Prop) `{!∀ x, Decision (P x)} (l : list A) :
  Forall (λ x, ¬ P x) l → filter P l = [].
Proof.
  induction 1 as [|x l Hx _ IH]; [done|]. by rewrite filter_cons_False.
Qed.

Lemma take_columns_select names df :
  take_columns ((λ c, bool_decide (c ∈ names)) <$> columns df) df = select names df.
Proof. unfold take_columns, select. by rewrite pick_filter. Qed.

(** Text labels that the file shows in its leading columns are all found. *)
Lemma usecols_select_prefix names df :
  names ≠ [] → forallb is_text names = true →
  take (length names) (columns df) = names →
  usecols_select names df = Ok (select names df).
Proof.
  intros Hne Htext Htake. unfold usecols_select.
  rewrite bool_decide_eq_false_2.
  2:{ intros Hc. rewrite Hc, take_nil in Htake. by subst. }
  rewrite bool_decide_eq_false_2, Htext by done.
  assert (filter (λ c, c ∉ columns df) names = []) as ->.
  { apply filter_none, Forall_forall. intros c Hc Hnot. apply Hnot.
    rewrite <- Htake in Hc. by eapply subseteq_take. }
  by rewrite take_columns_select.
Qed.

Lemma filter_all_in (names : list label) :
  filter (λ c, c ∈ names) names = names.
Proof.
  assert (∀ l : list label, (∀ c, c ∈ l → c ∈ names) → filter (λ c, c ∈ names) l = l) as Hgen.
  { induction l as [|c l IH]; intros Hsub; [done|].
    rewrite filter_cons_True by (apply Hsub; left).
    f_equal. apply IH. intros c' Hc'. apply Hsub. by right. }
  by apply Hgen.
Qed.

Lemma select_columns_same df : columns (select (columns df) df) = columns df.
Proof. apply filter_all_in. Qed.

Lemma select_row_count names df : length (rows (select names df)) = length (rows df).
Proof. cbn. by rewrite length_fmap. Qed.

(** ** The merge loop *)

Module MergeFacts.
Import Merge.

Definition error_line (file_with_path msg : string) : string :=
  "(EE) Error while reading " +:+ file_with_path +:+ ":" +:+ nl +:+ tab +:+ msg +:+ nl.

Definition appending_line (file_with_path : string) : string :=
  "Appending data from file: " +:+ quoted (Path.basename file_with_path).

Definition first_file_lines : list event :=
  [EPrint ("Grabbing headers from first file..." +:+ nl);
   EPrint ("Wait for all merge operations to finish..." +:+ nl)].

(** One iteration, as the locals it ends with and the events it adds. *)
Definition step (f : FS) (i : nat) (p : string) (loc : locals) : locals * list event :=
  let r := merge_file i p loc (mkOS f []) in
  (match r.1 with Ok loc' => loc' | Raise _ => loc end, trace r.2).
Global Arguments step : simpl never.

Lemma merge_file_run i p loc s :
  merge_file i p loc s =
    (Ok (step (fs s) i p loc).1, mkOS (fs s) (trace s ++ (step (fs s) i p loc).2)).
Proof.
  destruct s as [f tr]. unfold step, merge_file. py_unfold.
  case_bool_decide.
  all: rewrite (read_excel_run p None (mkOS f tr)); cbn [fs trace fst snd].
  all: rewrite (read_excel_run p None (mkOS f [])); cbn [fs trace fst snd].
  all: destruct (read_excel p None (mkOS f [])).1 as [df|[k msg|c]] eqn:Hread.
  all: try (by apply frame_of_raises in Hread as (? & ? & ?)).
  all: cbn; try (by rewrite <- !app_assoc).
  destruct (headers loc) as [hs|]; cbn; [|by rewrite <- !app_assoc].
  case_bool_decide; cbn; [|by rewrite <- !app_assoc].
  rewrite (read_excel_run p (Some hs) (mkOS f (tr ++ _))). cbn [fs trace fst snd].
  rewrite (read_excel_run p (Some hs) (mkOS f [_])). cbn [fs trace fst snd].
  destruct (read_excel p (Some hs) (mkOS f [])).1 as [df'|[k msg|c]] eqn:Hre;
    cbn; try by rewrite <- !app_assoc.
  rewrite (read_excel_usecols _ _ _ _ Hread) in Hre.
  by apply usecols_select_raises in Hre as [? ?].
Qed.

Lemma step_first_ok f p loc df :
  frame_of f p = Ok df →
  step f 0 p loc =
    (mkLocals (frames loc ++ [df]) (Some (columns df)),
     ERead p None :: first_file_lines ++ [EPrint (appending_line p)]).
Proof.
  unfold frame_of. intros Hread. unfold step, merge_file. py_unfold.
  rewrite bool_decide_eq_true_2 by done.
  rewrite (read_excel_run p None (mkOS f [])); cbn [fs trace fst snd].
  by rewrite Hread.
Qed.

Lemma step_unreadable f i p loc k msg :
  frame_of f p = Raise (Exc k msg) →
  step f i p loc = (loc, [ERead p None; EPrint ""; EPrint (error_line p msg)]).
Proof.
  unfold frame_of. intros Hread. unfold step, merge_file. py_unfold.
  case_bool_decide.
  all: rewrite (read_excel_run p None (mkOS f [])); cbn [fs trace fst snd].
  all: by rewrite Hread.
Qed.

Lemma step_no_headers f i p loc df :
  i ≠ 0 → frame_of f p = Ok df → headers loc = None →
  step f i p loc =
    (loc, [ERead p None; EPrint "";
           EPrint (error_line p "object of type 'NoneType' has no len()")]).
Proof.
  unfold frame_of. intros Hi Hread Hh. unfold step, merge_file. py_unfold.
  rewrite bool_decide_eq_false_2 by done.
  rewrite (read_excel_run p None (mkOS f [])); cbn [fs trace fst snd].
  by rewrite Hread, Hh.
Qed.

Lemma step_mismatch f i p loc df hs :
  i ≠ 0 → frame_of f p = Ok df → headers loc = Some hs →
  take (length hs) (columns df) ≠ hs →
  step f i p loc =
    (loc, [ERead p None; EPrint "";
           EPrint (error_line p ("Headers do not match for file: " +:+ p))]).
Proof.
  unfold frame_of. intros Hi Hread Hh Hne. unfold step, merge_file. py_unfold.
  rewrite bool_decide_eq_false_2 by done.
  rewrite (read_excel_run p None (mkOS f [])); cbn [fs trace fst snd].
  rewrite Hread, Hh. cbn. by rewrite bool_decide_eq_false_2.
Qed.

(** A later file whose leading columns are the headers is read again, with
    [usecols]; it is accepted with the frame of that second read, or fails
    with its error. *)
Lemma step_usecols_ok f i p loc df hs g :
  i ≠ 0 → frame_of f p = Ok df → headers loc = Some hs →
  take (length hs) (columns df) = hs →
  usecols_select hs df = Ok g →
  step f i p loc =
    (mkLocals (frames loc ++ [g]) (Some hs),
     [ERead p None; ERead p (Some hs); EPrint (appending_line p)]).
Proof.
  unfold step, merge_file. py_unfold. intros Hi Hread -> Htake Hsel.
  rewrite bool_decide_eq_false_2 by done.
  rewrite (read_excel_run p None (mkOS f [])); cbn [fs trace fst snd].
  unfold frame_of in Hread. rewrite Hread. cbn.
  rewrite bool_decide_eq_true_2 by done. cbn.
  rewrite (read_excel_run p (Some hs) (mkOS f [_])); cbn [fs trace fst snd].
  by rewrite (read_excel_usecols _ _ _ _ Hread), Hsel.
Qed.

Lemma step_usecols_raise f i p loc df hs k msg :
  i ≠ 0 → frame_of f p = Ok df → headers loc = Some hs →
  take (length hs) (columns df) = hs →
  usecols_select hs df = Raise (Exc k msg) →
  step f i p loc =
    (loc, [ERead p None; ERead p (Some hs); EPrint ""; EPrint (error_line p msg)]).
Proof.
  unfold step, merge_file. py_unfold. intros Hi Hread Hh Htake Hsel.
  rewrite bool_decide_eq_false_2 by done.
  rewrite (read_excel_run p None (mkOS f [])); cbn [fs trace fst snd].
  unfold frame_of in Hread. rewrite Hread, Hh. cbn.
  rewrite bool_decide_eq_true_2 by done. cbn.
  rewrite (read_excel_run p (Some hs) (mkOS f [_])); cbn [fs trace fst snd].
  by rewrite (read_excel_usecols _ _ _ _ Hread), Hsel.
Qed.

(** With headers that are all text the second read gives the columns with
    these labels. *)
Lemma step_match f i p loc df hs :
  i ≠ 0 → frame_of f p = Ok df → headers loc = Some hs →
  hs ≠ [] → forallb is_text hs = true →
  take (length hs) (columns df) = hs →
  step f i p loc =
    (mkLocals (frames loc ++ [select hs df]) (Some hs),
     [ERead p None; ERead p (Some hs); EPrint (appending_line p)]).
Proof.
  intros Hi Hread Hh Hne Htext Htake.
  apply (step_usecols_ok _ _ _ _ df); try done. by apply usecols_select_prefix.
Qed.

(** The way an iteration goes is one of these. *)
Inductive step_shape (f : FS) (i : nat) (p : string) (loc : locals)
    : locals * list event → Prop :=
  | step_first df :
      i = 0 → frame_of f p = Ok df →
      step_shape f i p loc
        (mkLocals (frames loc ++ [df]) (Some (columns df)),
         ERead p None :: first_file_lines ++ [EPrint (appending_line p)])
  | step_accepted df hs g :
      i ≠ 0 → frame_of f p = Ok df → headers loc = Some hs →
      take (length hs) (columns df) = hs → usecols_select hs df = Ok g →
      step_shape f i p loc
        (mkLocals (frames loc ++ [g]) (Some hs),
         [ERead p None; ERead p (Some hs); EPrint (appending_line p)])
  | step_refused df hs msg :
      i ≠ 0 → frame_of f p = Ok df → headers loc = Some hs →
      take (length hs) (columns df) = hs → usecols_select hs df = Raise (Exc ValueError msg) →
      step_shape f i p loc
        (loc, [ERead p None; ERead p (Some hs); EPrint ""; EPrint (error_line p msg)])
  | step_failed msg :
      (∀ df hs, frame_of f p = Ok df → headers loc = Some hs →
                i ≠ 0 ∧ take (length hs) (columns df) ≠ hs) →
      step_shape f i p loc (loc, [ERead p None; EPrint ""; EPrint (error_line p msg)]).

Lemma step_has_shape f i p loc : step_shape f i p loc (step f i p loc).
Proof.
  destruct (frame_of f p) as [df|e] eqn:Hread.
  - destruct (decide (i = 0)) as [->|Hi].
    { rewrite (step_first_ok _ _ _ _ Hread). by constructor. }
    destruct (headers loc) as [hs|] eqn:Hh.
    + destruct (decide (take (length hs) (columns df) = hs)) as [Htake|Hne].
      * destruct (usecols_select hs df) as [g|e] eqn:Hsel.
        -- rewrite (step_usecols_ok _ _ _ _ _ _ _ Hi Hread Hh Htake Hsel).
           by eapply step_accepted.
        -- destruct (usecols_select_raises _ _ _ Hsel) as [msg ->].
           rewrite (step_usecols_raise _ _ _ _ _ _ _ _ Hi Hread Hh Htake Hsel).
           by eapply step_refused.
      * rewrite (step_mismatch _ _ _ _ _ _ Hi Hread Hh Hne).
        apply step_failed. intros df' hs' Hd Hs.
        rewrite Hread in Hd. rewrite Hh in Hs. by simplify_eq.
    + rewrite (step_no_headers _ _ _ _ _ Hi Hread Hh).
      apply step_failed. intros df' hs' _ Hs. by rewrite Hh in Hs.
  - destruct (frame_of_raises _ _ _ Hread) as (k & msg & ->).
    rewrite (step_unreadable _ _ _ _ _ _ Hread).
    apply step_failed. intros df' hs' Hd. by rewrite Hread in Hd.
Qed.

(** Every iteration opens its file once and writes nothing. *)
Lemma step_opened f i p loc : opened (step f i p loc).2 = [p].
Proof. by destruct (step_has_shape f i p loc). Qed.

Lemma step_written f i p loc : written (step f i p loc).2 = [].
Proof. by destruct (step_has_shape f i p loc). Qed.

(** The loop, as the locals it ends with and the events it adds. *)
Fixpoint loop_locals (f : FS) (i : nat) (files : list string) (loc : locals) : locals :=
  match files with
  | [] => loc
  | p :: files' => loop_locals f (S i) files' (step f i p loc).1
  end.

Fixpoint loop_events (f : FS) (i : nat) (files : list string) (loc : locals) : list event :=
  match files with
  | [] => []
  | p :: files' => (step f i p loc).2 ++ loop_events f (S i) files' (step f i p loc).1
  end.

Lemma loop_locals_cons f i p files loc :
  loop_locals f i (p :: files) loc = loop_locals f (S i) files (step f i p loc).1.
Proof. done. Qed.

Lemma loop_events_cons f i p files loc :
  loop_events f i (p :: files) loc
  = (step f i p loc).2 ++ loop_events f (S i) files (step f i p loc).1.
Proof. done. Qed.

Lemma loop_run files i loc s :
  for_enumerate merge_file i files loc s =
    (Ok (loop_locals (fs s) i files loc),
     mkOS (fs s) (trace s ++ loop_events (fs s) i files loc)).
Proof.
  revert i loc s. induction files as [|p files IH]; intros i loc [f tr]; cbn.
  - by rewrite app_nil_r.
  - py_unfold. rewrite merge_file_run. cbn [fs trace].
    rewrite IH. cbn [fs trace]. by rewrite <- app_assoc.
Qed.

Lemma loop_locals_app f i xs ys loc :
  loop_locals f i (xs ++ ys) loc = loop_locals f (i + length xs) ys (loop_locals f i xs loc).
Proof.
  revert i loc. induction xs as [|x xs IH]; intros i loc; cbn.
  - by rewrite Nat.add_0_r.
  - rewrite IH. replace (S i + length xs) with (i + S (length xs)) by lia. done.
Qed.

Lemma loop_events_app f i xs ys loc :
  loop_events f i (xs ++ ys) loc =
    loop_events f i xs loc ++ loop_events f (i + length xs) ys (loop_locals f i xs loc).
Proof.
  revert i loc. induction xs as [|x xs IH]; intros i loc; cbn.
  - by rewrite Nat.add_0_r.
  - rewrite IH, <- app_assoc. replace (S i + length xs) with (i + S (length xs)) by lia. done.
Qed.

Lemma opened_app tr1 tr2 : opened (tr1 ++ tr2) = opened tr1 ++ opened tr2.
Proof. apply omap_app. Qed.

Lemma written_app tr1 tr2 : written (tr1 ++ tr2) = written tr1 ++ written tr2.
Proof. apply omap_app. Qed.

Lemma printed_app tr1 tr2 : printed (tr1 ++ tr2) = printed tr1 ++ printed tr2.
Proof. apply omap_app. Qed.

Lemma loop_opened f files i loc : opened (loop_events f i files loc) = files.
Proof.
  revert i loc. induction files as [|p files IH]; intros i loc; cbn; [done|].
  by rewrite opened_app, step_opened, IH.
Qed.

Lemma loop_written f files i loc : written (loop_events f i files loc) = [].
Proof.
  revert i loc. induction files as [|p files IH]; intros i loc; cbn; [done|].
  by rewrite written_app, step_written, IH.
Qed.


(** Past the first iteration the index plays no role. *)
Lemma step_later f i j p loc : i ≠ 0 → j ≠ 0 → step f i p loc = step f j p loc.
Proof.
  intros Hi Hj. unfold step, merge_file.
  by rewrite !(bool_decide_eq_false_2 (_ = 0)) by done.
Qed.

Lemma loop_locals_later f i j files loc :
  i ≠ 0 → j ≠ 0 → loop_locals f i files loc = loop_locals f j files loc.
Proof.
  revert i j loc. induction files as [|p files IH]; intros i j loc Hi Hj; cbn; [done|].
  rewrite (step_later f i j) by done. by apply IH.
Qed.

(** The headers are captured by the first iteration or never. *)
Lemma step_headers_later f i p loc :
  i ≠ 0 → headers (step f i p loc).1 = headers loc.
Proof.
  intros Hi.
  destruct (step_has_shape f i p loc) as [df ? ?|df hs g _ _ Hh _ _| |]; cbn; try done.
Qed.

Lemma loop_headers_later f i files loc :
  i ≠ 0 → headers (loop_locals f i files loc) = headers loc.
Proof.
  revert i loc. induction files as [|p files IH]; intros i loc Hi; cbn; [done|].
  rewrite IH by done. by apply step_headers_later.
Qed.

(** Without captured headers no later file is accepted. *)
Lemma step_no_headers_locals f i p loc :
  i ≠ 0 → headers loc = None → (step f i p loc).1 = loc.
Proof.
  intros Hi Hh. destruct (frame_of f p) as [df|e] eqn:Hread.
  - by rewrite (step_no_headers _ _ _ _ _ Hi Hread Hh).
  - destruct (frame_of_raises _ _ _ Hread) as (k & msg & ->).
    by rewrite (step_unreadable _ _ _ _ _ _ Hread).
Qed.

Lemma loop_no_headers_locals f i files loc :
  i ≠ 0 → headers loc = None → loop_locals f i files loc = loc.
Proof.
  revert i loc. induction files as [|p files IH]; intros i loc Hi Hh; cbn; [done|].
  rewrite step_no_headers_locals by done. by apply IH.
Qed.



(** What the function returns for the frames the loop accepted. *)
Definition merged_of (frs : list DataFrame) : option DataFrame :=
  match concat frs with
  | Ok merged => Some merged
  | Raise _ => None
  end.

Lemma merge_files_run files s :
  merge_files files s =
    (Ok (merged_of (frames (loop_locals (fs s) 0 files (mkLocals [] None)))),
     mkOS (fs s) (trace s ++ loop_events (fs s) 0 files (mkLocals [] None))).
Proof.
  unfold merge_files. py_unfold. rewrite loop_run.
  destruct (frames _) as [|df frs] eqn:Hfr; [done|].
  unfold merged_of, concat. by case_bool_decide.
Qed.

Lemma merge_excel_data_in_path_run folder s :
  merge_excel_data_in_path folder s = merge_files (sorted (collect (fs s) folder)) s.
Proof. by destruct s. Qed.

Lemma concat_same_columns hs df frs :
  columns df = hs → Forall (λ g, columns g = hs) frs →
  concat (df :: frs) = Ok (mkFrame hs ((df :: frs) ≫= rows)).
Proof.
  intros <- Hall. unfold concat. by rewrite bool_decide_eq_true_2.
Qed.


(** The error line of a file that is read while no headers are held: the
    error of [read_excel] if it raises, that of [len(headers)] otherwise. *)
Definition failure_line (f : FS) (p : string) : string :=
  error_line p
    match frame_of f p with
    | Ok _ => "object of type 'NoneType' has no len()"
    | Raise (Exc _ msg) => msg
    | Raise (SystemExit _) => ""
    end.

Lemma step_headerless f i p loc :
  headers loc = None → (i = 0 → ∃ e, frame_of f p = Raise e) →
  step f i p loc = (loc, [ERead p None; EPrint ""; EPrint (failure_line f p)]).
Proof.
  intros Hh Hfirst. unfold failure_line.
  destruct (frame_of f p) as [df|e] eqn:Hread.
  - destruct (decide (i = 0)) as [Hi|Hi]; [by destruct (Hfirst Hi)|].
    by apply (step_no_headers _ _ _ _ df).
  - destruct (frame_of_raises _ _ _ Hread) as (k & msg & ->).
    by apply (step_unreadable _ _ _ _ k).
Qed.

Lemma loop_headerless_events f i files loc p :
  headers loc = None → i ≠ 0 → p ∈ files →
  failure_line f p ∈ printed (loop_events f i files loc).
Proof.
  intros Hh Hi. revert i loc Hh Hi.
  induction files as [|q files IH]; intros i loc Hh Hi Hin; [by apply elem_of_nil in Hin|].
  rewrite loop_events_cons, step_headerless by done. cbn [fst snd].
  rewrite printed_app. apply elem_of_app.
  apply elem_of_cons in Hin as [->|Hin].
  - left. cbn. set_solver.
  - right. by apply IH.
Qed.

End MergeFacts.

(** ** The frame of a sheet *)

Module FrameFacts.

Lemma rstrip_list_kept {A} (drop : A → bool) (l : list A) :
  rstrip_list drop l ≠ [] → ∃ x, x ∈ rstrip_list drop l ∧ drop x = false.
Proof.
  induction l as [|x l IH]; [done|]. cbn.
  destruct (rstrip_list drop l) as [|y r] eqn:Hr.
  - destruct (drop x) eqn:Hx; [done|]. intros _. exists x. split; [by left|done].
  - intros _. destruct IH as (z & Hz & Hdrop); [done|].
    exists z. split; [by right|done].
Qed.


(** A list that does not end in an element to drop stays. *)
Lemma rstrip_list_last {A} (drop : A → bool) (l : list A) (x : A) :
  drop x = false → rstrip_list drop (l ++ [x]) = l ++ [x].
Proof.
  intros Hx. induction l as [|y l IH]; cbn; [by rewrite Hx|].
  rewrite IH. by destruct l.
Qed.


(** The rows of the sheet data are all as wide as its header row, which
    holds a cell. *)
Lemma get_sheet_data_width rs header data :
  get_sheet_data rs = header :: data →
  0 < length header ∧ Forall (λ row, length row = length header) data.
Proof.
  unfold get_sheet_data.
  set (stripped := rstrip_list _ (_ <$> rs)).
  set (w := max_list (length <$> stripped)).
  intros Hdata.
  assert (Forall (λ row : list cell, length row = w)
            ((λ row, row ++ replicate (w - length row) CBlank) <$> stripped)) as Hall.
  { apply Forall_fmap, Forall_forall. intros row Hrow. cbn.
    rewrite length_app, length_replicate.
    assert (length row ≤ w); [|lia].
    apply max_list_elem_of_le. by apply list_elem_of_fmap_2. }
  assert (0 < w) as Hw.
  { destruct (rstrip_list_kept (λ row : list cell, bool_decide (row = [])) (rstrip_list is_empty_cell <$> rs))
      as (row & Hrow & Hkeep).
    { fold stripped. intros Hnil. by rewrite Hnil in Hdata. }
    apply bool_decide_eq_false in Hkeep.
    assert (length row ≤ w).
    { apply max_list_elem_of_le. by apply list_elem_of_fmap_2. }
    destruct row; [done|]. cbn in *. lia. }
  rewrite Hdata in Hall. apply Forall_cons in Hall as [Hh Hall].
  split; [lia|]. eapply Forall_impl; [exact Hall|]. intros row. cbn. lia.
Qed.

Lemma dedup_step_length st i : length (dedup_step st i).1 = length st.1.
Proof.
  destruct st as [cols counts]. unfold dedup_step.
  destruct (cols !! i) as [col|]; [|done].
  destruct (next_free _ _ _ _ _ _) as [[col' cur] counts'].
  cbn. apply length_insert.
Qed.

Lemma dedup_names_length order cols : length (dedup_names order cols) = length cols.
Proof.
  unfold dedup_names. generalize (∅ : gmap label nat). revert cols.
  induction order as [|i order IH]; intros cols counts; [done|].
  cbn [foldl]. destruct (dedup_step (cols, counts) i) as [cols' counts'] eqn:Hstep.
  rewrite IH. pose proof (dedup_step_length (cols, counts) i) as Hlen.
  by rewrite Hstep in Hlen.
Qed.


(** The frame of a file is the frame of its first sheet. *)
Lemma frame_of_sheet f p df :
  frame_of f p = Ok df → ∃ rs, df = to_frame rs.
Proof.
  unfold frame_of, read_excel. py_unfold. cbn.
  destruct (f !! p) as [[?|[[|sh wb]|?|]]|]; cbn; try discriminate.
  intros [= <-]. eauto.
Qed.


(** The rows of a frame hold one cell per column. *)
Lemma to_frame_rows rs :
  Forall (λ row, length row = length (columns (to_frame rs))) (rows (to_frame rs)).
Proof.
  unfold to_frame. destruct (get_sheet_data rs) as [|header data] eqn:Hdata; [done|].
  cbn. rewrite dedup_names_length, length_imap.
  apply get_sheet_data_width in Hdata as [_ Hall].
  apply Forall_fmap. eapply Forall_impl; [exact Hall|].
  intros row. cbn. by rewrite length_fmap.
Qed.

Lemma frame_of_rows f p df :
  frame_of f p = Ok df → Forall (λ row, length row = length (columns df)) (rows df).
Proof. intros (rs & ->)%frame_of_sheet. apply to_frame_rows. Qed.

End FrameFacts.

(** ** The merged frame *)

Section merged_frame.
Import Merge MergeFacts FrameFacts.






End merged_frame.

(** ** Example directories *)

Definition id_name : list cell := [CText "id"; CText "name"].
Definition id_email : list cell := [CText "id"; CText "email"].

Definition book_a : Workbook :=
  [mkSheet "Sheet1" [id_name; [CInt 1; CText "ann"]; [CInt 2; CText "bob"]]].
Definition book_b : Workbook :=
  [mkSheet "Sheet1" [id_name; [CInt 3; CText "cy"]; [CInt 4; CText "di"]; [CInt 5; CText "ed"]]].
Definition book_c : Workbook :=
  [mkSheet "Sheet1" [id_email; [CInt 6; CText "f@x.org"]]].
Definition book_headers_only : Workbook :=
  [mkSheet "Sheet1" [id_name]].

Definition frame_a : DataFrame :=
  mkFrame [LText "id"; LText "name"] [[CInt 1; CText "ann"]; [CInt 2; CText "bob"]].
Definition frame_b : DataFrame :=
  mkFrame [LText "id"; LText "name"] [[CInt 3; CText "cy"]; [CInt 4; CText "di"]; [CInt 5; CText "ed"]].
Definition frame_c : DataFrame :=
  mkFrame [LText "id"; LText "email"] [[CInt 6; CText "f@x.org"]].

(** The script lives in [/app]; [/data] holds [a.xlsx] and [b.xlsx] with the
    same headers, next to entries the scan has to skip. *)
Definition data_dir : FS :=
  list_to_map
    [("/", Dir ["app"; "data"]);
     ("/app", Dir ["merge_excel_files.py"; "split_excel_sheets.py"]);
     ("/app/merge_excel_files.py", File Other);
     ("/app/split_excel_sheets.py", File Other);
     ("/data", Dir ["b.xlsx"; "notes.txt"; "old"; "a.xlsx"; "merged_excel_data_1.xlsx"]);
     ("/data/a.xlsx", File (Xlsx book_a));
     ("/data/b.xlsx", File (Xlsx book_b));
     ("/data/notes.txt", File Other);
     ("/data/merged_excel_data_1.xlsx", File (Xlsx book_c));
     ("/data/old", Dir ["z.xlsx"]);
     ("/data/old/z.xlsx", File (Xlsx book_c))].

(** The same with [c.xlsx], whose second header differs, between two files
    that agree. *)
Definition data_dir_mismatch : FS :=
  <["/data" := Dir ["d.xlsx"; "c.xlsx"; "a.xlsx"]]>
    (<["/data/c.xlsx" := File (Xlsx book_c)]>
       (<["/data/d.xlsx" := File (Xlsx book_b)]> data_dir)).

Definition clock : DateTime := mkDateTime 2024 3 7 9 5.

Definition merge_env (args : list string) : Env :=
  mkEnv ("merge_excel_files.py" :: args) "/app/merge_excel_files.py" id clock.

Definition split_env (args : list string) : Env :=
  mkEnv ("split_excel_sheets.py" :: args) "/app/split_excel_sheets.py" id clock.





(** ** A file whose headers differ *)

Section header_mismatch.
Import Merge MergeFacts.

Definition mismatch_message (p : string) : string :=
  error_line p ("Headers do not match for file: " +:+ p).

(** C2: a file [p] that is not the first of the sorted eligible files and
    whose leading columns differ from the headers of the first file [p0]
    adds nothing to the result, which is the one the other files alone
    give; the error is printed for it with the [(EE)] prefix; and the loop
    goes on: every file, those after [p] included, is opened, and the
    function returns normally. *)
Theorem header_mismatch_skips_file
    (f : FS) (folder : string) (tr : list event)
    (p0 : string) (df0 : DataFrame) (pre : list string)
    (p : string) (df : DataFrame) (post : list string) :
  sorted (collect f folder) = p0 :: pre ++ p :: post →
  frame_of f p0 = Ok df0 →
  frame_of f p = Ok df →
  take (length (columns df0)) (columns df) ≠ columns df0 →
  ∃ res tr',
    merge_excel_data_in_path folder (mkOS f tr) = (Ok res, mkOS f (tr ++ tr'))
    ∧ (merge_files (p0 :: pre ++ post) (mkOS f tr)).1 = Ok res
    ∧ mismatch_message p ∈ printed tr'
    ∧ opened tr' = p0 :: pre ++ p :: post
    ∧ written tr' = [].
Proof.
  intros Hfiles Hread0 Hread Hne.
  rewrite merge_excel_data_in_path_run. cbn [fs]. rewrite Hfiles.
  rewrite !merge_files_run. cbn [fs trace fst].
  eexists _, _. split; [reflexivity|].
  set (init := mkLocals [] None).
  assert (headers (loop_locals f 0 (p0 :: pre) init) = Some (columns df0)) as Hh.
  { cbn [loop_locals]. rewrite loop_headers_later by done.
    by rewrite (step_first_ok _ _ _ _ Hread0). }
  assert (step f (0 + length (p0 :: pre)) p (loop_locals f 0 (p0 :: pre) init)
          = (loop_locals f 0 (p0 :: pre) init,
             [ERead p None; EPrint ""; EPrint (mismatch_message p)])) as Hstep.
  { by apply (step_mismatch _ _ _ _ df (columns df0)). }
  split; [|split; [|split]].
  - do 2 f_equal.
    rewrite !(app_comm_cons pre), !loop_locals_app, (loop_locals_cons f _ p post).
    rewrite Hstep. cbn [fst]. f_equal. apply loop_locals_later; cbn; lia.
  - rewrite (app_comm_cons pre), loop_events_app, (loop_events_cons f _ p post).
    rewrite Hstep. cbn [snd fst]. rewrite !printed_app.
    apply elem_of_app. right. apply elem_of_app. left. cbn. set_solver.
  - apply loop_opened.
  - apply loop_written.
Qed.

Lemma header_mismatch_skips_file_witness :
  ∃ res tr',
    merge_excel_data_in_path "/data" (mkOS data_dir_mismatch [])
    = (Ok res, mkOS data_dir_mismatch ([] ++ tr'))
    ∧ (merge_files ("/data/a.xlsx" :: [] ++ ["/data/d.xlsx"]) (mkOS data_dir_mismatch [])).1 = Ok res
    ∧ mismatch_message "/data/c.xlsx" ∈ printed tr'
    ∧ opened tr' = "/data/a.xlsx" :: [] ++ "/data/c.xlsx" :: ["/data/d.xlsx"]
    ∧ written tr' = [].
Proof.
  apply (header_mismatch_skips_file data_dir_mismatch "/data" []
           "/data/a.xlsx" frame_a [] "/data/c.xlsx" frame_c ["/data/d.xlsx"]).
  - vm_compute. reflexivity.
  - vm_compute. reflexivity.
  - vm_compute. reflexivity.
  - vm_compute. discriminate.
Defined.

End header_mismatch.

(** ** The scan of the input directory *)

Section scan.
Import Merge MergeFacts.

(** The first triple [os.walk] yields does not depend on how far down the
    walk goes after it. *)
Lemma walk_head depth f top names :
  f !! top = Some (Dir names) →
  ∃ more,
    walk depth f top
    = (top,
       filter (λ n, isdir f (Path.join top n) = true) names,
       filter (λ n, isdir f (Path.join top n) = false) names) :: more.
Proof. intros Htop. destruct depth; cbn; rewrite Htop; eauto. Qed.

Lemma walk_not_dir depth f top :
  isdir f top = false → walk depth f top = [].
Proof.
  unfold isdir. intros Htop.
  destruct depth; cbn; by destruct (f !! top) as [[?|?]|].
Qed.

Lemma collect_dir f folder names :
  f !! folder = Some (Dir names) →
  collect f folder
  = Path.join folder <$>
      filter (λ n, eligible n = true) (filter (λ n, isdir f (Path.join folder n) = false) names).
Proof.
  intros Htop. unfold collect, os_walk.
  by destruct (walk_head (size f) f folder names Htop) as [more ->].
Qed.

Lemma collect_not_dir f folder : isdir f folder = false → collect f folder = [].
Proof. intros Htop. unfold collect, os_walk. by rewrite walk_not_dir. Qed.

(** The entries of [folder] the merge is to process: regular files directly
    in it, named [*.xlsx] or [*.xls], and not named [merged_*]. *)
Definition to_process (f : FS) (folder : string) (n : string) : Prop :=
  isdir f (Path.join folder n) = false
  ∧ (Str.endswith n ".xlsx" = true ∨ Str.endswith n ".xls" = true)
  ∧ Str.startswith n "merged_" = false.

Global Instance to_process_dec f folder n : Decision (to_process f folder n).
Proof. unfold to_process. apply _. Defined.

Lemma collect_to_process f folder names :
  f !! folder = Some (Dir names) →
  collect f folder = Path.join folder <$> filter (to_process f folder) names.
Proof.
  intros Htop. rewrite (collect_dir _ _ _ Htop). f_equal.
  rewrite list_filter_filter. apply list_filter_iff. intros n.
  unfold to_process, eligible.
  destruct (Str.endswith n ".xlsx"), (Str.endswith n ".xls"), (Str.startswith n "merged_");
    cbn; intuition discriminate.
Qed.

Lemma sorted_sorted l : StronglySorted String.le (sorted l).
Proof. apply (StronglySorted_merge_sort String.le). Qed.

Lemma sorted_perm l : sorted l ≡ₚ l.
Proof. apply (merge_sort_Permutation String.le). Qed.

(** C5: in a run over the directory [folder], whose entries are [names], the
    files opened are exactly the regular files directly in [folder] whose
    name ends in [.xlsx] or [.xls] and does not start with [merged_], each
    as often as the directory lists it, and they are opened in
    lexicographic order of their paths. *)
Theorem scan_immediate_children_sorted
    (f : FS) (folder : string) (names : list string) (tr : list event) :
  f !! folder = Some (Dir names) →
  ∃ res tr',
    merge_excel_data_in_path folder (mkOS f tr) = (Ok res, mkOS f (tr ++ tr'))
    ∧ opened tr' ≡ₚ Path.join folder <$> filter (to_process f folder) names
    ∧ (∀ p, p ∈ opened tr' ↔ ∃ n, n ∈ names ∧ to_process f folder n ∧ p = Path.join folder n)
    ∧ StronglySorted String.le (opened tr').
Proof.
  intros Htop.
  rewrite merge_excel_data_in_path_run, merge_files_run. cbn [fs trace].
  eexists _, _. split; [reflexivity|].
  rewrite loop_opened, (collect_to_process _ _ _ Htop).
  split; [apply sorted_perm|]. split; [|apply sorted_sorted].
  intros p. rewrite sorted_perm, list_elem_of_fmap.
  split.
  - intros (n & -> & [Hn Hin]%list_elem_of_filter). eauto.
  - intros (n & Hin & Hn & ->). exists n. split; [done|]. by apply list_elem_of_filter.
Qed.

Lemma scan_immediate_children_sorted_witness :
  ∃ res tr',
    merge_excel_data_in_path "/data" (mkOS data_dir []) = (Ok res, mkOS data_dir ([] ++ tr'))
    ∧ opened tr'
      ≡ₚ Path.join "/data" <$>
           filter (to_process data_dir "/data")
             ["b.xlsx"; "notes.txt"; "old"; "a.xlsx"; "merged_excel_data_1.xlsx"]
    ∧ (∀ p, p ∈ opened tr' ↔
         ∃ n, n ∈ ["b.xlsx"; "notes.txt"; "old"; "a.xlsx"; "merged_excel_data_1.xlsx"]
              ∧ to_process data_dir "/data" n ∧ p = Path.join "/data" n)
    ∧ StronglySorted String.le (opened tr').
Proof.
  apply (scan_immediate_children_sorted data_dir "/data"
           ["b.xlsx"; "notes.txt"; "old"; "a.xlsx"; "merged_excel_data_1.xlsx"] []).
  vm_compute. reflexivity.
Defined.

(** The scan of the example directory opens [a.xlsx] and [b.xlsx], in this
    order, and nothing else. *)
Example scan_data_dir :
  opened (trace (merge_excel_data_in_path "/data" (mkOS data_dir [])).2)
  = ["/data/a.xlsx"; "/data/b.xlsx"].
Proof. vm_compute. reflexivity. Qed.

End scan.

(** ** Strings and paths *)

Module StrFacts.

Lemma str_app_cons a s t : String a s +:+ t = String a (s +:+ t).
Proof. done. Qed.

Lemma str_app_nil_l t : "" +:+ t = t.
Proof. done. Qed.

Lemma str_app_assoc s t u : (s +:+ t) +:+ u = s +:+ (t +:+ u).
Proof. induction s as [|a s IH]; [done|]. by rewrite !str_app_cons, IH. Qed.

Lemma str_length_app s t : String.length (s +:+ t) = String.length s + String.length t.
Proof. induction s as [|a s IH]; [done|]. rewrite str_app_cons. cbn. by rewrite IH. Qed.

Lemma lacks_app c s t : Str.lacks c (s +:+ t) = Str.lacks c s && Str.lacks c t.
Proof.
  induction s as [|a s IH]; [done|]. rewrite str_app_cons. cbn.
  by rewrite IH, andb_assoc.
Qed.

Lemma rsplit_none c s : Str.rsplit c s = None → Str.lacks c s = true.
Proof.
  induction s as [|a s IH]; [done|]. cbn.
  destruct (Str.rsplit c s) as [[h t]|]; [done|].
  case_bool_decide; [done|]. intros _. by rewrite IH.
Qed.

Lemma rsplit_some c s h t :
  Str.rsplit c s = Some (h, t) → s = h +:+ String c t ∧ Str.lacks c t = true.
Proof.
  revert h. induction s as [|a s IH]; intros h; [done|]. cbn.
  destruct (Str.rsplit c s) as [[h' t']|] eqn:Hs.
  - intros [= <- <-]. destruct (IH h' eq_refl) as [-> Ht]. by rewrite str_app_cons.
  - case_bool_decide as Ha; [|done]. intros [= <- <-]. subst a.
    split; [done|]. by apply rsplit_none.
Qed.

Lemma rsplit_lacks c s : Str.lacks c s = true → Str.rsplit c s = None.
Proof.
  induction s as [|a s IH]; [done|]. cbn.
  intros [Ha Hs]%andb_prop. rewrite (IH Hs).
  apply negb_true_iff in Ha. by rewrite Ha.
Qed.

Lemma rsplit_app c h t :
  Str.lacks c t = true → Str.rsplit c (h +:+ String c t) = Some (h, t).
Proof.
  intros Ht. induction h as [|a h IH].
  - rewrite str_app_nil_l. cbn. rewrite (rsplit_lacks _ _ Ht).
    by rewrite bool_decide_eq_true_2.
  - rewrite str_app_cons. cbn. by rewrite IH.
Qed.

Lemma rstrip_length c s : String.length (Str.rstrip c s) ≤ String.length s.
Proof.
  induction s as [|a s IH]; [done|]. cbn.
  destruct (Str.rstrip c s) as [|b r]; [case_bool_decide|]; cbn in *; lia.
Qed.

(** A string that does not end in [c] loses exactly the [c] put after it. *)
Lemma rstrip_snoc c s :
  s ≠ "" → Str.ends_in c s = false → Str.rstrip c (s +:+ String c "") = s.
Proof.
  induction s as [|a s IH]; [done|]. intros _ Hend. rewrite str_app_cons.
  destruct s as [|b s].
  - cbn in Hend. rewrite str_app_nil_l. cbn.
    rewrite bool_decide_eq_true_2 by done. by rewrite Hend.
  - cbn [Str.rstrip]. rewrite IH by done. done.
Qed.

Lemma all_are_snoc c s :
  s ≠ "" → Str.ends_in c s = false → Str.all_are c (s +:+ String c "") = false.
Proof.
  induction s as [|a s IH]; [done|]. intros _ Hend. rewrite str_app_cons. cbn [Str.all_are].
  destruct s as [|b s].
  - cbn in Hend. rewrite str_app_nil_l. by rewrite Hend.
  - rewrite IH by done. apply andb_false_r.
Qed.

Lemma ends_in_app c s t : t ≠ "" → Str.ends_in c (s +:+ t) = Str.ends_in c t.
Proof.
  intros Ht. induction s as [|a s IH]; [done|]. rewrite str_app_cons.
  cbn [Str.ends_in]. destruct (s +:+ t) eqn:Hst; [|done].
  destruct s, t; done.
Qed.



Lemma startswith_app_l s t pre :
  Str.startswith s pre = true → Str.startswith (s +:+ t) pre = true.
Proof.
  revert s. induction pre as [|a pre IH]; intros s; [done|].
  destruct s as [|b s]; [done|]. rewrite str_app_cons. cbn.
  intros [-> Hs]%andb_prop. by rewrite IH.
Qed.



Lemma str_app_inj_r s t u : s +:+ u = t +:+ u → s = t.
Proof.
  revert t. induction s as [|a s IH]; intros [|b t] Heq; [done|..].
  - apply (f_equal String.length) in Heq. rewrite str_app_nil_l, str_app_cons in Heq.
    cbn in Heq. rewrite str_length_app in Heq. lia.
  - apply (f_equal String.length) in Heq. rewrite str_app_nil_l, str_app_cons in Heq.
    cbn in Heq. rewrite str_length_app in Heq. lia.
  - rewrite !str_app_cons in Heq. injection Heq as -> Heq. f_equal. by apply IH.
Qed.

End StrFacts.

Module PathFacts.
Import StrFacts.

(** A directory name as the scripts hold it: not empty and with no slash at
    its end. *)
Definition plain_dir (d : string) : Prop := d ≠ "" ∧ Str.ends_in Str.slash d = false.

Lemma join_plain d n :
  plain_dir d → Str.lacks Str.slash n = true → Path.join d n = d +:+ "/" +:+ n.
Proof.
  intros [Hd Hend] Hn. unfold Path.join.
  assert (Str.startswith n "/" = false) as ->.
  { destruct n as [|a n]; [done|]. cbn in Hn. cbn.
    apply andb_prop in Hn as [Ha _]. apply negb_true_iff, bool_decide_eq_false in Ha.
    by rewrite bool_decide_eq_false_2. }
  by rewrite bool_decide_eq_false_2, Hend.
Qed.

Lemma split_join d n :
  plain_dir d → Str.lacks Str.slash n = true → Path.split (Path.join d n) = (d, n).
Proof.
  intros Hd Hn. rewrite join_plain by done. destruct Hd as [Hd Hend].
  unfold Path.split. change ("/" +:+ n) with (String Str.slash n).
  rewrite rsplit_app by done.
  change (d +:+ "/") with (d +:+ String Str.slash "").
  by rewrite all_are_snoc, rstrip_snoc.
Qed.

(** The head [os.path.split] returns is shorter than the path by its tail
    at least. *)
Lemma split_length p :
  String.length (Path.split p).1 + String.length (Path.split p).2 ≤ String.length p.
Proof.
  unfold Path.split. destruct (Str.rsplit Str.slash p) as [[h t]|] eqn:Hp; [|cbn; lia].
  apply rsplit_some in Hp as [-> _]. cbn [fst snd].
  rewrite !str_length_app. cbn [String.length].
  destruct (Str.all_are Str.slash (h +:+ "/")).
  - rewrite str_length_app. cbn. lia.
  - pose proof (rstrip_length Str.slash (h +:+ "/")) as Hle.
    rewrite str_length_app in Hle. cbn in Hle. lia.
Qed.

Lemma join_inj d n1 n2 :
  plain_dir d → Str.lacks Str.slash n1 = true → Str.lacks Str.slash n2 = true →
  Path.join d n1 = Path.join d n2 → n1 = n2.
Proof.
  intros Hd H1 H2 Heq.
  assert (Path.split (Path.join d n1) = Path.split (Path.join d n2)) as Hs by by rewrite Heq.
  rewrite !split_join in Hs by done. by injection Hs.
Qed.

Lemma join_longer d n :
  plain_dir d → Str.lacks Str.slash n = true →
  String.length d < String.length (Path.join d n).
Proof. intros Hd Hn. rewrite join_plain by done. rewrite !str_length_app. cbn. lia. Qed.


Lemma digit_not_slash n : digit n ≠ Str.slash.
Proof.
  unfold digit.
  destruct (n `mod` 10) as [|[|[|[|[|[|[|[|[|?]]]]]]]]]; discriminate.
Qed.

Lemma strftime_lacks_slash d : Str.lacks Str.slash (strftime d) = true.
Proof.
  unfold strftime, digits2. cbn.
  rewrite !(bool_decide_eq_false_2 (digit _ = Str.slash)) by apply digit_not_slash.
  done.
Qed.

Lemma strftime_ends_plain d : Str.ends_in Str.slash (strftime d) = false.
Proof.
  unfold strftime, digits2. cbn.
  by rewrite (bool_decide_eq_false_2 (digit _ = Str.slash)) by apply digit_not_slash.
Qed.

Lemma strftime_length d : String.length (strftime d) = 13.
Proof. done. Qed.

End PathFacts.

(** ** Creating directories *)

Module FsFacts.
Import StrFacts PathFacts.

Lemma mkdir_exist_ok_spec name s :
  ∃ r f',
    mkdir_exist_ok name s = (r, mkOS f' (trace s))
    ∧ (∀ e, r = Raise e →
         f' = fs s ∧ isdir (fs s) name = false
         ∧ ∃ kind msg, e = Exc kind msg ∧ is_OSError kind = true)
    ∧ (r = Ok tt →
         isdir f' name = true
         ∧ (f' = fs s
            ∨ ∃ names,
                fs s !! name = None
                ∧ fs s !! (Path.split name).1 = Some (Dir names)
                ∧ f' = <[name := Dir []]>
                         (<[(Path.split name).1 := Dir (names ++ [(Path.split name).2])]> (fs s)))).
Proof.
  destruct s as [f tr]. unfold mkdir_exist_ok, mkdir, isdir. py_unfold. cbn.
  destruct (f !! name) as [[l|c]|] eqn:Hname; cbn; rewrite ?Hname.
  - exists (Ok tt), f. split; [done|]. split; [done|]. intros _.
    rewrite Hname. auto.
  - eexists (Raise _), f. split; [done|]. split; [|done]. intros e [= <-]. eauto 10.
  - destruct (Path.split name) as [head tail]. cbn [fst snd].
    destruct (f !! head) as [[names|c]|] eqn:Hhead; cbn; rewrite ?Hname.
    + eexists (Ok tt), _. split; [done|]. split; [done|]. intros _.
      rewrite lookup_insert_eq. split; [done|]. right. eauto.
    + eexists (Raise _), f. split; [done|]. split; [|done]. intros e [= <-]. eauto 10.
    + eexists (Raise _), f. split; [done|]. split; [|done]. intros e [= <-]. eauto 10.
Qed.

(** The directory [os.makedirs] makes sure of before it creates [name]. *)
Definition parent_of (name : string) : string * string :=
  let '(head, tail) := Path.split name in
  if bool_decide (tail = "") then Path.split head else (head, tail).

Lemma parent_of_length name :
  String.length (parent_of name).1 + String.length (parent_of name).2 ≤ String.length name.
Proof.
  unfold parent_of. pose proof (split_length name) as Hlen.
  destruct (Path.split name) as [h t]. cbn [fst snd] in Hlen.
  case_bool_decide; [|done].
  pose proof (split_length h). lia.
Qed.

Lemma parent_of_tail name :
  (Path.split name).2 ≠ "" → parent_of name = Path.split name.
Proof.
  unfold parent_of. destruct (Path.split name) as [h t]. cbn.
  intros Ht. by rewrite bool_decide_eq_false_2.
Qed.

Lemma makedirs_rec_unfold n name s :
  makedirs_rec n name s =
    let continue s1 :=
      if bool_decide ((parent_of name).2 = ".") then (Ok tt, s1) else mkdir_exist_ok name s1 in
    if negb (bool_decide ((parent_of name).1 = ""))
       && negb (bool_decide ((parent_of name).2 = ""))
       && negb (exists_ (fs s) (parent_of name).1)
    then
      match n with
      | O => mkdir_exist_ok name s
      | S n' =>
          match makedirs_rec n' (parent_of name).1 s with
          | (Ok _, s1) => continue s1
          | (Raise (Exc k msg), s1) =>
              if except_FileExistsError k then continue s1 else (Raise (Exc k msg), s1)
          | (Raise e, s1) => (Raise e, s1)
          end
      end
    else mkdir_exist_ok name s.
Proof.
  unfold parent_of. destruct n; cbn [makedirs_rec].
  all: destruct (Path.split name) as [h t].
  all: destruct (if bool_decide (t = "") then Path.split h else (h, t)) as [h' t'].
  all: py_unfold; cbn [fst snd].
  all: destruct (_ && _); [|done].
  - done.
  - destruct (makedirs_rec n h' s) as [[[]|[k msg|c]] s1]; cbn; [by case_bool_decide| |done].
    destruct (except_FileExistsError k); cbn; [by case_bool_decide|done].
Qed.

(** What [os.makedirs] does: it prints nothing, leaves every longer path
    alone, fails with an [OSError] only, creates [name] empty if it creates
    it, and, when it succeeds on a name whose last component is not [.],
    leaves [name] a directory. *)
Lemma makedirs_rec_spec n name s :
  ∃ r f',
    makedirs_rec n name s = (r, mkOS f' (trace s))
    ∧ (∀ k, String.length name < String.length k → f' !! k = fs s !! k)
    ∧ (∀ e, r = Raise e → ∃ kind msg, e = Exc kind msg ∧ is_OSError kind = true)
    ∧ (fs s !! name = None → f' !! name = None ∨ f' !! name = Some (Dir []))
    ∧ (r = Ok tt → (Path.split name).2 ≠ "" → (Path.split name).2 ≠ "." →
       isdir f' name = true).
Proof.
  revert name s. induction n as [|n IH]; intros name [f tr].
  all: rewrite makedirs_rec_unfold; cbn zeta; cbn [fs trace].
  all: pose proof (parent_of_length name) as Hlen.
  all: pose proof (split_length name) as Hlen0.
  all: pose proof (parent_of_tail name) as Htail.
  all: destruct (parent_of name) as [h' t']; cbn [fst snd] in *.
  all: assert (∀ s1 : OS,
         (∀ k, String.length name < String.length k → fs s1 !! k = f !! k) →
         (f !! name = None → fs s1 !! name = None) →
         ∃ r f',
           mkdir_exist_ok name s1 = (r, mkOS f' (trace s1))
           ∧ (∀ k, String.length name < String.length k → f' !! k = f !! k)
           ∧ (∀ e, r = Raise e → ∃ kind msg, e = Exc kind msg ∧ is_OSError kind = true)
           ∧ (f !! name = None → f' !! name = None ∨ f' !! name = Some (Dir []))
           ∧ (r = Ok tt → isdir f' name = true)) as Hlast.
  1,3: intros s1 Hframe Hnone;
    destruct (mkdir_exist_ok_spec name s1) as (r & f' & -> & Hraise & Hok);
    exists r, f'; split; [done|]; destruct r as [[]|e];
    [ destruct (Hok eq_refl) as [Hdir [->|(names & Hn & Hh & ->)]];
      [ split; [done|]; split; [done|]; split; [auto|done]
      | split; [|split; [done|split; [|done]]];
        [ intros k Hk; rewrite !lookup_insert_ne; [by apply Hframe| |]; intros <-; lia
        | intros _; right; by rewrite lookup_insert_eq ] ]
    | destruct (Hraise e eq_refl) as (-> & _ & Hkind);
      split; [done|]; split; [by intros ? [= <-]|]; split; [auto|done] ].
  all: destruct (negb (bool_decide (h' = "")) && negb (bool_decide (t' = ""))
                 && negb (exists_ f h')) eqn:Hcond.
  1,2,4: destruct (Hlast (mkOS f tr)) as (r & f' & -> & ? & ? & ? & ?); [done..|];
    exists r, f'; repeat split; auto.
  apply andb_prop in Hcond as [[Hh' Ht']%andb_prop Hex].
  apply negb_true_iff, bool_decide_eq_false in Hh', Ht'.
  assert (String.length h' < String.length name) as Hshort.
  { destruct t'; [done|]. cbn in Hlen. lia. }
  destruct (IH h' (mkOS f tr)) as (r1 & f1 & -> & Hframe1 & Hraise1 & _).
  cbn [fs trace] in *.
  assert (∃ r f',
            (if bool_decide (t' = ".") then (Ok tt, mkOS f1 tr)
             else mkdir_exist_ok name (mkOS f1 tr)) = (r, mkOS f' tr)
            ∧ (∀ k, String.length name < String.length k → f' !! k = f !! k)
            ∧ (∀ e, r = Raise e → ∃ kind msg, e = Exc kind msg ∧ is_OSError kind = true)
            ∧ (f !! name = None → f' !! name = None ∨ f' !! name = Some (Dir []))
            ∧ (r = Ok tt → (Path.split name).2 ≠ "" → (Path.split name).2 ≠ "." →
               isdir f' name = true)) as (r & f' & Hcont & ? & ? & ? & ?).
  { case_bool_decide as Hdot.
    - exists (Ok tt), f1. split; [done|]. split; [intros k Hk; apply Hframe1; lia|].
      split; [done|]. split; [intros Hn; left; rewrite Hframe1; [done|lia]|].
      intros _ Hne Hnd. specialize (Htail Hne). rewrite <- Htail in Hnd. by subst t'.
    - destruct (Hlast (mkOS f1 tr)) as (r & f' & -> & ? & ? & ? & ?).
      + intros k Hk. apply Hframe1. lia.
      + intros Hn. cbn. rewrite Hframe1; [done|lia].
      + exists r, f'. repeat split; auto. }
  destruct r1 as [[]|e1].
  - exists r, f'. by rewrite Hcont.
  - destruct (Hraise1 e1 eq_refl) as (kind & msg & -> & Hkind).
    destruct (except_FileExistsError kind) eqn:Hk.
    + exists r, f'. by rewrite Hcont.
    + eexists (Raise _), f1. split; [done|].
      split; [intros k Hk'; apply Hframe1; lia|].
      split; [intros ? [= <-]; eauto|].
      split; [intros Hn; left; rewrite Hframe1; [done|lia]|done].
Qed.

Lemma makedirs_spec name s :
  ∃ r f',
    makedirs name s = (r, mkOS f' (trace s))
    ∧ (∀ k, String.length name < String.length k → f' !! k = fs s !! k)
    ∧ (∀ e, r = Raise e → ∃ kind msg, e = Exc kind msg ∧ is_OSError kind = true)
    ∧ (fs s !! name = None → f' !! name = None ∨ f' !! name = Some (Dir []))
    ∧ (r = Ok tt → (Path.split name).2 ≠ "" → (Path.split name).2 ≠ "." →
       isdir f' name = true).
Proof. apply makedirs_rec_spec. Qed.

(** Unrolling the recursion of [os.makedirs] further than the length of the
    name changes nothing: [makedirs] is the library function itself. *)
Lemma makedirs_rec_fuel n m name s :
  String.length name ≤ n → String.length name ≤ m →
  makedirs_rec n name s = makedirs_rec m name s.
Proof.
  revert m name s. induction n as [|n IH]; intros m name s Hn Hm.
  all: rewrite (makedirs_rec_unfold _ name), (makedirs_rec_unfold m name); cbn zeta.
  all: pose proof (parent_of_length name) as Hlen.
  all: destruct (parent_of name) as [h' t']; cbn [fst snd] in *.
  all: destruct (negb (bool_decide (h' = "")) && negb (bool_decide (t' = ""))
                 && negb (exists_ (fs s) h')) eqn:Hcond; [|done].
  all: apply andb_prop in Hcond as [[Hh' Ht']%andb_prop Hex].
  all: apply negb_true_iff, bool_decide_eq_false in Hh', Ht'.
  all: assert (String.length h' < String.length name) as Hshort
         by (destruct t'; [done|]; cbn in Hlen; lia).
  - lia.
  - destruct m as [|m]; [lia|]. rewrite (IH m h' s) by lia. done.
Qed.

Lemma makedirs_unroll n name s :
  String.length name ≤ n → makedirs_rec n name s = makedirs name s.
Proof. intros Hn. by apply makedirs_rec_fuel. Qed.

(** Creating a subdirectory of a directory that does not exist yet leaves the
    directory, if it is there afterwards, with nothing but subdirectories. *)
Lemma makedirs_under_absent d m s s1 :
  plain_dir d → Str.lacks Str.slash m = true → m ≠ "" → m ≠ "." →
  fs s !! d = None →
  makedirs (Path.join d m) s = (Ok tt, s1) →
  isdir (fs s1) (Path.join d m) = true
  ∧ (fs s1 !! d = None ∨ fs s1 !! d = Some (Dir [])
     ∨ fs s1 !! d = Some (Dir [m])).
Proof.
  intros Hd Hm Hne Hdot Habsent. unfold makedirs.
  pose proof (join_longer d m Hd Hm) as Hlong.
  destruct (String.length (Path.join d m)) as [|n] eqn:Hn; [lia|].
  rewrite makedirs_rec_unfold. cbn zeta.
  rewrite parent_of_tail; rewrite split_join by done; [|done]. cbn [fst snd].
  destruct Hd as [Hd Hend].
  rewrite !bool_decide_eq_false_2 by done.
  unfold exists_ at 1. rewrite Habsent. cbn [negb andb].
  destruct (makedirs_rec_spec n d s) as (r1 & f1 & -> & Hframe & Hraise & Hown & _).
  specialize (Hown Habsent).
  assert (mkdir_exist_ok (Path.join d m) (mkOS f1 (trace s)) = (Ok tt, s1) →
          isdir (fs s1) (Path.join d m) = true
          ∧ (fs s1 !! d = None ∨ fs s1 !! d = Some (Dir []) ∨ fs s1 !! d = Some (Dir [m])))
    as Hlast.
  { intros Hrun.
    destruct (mkdir_exist_ok_spec (Path.join d m) (mkOS f1 (trace s)))
      as (r & f' & Hrun' & _ & Hok).
    rewrite Hrun in Hrun'. injection Hrun' as <- ->. cbn [fs trace] in *.
    destruct (Hok eq_refl) as [Hdir [->|(names & Hnone & Hparent & ->)]].
    - split; [done|]. destruct Hown; auto.
    - split; [done|]. rewrite split_join in * by done. cbn [fst snd] in *.
      assert (Path.join d m ≠ d) as Hneq by (intros Heq; rewrite Heq in Hn; lia).
      rewrite lookup_insert_ne, lookup_insert_eq by done.
      destruct Hown as [Hown|Hown]; rewrite Hown in Hparent; [done|].
      injection Hparent as <-. auto. }
  destruct r1 as [[]|[kind msg|c]]; [exact Hlast| |done].
  destruct (except_FileExistsError kind); [exact Hlast|done].
Qed.

(** Creating directories neither reads nor extends the trace. *)
Lemma mkdir_exist_ok_trace name f tr1 tr2 :
  ∃ r f',
    mkdir_exist_ok name (mkOS f tr1) = (r, mkOS f' tr1)
    ∧ mkdir_exist_ok name (mkOS f tr2) = (r, mkOS f' tr2).
Proof.
  unfold mkdir_exist_ok, mkdir, isdir. py_unfold. cbn.
  destruct (f !! name) as [[l|c]|] eqn:Hname; cbn; rewrite ?Hname; eauto.
  destruct (Path.split name) as [head tail].
  destruct (f !! head) as [[names|c]|]; cbn; rewrite ?Hname; eauto.
Qed.

Lemma makedirs_rec_trace n name f tr1 tr2 :
  ∃ r f',
    makedirs_rec n name (mkOS f tr1) = (r, mkOS f' tr1)
    ∧ makedirs_rec n name (mkOS f tr2) = (r, mkOS f' tr2).
Proof.
  revert name f. induction n as [|n IH]; intros name f.
  all: rewrite (makedirs_rec_unfold _ name (mkOS f tr1)),
         (makedirs_rec_unfold _ name (mkOS f tr2)); cbn zeta; cbn [fs].
  all: destruct (_ && _); [|apply mkdir_exist_ok_trace].
  - apply mkdir_exist_ok_trace.
  - destruct (IH (parent_of name).1 f) as (r1 & f1 & -> & ->).
    assert (∃ r f',
              (if bool_decide ((parent_of name).2 = ".") then (Ok tt, mkOS f1 tr1)
               else mkdir_exist_ok name (mkOS f1 tr1)) = (r, mkOS f' tr1)
              ∧ (if bool_decide ((parent_of name).2 = ".") then (Ok tt, mkOS f1 tr2)
                 else mkdir_exist_ok name (mkOS f1 tr2)) = (r, mkOS f' tr2))
      as (r & f' & Hc1 & Hc2).
    { case_bool_decide; [eauto|apply mkdir_exist_ok_trace]. }
    destruct r1 as [[]|[kind msg|code]]; [eauto| |eauto].
    destruct (except_FileExistsError kind); eauto.
Qed.

Lemma makedirs_result_trace name f tr1 tr2 :
  (makedirs name (mkOS f tr1)).1 = (makedirs name (mkOS f tr2)).1
  ∧ fs (makedirs name (mkOS f tr1)).2 = fs (makedirs name (mkOS f tr2)).2.
Proof.
  unfold makedirs.
  by destruct (makedirs_rec_trace (String.length name) name f tr1 tr2) as (r & f' & -> & ->).
Qed.

End FsFacts.

(** ** The merge script, step by step *)

Module MergeScriptFacts.
Import Merge MergeFacts FsFacts.

Definition no_arguments_line : string :=
  "(EE) Error: No arguments given. Provide a path to a folder with Excel files to merge.".

Definition same_directory_line : string :=
  "(EE) Error: Path same as script file path. Use a subfolder for files to be merged.".

Definition mkdir_failed_line (env : Env) (os_err : string) : string :=
  "Error creating directory " +:+ quoted (target_dir_path env) +:+ ":" +:+ nl +:+ tab +:+ os_err.

Definition looking_line : string :=
  "Looking for Excel files in given path to merge..." +:+ nl.

Definition nothing_found_line : string :=
  "(--) No Excel files were found or successfully read.".

(** The frames the loop of [merge_excel_data_in_path] has accumulated when it
    ends, on the file system [f]. *)
Definition accepted (f : FS) (folder : string) : list DataFrame :=
  frames (loop_locals f 0 (sorted (collect f folder)) (mkLocals [] None)).

Lemma script_no_arguments env s :
  length (argv env) < 2 →
  script env s
  = (Raise (SystemExit 1), mkOS (fs s) (trace s ++ [EPrint no_arguments_line; EPrint ""])).
Proof.
  intros Hargs. destruct s as [f tr]. unfold script. py_unfold.
  rewrite bool_decide_eq_true_2 by done. cbn. by rewrite <- ?app_assoc.
Qed.

Lemma script_makedirs_fails env s e s1 :
  2 ≤ length (argv env) →
  makedirs (target_dir_path env) s = (Raise e, s1) →
  ∃ kind os_err,
    e = Exc kind os_err
    ∧ script env s
      = (Raise (SystemExit 1),
         mkOS (fs s1) (trace s1 ++ [EPrint (mkdir_failed_line env os_err); EPrint ""])).
Proof.
  intros Hargs Hmk.
  destruct (makedirs_spec (target_dir_path env) s) as (r & f' & Hrun & _ & Hraise & _).
  rewrite Hmk in Hrun. injection Hrun as <- ->.
  destruct (Hraise e eq_refl) as (kind & msg & -> & Hkind).
  exists kind, msg. split; [done|].
  destruct s as [f tr]. unfold script. py_unfold.
  rewrite bool_decide_eq_false_2 by lia. cbn.
  rewrite Hmk. unfold except_OSError. rewrite Hkind. cbn. by rewrite <- ?app_assoc.
Qed.

Lemma script_runs_main env s s1 :
  2 ≤ length (argv env) →
  makedirs (target_dir_path env) s = (Ok tt, s1) →
  script env s
  = match main env (mkOS (fs s1) (trace s1 ++ [EPrint ""])) with
    | (Ok _, s2) => (Raise (SystemExit 0), mkOS (fs s2) (trace s2 ++ [EPrint ""]))
    | (Raise e, s2) => (Raise e, s2)
    end.
Proof.
  intros Hargs Hmk. destruct s as [f tr]. unfold script. py_unfold.
  rewrite bool_decide_eq_false_2 by lia. cbn.
  rewrite Hmk. cbn. by destruct (main env _) as [[[]|e] s2].
Qed.

Lemma main_same_directory env s :
  files_to_merge_dir env = this_file_dir env →
  main env s
  = (Raise (SystemExit 1),
     mkOS (fs s) (trace s ++ [EPrint looking_line; EPrint same_directory_line; EPrint ""])).
Proof.
  intros Hsame. destruct s as [f tr]. unfold main. py_unfold.
  rewrite bool_decide_eq_true_2 by done. cbn. by rewrite <- ?app_assoc.
Qed.

Lemma main_nothing_accepted env s :
  files_to_merge_dir env ≠ this_file_dir env →
  accepted (fs s) (files_to_merge_dir env) = [] →
  main env s
  = (Ok tt,
     mkOS (fs s)
       (trace s ++ [EPrint looking_line]
        ++ loop_events (fs s) 0 (sorted (collect (fs s) (files_to_merge_dir env)))
             (mkLocals [] None)
        ++ [EPrint ""; EPrint nothing_found_line])).
Proof.
  intros Hne Hnone. destruct s as [f tr]. unfold main. py_unfold.
  rewrite bool_decide_eq_false_2 by done. cbn.
  rewrite merge_excel_data_in_path_run, merge_files_run. cbn [fs trace].
  unfold accepted in Hnone. cbn [fs] in Hnone. rewrite Hnone. cbn.
  by rewrite <- ?app_assoc.
Qed.

Lemma makedirs_trace name s r s1 : makedirs name s = (r, s1) → trace s1 = trace s.
Proof.
  intros Hmk. destruct (makedirs_spec name s) as (r' & f' & Hrun & _).
  rewrite Hmk in Hrun. by injection Hrun as _ ->.
Qed.

(** The run in which the directory is set up and the loop accepts no file. *)
Lemma script_nothing_accepted env s s1 :
  2 ≤ length (argv env) →
  makedirs (target_dir_path env) s = (Ok tt, s1) →
  files_to_merge_dir env ≠ this_file_dir env →
  accepted (fs s1) (files_to_merge_dir env) = [] →
  script env s
  = (Raise (SystemExit 0),
     mkOS (fs s1)
       (trace s ++ [EPrint ""; EPrint looking_line]
        ++ loop_events (fs s1) 0 (sorted (collect (fs s1) (files_to_merge_dir env)))
             (mkLocals [] None)
        ++ [EPrint ""; EPrint nothing_found_line; EPrint ""])).
Proof.
  intros Hargs Hmk Hne Hnone.
  rewrite (script_runs_main _ _ _ Hargs Hmk).
  rewrite main_nothing_accepted by done. cbn [fs trace].
  rewrite (makedirs_trace _ _ _ _ Hmk). by rewrite <- !app_assoc.
Qed.

End MergeScriptFacts.

(** ** A run that accepts no file *)

Section nothing_accepted.
Import Merge MergeFacts FsFacts MergeScriptFacts.

(** C6, as the code has it: when the run gets past its set-up and the loop
    accepts no file (its list of frames stays empty), the script writes no
    file, leaves the file system as the set-up left it, reports that no
    Excel files were found or successfully read, and exits with code 0. *)
Theorem no_frame_no_output
    (env : Env) (f0 : FS) (tr0 : list event) (s1 : OS) :
  2 ≤ length (argv env) →
  makedirs (target_dir_path env) (mkOS f0 tr0) = (Ok tt, s1) →
  files_to_merge_dir env ≠ this_file_dir env →
  accepted (fs s1) (files_to_merge_dir env) = [] →
  exit_code (script env (mkOS f0 tr0)) = 0%Z
  ∧ fs (script env (mkOS f0 tr0)).2 = fs s1
  ∧ written (trace (script env (mkOS f0 tr0)).2) = written tr0
  ∧ ∃ before,
      printed (trace (script env (mkOS f0 tr0)).2) = before ++ [""; nothing_found_line; ""].
Proof.
  intros Hargs Hmk Hne Hnone.
  rewrite (script_nothing_accepted _ _ _ Hargs Hmk Hne Hnone). cbn [fs trace fst snd].
  split; [done|]. split; [done|]. split.
  - rewrite !written_app, loop_written. cbn. by rewrite app_nil_r.
  - exists (printed (tr0 ++ [EPrint ""; EPrint looking_line]
                     ++ loop_events (fs s1) 0
                          (sorted (collect (fs s1) (files_to_merge_dir env))) (mkLocals [] None))).
    by rewrite !app_assoc, (printed_app _ [_; _; _]).
Qed.

(** A directory whose only spreadsheet has a header row and no data row. *)
Definition data_dir_headers_only : FS :=
  <["/data" := Dir ["a.xlsx"]]> (<["/data/a.xlsx" := File (Xlsx book_headers_only)]> data_dir).

(** An empty directory. *)
Definition data_dir_empty : FS := <["/data" := Dir []]> data_dir.

Lemma no_frame_no_output_witness :
  exit_code (script (merge_env ["/data"]) (mkOS data_dir_empty [])) = 0%Z
  ∧ fs (script (merge_env ["/data"]) (mkOS data_dir_empty [])).2
    = fs (makedirs "/data/merged_excel_files" (mkOS data_dir_empty [])).2
  ∧ written (trace (script (merge_env ["/data"]) (mkOS data_dir_empty [])).2) = written []
  ∧ ∃ before,
      printed (trace (script (merge_env ["/data"]) (mkOS data_dir_empty [])).2)
      = before ++ [""; nothing_found_line; ""].
Proof.
  apply (no_frame_no_output (merge_env ["/data"]) data_dir_empty []
           (makedirs "/data/merged_excel_files" (mkOS data_dir_empty [])).2).
  - cbn. lia.
  - vm_compute. reflexivity.
  - vm_compute. discriminate.
  - vm_compute. reflexivity.
Defined.

(** The claim as the specification words it fails on a file without data
    rows: no file contributes a row, and yet both outputs are written. *)
Lemma header_only_file_is_written :
  (accepted data_dir_headers_only "/data" ≫= rows) = []
  ∧ written (trace (script (merge_env ["/data"]) (mkOS data_dir_headers_only [])).2)
    = ["/data/merged_excel_files/merged_excel_data_20240307_0905.xlsx";
       "/data/merged_excel_files/merged_excel_data_20240307_0905.csv"]
  ∧ (nothing_found_line
     ∉ printed (trace (script (merge_env ["/data"]) (mkOS data_dir_headers_only [])).2))
  ∧ exit_code (script (merge_env ["/data"]) (mkOS data_dir_headers_only [])) = 0%Z.
Proof.
  split; [vm_compute; reflexivity|]. split; [vm_compute; reflexivity|].
  split; [|vm_compute; reflexivity].
  eapply bool_decide_eq_false_1. vm_compute. reflexivity.
Qed.

End nothing_accepted.

(** ** A first file that cannot be read *)

Section first_file_unreadable.
Import Merge MergeFacts FsFacts MergeScriptFacts.

(** C10: when the run gets past its set-up and the first of the sorted
    eligible files fails to read, the loop ends with no headers and no
    frame, whatever the other files hold; an error line is printed for
    every eligible file (for a later file that reads, the error of
    [len(headers)] on the missing headers); nothing is written; and the
    script exits with code 0. *)
Theorem unreadable_first_file_fails_all
    (env : Env) (f0 : FS) (tr0 : list event) (s1 : OS)
    (p0 : string) (rest : list string) (e : exn) :
  2 ≤ length (argv env) →
  makedirs (target_dir_path env) (mkOS f0 tr0) = (Ok tt, s1) →
  files_to_merge_dir env ≠ this_file_dir env →
  sorted (collect (fs s1) (files_to_merge_dir env)) = p0 :: rest →
  frame_of (fs s1) p0 = Raise e →
  (∀ tr, (for_enumerate merge_file 0 (p0 :: rest) (mkLocals [] None) (mkOS (fs s1) tr)).1
         = Ok (mkLocals [] None))
  ∧ (∀ p, p ∈ p0 :: rest →
       failure_line (fs s1) p ∈ printed (trace (script env (mkOS f0 tr0)).2))
  ∧ written (trace (script env (mkOS f0 tr0)).2) = written tr0
  ∧ fs (script env (mkOS f0 tr0)).2 = fs s1
  ∧ exit_code (script env (mkOS f0 tr0)) = 0%Z.
Proof.
  intros Hargs Hmk Hne Hfiles Hread.
  assert (step (fs s1) 0 p0 (mkLocals [] None)
          = (mkLocals [] None, [ERead p0 None; EPrint ""; EPrint (failure_line (fs s1) p0)]))
    as Hstep by (apply step_headerless; eauto).
  assert (loop_locals (fs s1) 0 (p0 :: rest) (mkLocals [] None) = mkLocals [] None) as Hloc.
  { rewrite loop_locals_cons, Hstep. by apply loop_no_headers_locals. }
  assert (accepted (fs s1) (files_to_merge_dir env) = []) as Hnone.
  { unfold accepted. by rewrite Hfiles, Hloc. }
  split; [intros tr; rewrite loop_run; cbn [fs fst]; by rewrite Hloc|].
  rewrite (script_nothing_accepted _ _ _ Hargs Hmk Hne Hnone). cbn [fs trace fst snd].
  split; [|split; [|done]].
  - intros p Hin. rewrite Hfiles, !printed_app.
    apply elem_of_app. right. apply elem_of_app. right. apply elem_of_app. left.
    rewrite loop_events_cons, Hstep. cbn [fst snd]. rewrite printed_app.
    apply elem_of_app. apply elem_of_cons in Hin as [->|Hin].
    + left. cbn. set_solver.
    + right. by apply loop_headerless_events.
  - rewrite !written_app, loop_written. cbn. by rewrite app_nil_r.
Qed.

(** [a.xlsx] is not a workbook; [b.xlsx] is a good one. *)
Definition data_dir_first_broken : FS := <["/data/a.xlsx" := File Other]> data_dir.

Lemma unreadable_first_file_fails_all_witness :
  (∀ tr,
     (for_enumerate merge_file 0 ("/data/a.xlsx" :: ["/data/b.xlsx"]) (mkLocals [] None)
        (mkOS (fs (makedirs "/data/merged_excel_files" (mkOS data_dir_first_broken [])).2) tr)).1
     = Ok (mkLocals [] None))
  ∧ (∀ p, p ∈ "/data/a.xlsx" :: ["/data/b.xlsx"] →
       failure_line (fs (makedirs "/data/merged_excel_files" (mkOS data_dir_first_broken [])).2) p
       ∈ printed (trace (script (merge_env ["/data"]) (mkOS data_dir_first_broken [])).2))
  ∧ written (trace (script (merge_env ["/data"]) (mkOS data_dir_first_broken [])).2) = written []
  ∧ fs (script (merge_env ["/data"]) (mkOS data_dir_first_broken [])).2
    = fs (makedirs "/data/merged_excel_files" (mkOS data_dir_first_broken [])).2
  ∧ exit_code (script (merge_env ["/data"]) (mkOS data_dir_first_broken [])) = 0%Z.
Proof.
  apply (unreadable_first_file_fails_all (merge_env ["/data"]) data_dir_first_broken []
           (makedirs "/data/merged_excel_files" (mkOS data_dir_first_broken [])).2
           "/data/a.xlsx" ["/data/b.xlsx"]
           (Exc ValueError
              "Excel file format cannot be determined, you must specify an engine manually.")).
  - cbn. lia.
  - vm_compute. reflexivity.
  - vm_compute. discriminate.
  - vm_compute. reflexivity.
  - vm_compute. reflexivity.
Defined.

(** What the console shows in that run. *)
Example first_file_broken_console :
  printed (trace (script (merge_env ["/data"]) (mkOS data_dir_first_broken [])).2)
  = [""; looking_line;
     "";
     error_line "/data/a.xlsx"
       "Excel file format cannot be determined, you must specify an engine manually.";
     "";
     error_line "/data/b.xlsx" "object of type 'NoneType' has no len()";
     ""; nothing_found_line; ""].
Proof. vm_compute. reflexivity. Qed.

End first_file_unreadable.

(** ** The start-up checks of the merge script *)

Section merge_startup.
Import Merge MergeFacts PathFacts FsFacts MergeScriptFacts.

Lemma target_dir_split env :
  plain_dir (files_to_merge_dir env) →
  Path.split (target_dir_path env) = (files_to_merge_dir env, "merged_excel_files").
Proof. intros Hd. unfold target_dir_path. by rewrite split_join. Qed.

(** C8, as the code has it: a run on the directory of the script itself
    exits with code 1 and writes no file, but only after the module-level
    [os.makedirs] has run: the file system at the exit is the one
    [os.makedirs] left, so that, when [os.makedirs] succeeded, the
    directory [merged_excel_files] stands in the directory of the script. *)
Theorem same_directory_exits_after_makedirs
    (env : Env) (f0 : FS) (tr0 : list event) :
  2 ≤ length (argv env) →
  files_to_merge_dir env = this_file_dir env →
  exit_code (script env (mkOS f0 tr0)) = 1%Z
  ∧ fs (script env (mkOS f0 tr0)).2 = fs (makedirs (target_dir_path env) (mkOS f0 tr0)).2
  ∧ written (trace (script env (mkOS f0 tr0)).2) = written tr0
  ∧ ((makedirs (target_dir_path env) (mkOS f0 tr0)).1 = Ok tt →
     same_directory_line ∈ printed (trace (script env (mkOS f0 tr0)).2)
     ∧ (plain_dir (files_to_merge_dir env) →
        isdir (fs (script env (mkOS f0 tr0)).2) (target_dir_path env) = true)).
Proof.
  intros Hargs Hsame.
  destruct (makedirs_spec (target_dir_path env) (mkOS f0 tr0))
    as (r & f1 & Hmk & _ & Hraise & _ & Hdir).
  cbn [fs trace] in *. rewrite Hmk. cbn [fst snd fs].
  destruct r as [[]|e].
  - rewrite (script_runs_main _ _ _ Hargs Hmk), main_same_directory by done.
    cbn [fs trace fst snd exit_code].
    split; [done|]. split; [done|]. split.
    { rewrite !written_app. cbn. by rewrite !app_nil_r. }
    intros _. split.
    { rewrite !printed_app. cbn. set_solver. }
    intros Hplain. apply Hdir; [done|..]; by rewrite target_dir_split.
  - destruct (script_makedirs_fails _ _ _ _ Hargs Hmk) as (kind & msg & -> & ->).
    cbn [fs trace fst snd exit_code].
    split; [done|]. split; [done|]. split; [|done].
    rewrite written_app. cbn. by rewrite !app_nil_r.
Qed.

Lemma same_directory_exits_after_makedirs_witness :
  exit_code (script (merge_env ["/app"]) (mkOS data_dir [])) = 1%Z
  ∧ fs (script (merge_env ["/app"]) (mkOS data_dir [])).2
    = fs (makedirs (target_dir_path (merge_env ["/app"])) (mkOS data_dir [])).2
  ∧ written (trace (script (merge_env ["/app"]) (mkOS data_dir [])).2) = written []
  ∧ ((makedirs (target_dir_path (merge_env ["/app"])) (mkOS data_dir [])).1 = Ok tt →
     same_directory_line ∈ printed (trace (script (merge_env ["/app"]) (mkOS data_dir [])).2)
     ∧ (plain_dir (files_to_merge_dir (merge_env ["/app"])) →
        isdir (fs (script (merge_env ["/app"]) (mkOS data_dir [])).2)
          (target_dir_path (merge_env ["/app"])) = true)).
Proof.
  apply (same_directory_exits_after_makedirs (merge_env ["/app"]) data_dir []).
  - cbn. lia.
  - vm_compute. reflexivity.
Defined.

(** The claim as the specification words it fails: run on its own directory
    [/app], the script exits with code 1 after it has created
    [/app/merged_excel_files], which was not there before. *)
Lemma same_directory_run_creates_subdirectory :
  files_to_merge_dir (merge_env ["/app"]) = this_file_dir (merge_env ["/app"])
  ∧ exit_code (script (merge_env ["/app"]) (mkOS data_dir [])) = 1%Z
  ∧ data_dir !! "/app/merged_excel_files" = None
  ∧ fs (script (merge_env ["/app"]) (mkOS data_dir [])).2 !! "/app/merged_excel_files"
    = Some (Dir [])
  ∧ fs (script (merge_env ["/app"]) (mkOS data_dir [])).2 !! "/app"
    = Some (Dir ["merge_excel_files.py"; "split_excel_sheets.py"; "merged_excel_files"]).
Proof. repeat split; vm_compute; reflexivity. Qed.

(** C7, as the code has it: the script never tests whether its input
    directory exists.  On a directory that is absent [os.makedirs] is
    asked to create it together with [merged_excel_files]: if that fails
    the run exits with code 1; if it succeeds the run goes on, finds
    nothing to merge and exits with code 0.  Either way no merged output
    is written. *)
Theorem absent_directory_is_created
    (env : Env) (f0 : FS) (tr0 : list event) :
  2 ≤ length (argv env) →
  f0 !! files_to_merge_dir env = None →
  is_Some (f0 !! this_file_dir env) →
  plain_dir (files_to_merge_dir env) →
  written (trace (script env (mkOS f0 tr0)).2) = written tr0
  ∧ match (makedirs (target_dir_path env) (mkOS f0 tr0)).1 with
    | Ok _ =>
        exit_code (script env (mkOS f0 tr0)) = 0%Z
        ∧ isdir (fs (script env (mkOS f0 tr0)).2) (target_dir_path env) = true
        ∧ nothing_found_line ∈ printed (trace (script env (mkOS f0 tr0)).2)
    | Raise _ =>
        exit_code (script env (mkOS f0 tr0)) = 1%Z
        ∧ fs (script env (mkOS f0 tr0)).2 = fs (makedirs (target_dir_path env) (mkOS f0 tr0)).2
    end.
Proof.
  intros Hargs Habsent [nd Hthere] Hplain.
  assert (files_to_merge_dir env ≠ this_file_dir env) as Hne by congruence.
  destruct (makedirs (target_dir_path env) (mkOS f0 tr0)) as [r s1] eqn:Hmk. cbn [fst snd].
  destruct r as [[]|e].
  - destruct (makedirs_under_absent (files_to_merge_dir env) "merged_excel_files"
                (mkOS f0 tr0) s1) as [Hdir Hlist]; try done.
    assert (collect (fs s1) (files_to_merge_dir env) = []) as Hcollect.
    { destruct Hlist as [Hd|[Hd|Hd]].
      - apply collect_not_dir. unfold isdir. by rewrite Hd.
      - by rewrite (collect_dir _ _ _ Hd).
      - rewrite (collect_dir _ _ _ Hd).
        rewrite (filter_cons_False _ "merged_excel_files") by by rewrite Hdir. done. }
    assert (accepted (fs s1) (files_to_merge_dir env) = []) as Hnone.
    { unfold accepted. by rewrite Hcollect. }
    rewrite (script_nothing_accepted _ _ _ Hargs Hmk Hne Hnone). cbn [fs trace fst snd].
    split; [|split; [done|split; [done|]]].
    + rewrite !written_app, loop_written. cbn. by rewrite !app_nil_r.
    + rewrite !printed_app. cbn.
      rewrite elem_of_app, !elem_of_cons, elem_of_app, !elem_of_cons. auto 10.
  - destruct (script_makedirs_fails _ _ _ _ Hargs Hmk) as (kind & msg & -> & ->).
    cbn [fs trace fst snd exit_code].
    rewrite written_app, (makedirs_trace _ _ _ _ Hmk). cbn. by rewrite !app_nil_r.
Qed.

Lemma absent_directory_is_created_witness :
  written (trace (script (merge_env ["/missing"]) (mkOS data_dir [])).2) = written []
  ∧ match (makedirs (target_dir_path (merge_env ["/missing"])) (mkOS data_dir [])).1 with
    | Ok _ =>
        exit_code (script (merge_env ["/missing"]) (mkOS data_dir [])) = 0%Z
        ∧ isdir (fs (script (merge_env ["/missing"]) (mkOS data_dir [])).2)
            (target_dir_path (merge_env ["/missing"])) = true
        ∧ nothing_found_line
          ∈ printed (trace (script (merge_env ["/missing"]) (mkOS data_dir [])).2)
    | Raise _ =>
        exit_code (script (merge_env ["/missing"]) (mkOS data_dir [])) = 1%Z
        ∧ fs (script (merge_env ["/missing"]) (mkOS data_dir [])).2
          = fs (makedirs (target_dir_path (merge_env ["/missing"])) (mkOS data_dir [])).2
    end.
Proof.
  apply (absent_directory_is_created (merge_env ["/missing"]) data_dir []).
  - cbn. lia.
  - vm_compute. reflexivity.
  - vm_compute. eauto.
  - split; [discriminate|vm_compute; reflexivity].
Defined.

(** The claim as the specification words it fails: on the absent directory
    [/missing] the script creates it, writes no merged output, and exits
    with code 0, not 1. *)
Lemma absent_directory_run_exits_zero :
  data_dir !! files_to_merge_dir (merge_env ["/missing"]) = None
  ∧ exit_code (script (merge_env ["/missing"]) (mkOS data_dir [])) = 0%Z
  ∧ fs (script (merge_env ["/missing"]) (mkOS data_dir [])).2 !! "/missing"
    = Some (Dir ["merged_excel_files"])
  ∧ written (trace (script (merge_env ["/missing"]) (mkOS data_dir [])).2) = [].
Proof. repeat split; vm_compute; reflexivity. Qed.

End merge_startup.

(** ** The split script, step by step *)

Module SplitScriptFacts.
Import Split FsFacts.

Definition no_arguments_line : string :=
  "(EE) Error: No arguments given. Provide a path to an Excel file with multiple sheets.".

Definition usage_line (env : Env) : string :=
  "Usage: " +:+ this_file_name env +:+ " <excel_file>".

Definition not_found_line (excel_file : string) : string :=
  "Error: File " +:+ quoted excel_file +:+ " not found.".

Lemma split_no_arguments env s :
  length (argv env) < 2 →
  script env s
  = (Raise (SystemExit 1), mkOS (fs s) (trace s ++ [EPrint no_arguments_line; EPrint ""])).
Proof.
  intros Hargs. destruct s as [f tr]. unfold script. py_unfold.
  rewrite bool_decide_eq_true_2 by done. cbn. by rewrite <- ?app_assoc.
Qed.

Lemma script_wrong_count env s :
  2 < length (argv env) →
  script env s
  = (Raise (SystemExit 1), mkOS (fs s) (trace s ++ [EPrint ""; EPrint (usage_line env)])).
Proof.
  intros Hargs. destruct s as [f tr]. unfold script. py_unfold.
  rewrite bool_decide_eq_false_2 by lia. cbn.
  rewrite bool_decide_eq_true_2 by lia. cbn. by rewrite <- ?app_assoc.
Qed.

Lemma script_file_missing env s :
  length (argv env) = 2 →
  isfile (fs s) (argv env !!! 1) = false →
  script env s
  = (Raise (SystemExit 1),
     mkOS (fs s) (trace s ++ [EPrint ""; EPrint (not_found_line (argv env !!! 1))])).
Proof.
  intros Hargs Hfile. destruct s as [f tr]. unfold script. py_unfold.
  rewrite bool_decide_eq_false_2 by lia. cbn.
  rewrite bool_decide_eq_false_2 by (intros ?; lia). cbn in *.
  rewrite Hfile. cbn. by rewrite <- ?app_assoc.
Qed.

Lemma script_runs_split env s :
  length (argv env) = 2 →
  isfile (fs s) (argv env !!! 1) = true →
  script env s
  = split_worksheets_to_files env (argv env !!! 1) (mkOS (fs s) (trace s ++ [EPrint ""])).
Proof.
  intros Hargs Hfile. destruct s as [f tr]. unfold script. py_unfold.
  rewrite bool_decide_eq_false_2 by lia. cbn.
  rewrite bool_decide_eq_false_2 by (intros ?; lia). cbn in *.
  rewrite Hfile. cbn. by destruct (split_worksheets_to_files _ _ _) as [[[]|?] ?].
Qed.

Lemma load_workbook_run path s wb :
  supported_format path = true →
  fs s !! path = Some (File (Xlsx wb)) → load_workbook path s = (Ok wb, s).
Proof. intros Hext Hwb. unfold load_workbook. py_unfold. rewrite Hext. cbn. by rewrite Hwb. Qed.

(** A workbook is loaded from a file of a supported name that holds one. *)
Lemma load_workbook_ok path s wb :
  (load_workbook path s).1 = Ok wb →
  supported_format path = true ∧ fs s !! path = Some (File (Xlsx wb)).
Proof.
  unfold load_workbook. py_unfold.
  destruct (supported_format path); [|done]. cbn.
  destruct (fs s !! path) as [[?|[?|?|]]|]; try done. by intros [= ->].
Qed.

Lemma load_workbook_raises path s e :
  (load_workbook path s).1 = Raise e →
  load_workbook path s = (Raise e, s) ∧ ∃ k msg, e = Exc k msg.
Proof.
  unfold load_workbook. py_unfold.
  destruct (supported_format path); cbn.
  - destruct (fs s !! path) as [[?|[?|?|]]|]; try done; intros [= <-]; eauto.
  - intros [= <-]. eauto.
Qed.

Lemma split_makedirs_fails env excel_file s wb e s1 :
  supported_format excel_file = true →
  fs s !! excel_file = Some (File (Xlsx wb)) →
  makedirs (folder_name_of env excel_file) s = (Raise e, s1) →
  split_worksheets_to_files env excel_file s = (Raise e, s1).
Proof.
  intros Hext Hwb Hmk. unfold split_worksheets_to_files. py_unfold.
  rewrite (load_workbook_run _ _ _ Hext Hwb). by rewrite Hmk.
Qed.

End SplitScriptFacts.

(** ** Fatal errors of the two scripts *)

Section fatal_errors.
Import FsFacts.

Inductive cli : Type := MergeCLI | SplitCLI.

Definition run_cli (c : cli) (env : Env) : Py unit :=
  match c with
  | MergeCLI => Merge.script env
  | SplitCLI => Split.script env
  end.

Inductive fatal : Type :=
  | NoArguments
  | WrongArgumentCount
  | InputFileMissing
  | CannotCreateDirectory (os_err : string)
  | SameDirectory.

(** The fatal error a run of a script from the state [s] meets, if any, in
    the order the script tests for them. *)
Definition fatal_error (c : cli) (env : Env) (s : OS) : option fatal :=
  if bool_decide (length (argv env) < 2) then Some NoArguments else
  match c with
  | MergeCLI =>
      match (makedirs (Merge.target_dir_path env) s).1 with
      | Raise (Exc _ os_err) => Some (CannotCreateDirectory os_err)
      | Raise (SystemExit _) => None
      | Ok _ =>
          if bool_decide (Merge.files_to_merge_dir env = Merge.this_file_dir env)
          then Some SameDirectory else None
      end
  | SplitCLI =>
      if bool_decide (length (argv env) ≠ 2) then Some WrongArgumentCount else
      match fs s !! (argv env !!! 1) with
      | Some (File _) =>
          match (load_workbook (argv env !!! 1) s).1 with
          | Ok _ =>
              match (makedirs (Split.folder_name_of env (argv env !!! 1)) s).1 with
              | Raise (Exc _ os_err) => Some (CannotCreateDirectory os_err)
              | _ => None
              end
          | Raise _ => None
          end
      | _ => Some InputFileMissing
      end
  end.

(** The line a script prints for a fatal error; the split script prints
    none when it cannot create its folder (the exception is not caught). *)
Definition report (c : cli) (env : Env) (k : fatal) : option string :=
  match k, c with
  | NoArguments, MergeCLI => Some MergeScriptFacts.no_arguments_line
  | NoArguments, SplitCLI => Some SplitScriptFacts.no_arguments_line
  | WrongArgumentCount, _ => Some (SplitScriptFacts.usage_line env)
  | InputFileMissing, _ => Some (SplitScriptFacts.not_found_line (argv env !!! 1))
  | CannotCreateDirectory os_err, MergeCLI => Some (MergeScriptFacts.mkdir_failed_line env os_err)
  | CannotCreateDirectory _, SplitCLI => None
  | SameDirectory, _ => Some MergeScriptFacts.same_directory_line
  end.

(** The fatal errors whose line is printed through [error], with [(EE)]. *)
Definition through_error (k : fatal) : bool :=
  match k with
  | NoArguments | SameDirectory => true
  | WrongArgumentCount | InputFileMissing | CannotCreateDirectory _ => false
  end.

(** C9, as the code has it: every fatal error of either script (no
    argument, wrong number of arguments, input file missing, output
    directory cannot be created, input directory the script's own) ends the
    process with exit code 1 and writes no file; the line that reports it
    starts with [(EE)] exactly for the two errors printed through [error]:
    no argument (both scripts) and the merge script's same-directory
    error.  The other lines are printed bare, and the split script prints
    no line at all when it cannot create its folder. *)
Theorem fatal_errors_exit_one (c : cli) (env : Env) (s : OS) (k : fatal) :
  fatal_error c env s = Some k →
  exit_code (run_cli c env s) = 1%Z
  ∧ ∃ tr',
      trace (run_cli c env s).2 = trace s ++ tr'
      ∧ written tr' = []
      ∧ match report c env k with
        | Some line => line ∈ printed tr' ∧ Str.startswith line "(EE)" = through_error k
        | None => Forall (λ l, Str.startswith l "(EE)" = false) (printed tr')
        end.
Proof.
  destruct s as [f tr]. unfold fatal_error. cbn [fs trace]. case_bool_decide as Hargs.
  { intros [= <-]. destruct c; cbn [run_cli report through_error].
    - rewrite MergeScriptFacts.script_no_arguments by done.
      split; [done|]. eexists. split; [reflexivity|]. split; [done|]. split; [|done].
      cbn. set_solver.
    - rewrite SplitScriptFacts.split_no_arguments by done.
      split; [done|]. eexists. split; [reflexivity|]. split; [done|]. split; [|done].
      cbn. set_solver. }
  assert (2 ≤ length (argv env)) as Hargs' by lia.
  destruct c; cbn [run_cli].
  - destruct (makedirs (Merge.target_dir_path env) (mkOS f tr)) as [r s1] eqn:Hmk. cbn [fst].
    pose proof (MergeScriptFacts.makedirs_trace _ _ _ _ Hmk) as Htr.
    destruct r as [[]|[kind os_err|code]]; [| |done].
    + case_bool_decide as Hsame; [|done]. intros [= <-]. cbn [report through_error].
      rewrite (MergeScriptFacts.script_runs_main _ _ _ Hargs' Hmk).
      rewrite MergeScriptFacts.main_same_directory by done. cbn [fs trace fst snd exit_code].
      split; [done|]. eexists. rewrite Htr, <- app_assoc. split; [reflexivity|].
      split; [done|]. split; [|done]. cbn. set_solver.
    + intros [= <-]. cbn [report through_error].
      destruct (MergeScriptFacts.script_makedirs_fails _ _ _ _ Hargs' Hmk)
        as (kind' & msg' & [= <- <-] & ->).
      cbn [fs trace fst snd exit_code].
      split; [done|]. eexists. rewrite Htr. split; [reflexivity|].
      split; [done|]. split; [|done]. cbn. set_solver.
  - case_bool_decide as Hcount.
    { intros [= <-]. cbn [report through_error].
      rewrite SplitScriptFacts.script_wrong_count by lia.
      split; [done|]. eexists. split; [reflexivity|]. split; [done|]. split; [|done].
      cbn. set_solver. }
    assert (length (argv env) = 2) as Htwo by lia.
    destruct (f !! (argv env !!! 1)) as [[names|c]|] eqn:Hfile.
    + intros [= <-]. cbn [report through_error].
      rewrite SplitScriptFacts.script_file_missing by (done || (unfold isfile; cbn [fs]; by rewrite Hfile)).
      split; [done|]. eexists. split; [reflexivity|]. split; [done|]. split; [|done].
      cbn. set_solver.
    + destruct (load_workbook (argv env !!! 1) (mkOS f tr)).1 as [wb|e] eqn:Hload; [|done].
      apply SplitScriptFacts.load_workbook_ok in Hload as [Hext Hwb]. cbn [fs] in Hwb.
      pose proof (makedirs_result_trace (Split.folder_name_of env (argv env !!! 1))
                    f tr (tr ++ [EPrint ""])) as [Hres _].
      destruct (makedirs _ (mkOS f tr)).1 as [[]|[kind os_err|code]] eqn:Hr; try done.
      intros [= <-]. cbn [report].
      rewrite SplitScriptFacts.script_runs_split by (done || (unfold isfile; cbn [fs]; by rewrite Hfile)).
      cbn [fs trace].
      destruct (makedirs (Split.folder_name_of env (argv env !!! 1)) (mkOS f (tr ++ [EPrint ""])))
        as [r1 s1] eqn:Hmk.
      pose proof (MergeScriptFacts.makedirs_trace _ _ _ _ Hmk) as Htr.
      cbn [fst trace] in *. subst r1.
      rewrite (SplitScriptFacts.split_makedirs_fails env _ (mkOS f _) wb _ _ Hext Hwb Hmk).
      cbn [fst snd exit_code].
      split; [done|]. eexists. rewrite Htr. split; [reflexivity|]. split; [done|].
      by repeat constructor.
    + intros [= <-]. cbn [report through_error].
      rewrite SplitScriptFacts.script_file_missing by (done || (unfold isfile; cbn [fs]; by rewrite Hfile)).
      split; [done|]. eexists. split; [reflexivity|]. split; [done|]. split; [|done].
      cbn. set_solver.
Qed.

End fatal_errors.

Definition not_a_directory_message : string :=
  "[Errno 20] Not a directory: '/data/a.xlsx/merged_excel_files'".

Lemma fatal_errors_exit_one_witness :
  exit_code (run_cli MergeCLI (merge_env ["/data/a.xlsx"]) (mkOS data_dir [])) = 1%Z
  ∧ ∃ tr',
      trace (run_cli MergeCLI (merge_env ["/data/a.xlsx"]) (mkOS data_dir [])).2
      = trace (mkOS data_dir []) ++ tr'
      ∧ written tr' = []
      ∧ match report MergeCLI (merge_env ["/data/a.xlsx"])
                (CannotCreateDirectory not_a_directory_message) with
        | Some line =>
            line ∈ printed tr'
            ∧ Str.startswith line "(EE)"
              = through_error (CannotCreateDirectory not_a_directory_message)
        | None => Forall (λ l, Str.startswith l "(EE)" = false) (printed tr')
        end.
Proof.
  apply (fatal_errors_exit_one MergeCLI (merge_env ["/data/a.xlsx"]) (mkOS data_dir [])
           (CannotCreateDirectory not_a_directory_message)).
  vm_compute. reflexivity.
Defined.

(** The claim as the specification words it fails: when the merge script
    cannot create its output directory (here the argument names a file),
    the process exits with code 1, but no line on the console starts with
    [(EE)]. *)
Lemma mkdir_failure_is_reported_bare :
  fatal_error MergeCLI (merge_env ["/data/a.xlsx"]) (mkOS data_dir [])
  = Some (CannotCreateDirectory not_a_directory_message)
  ∧ exit_code (Merge.script (merge_env ["/data/a.xlsx"]) (mkOS data_dir [])) = 1%Z
  ∧ printed (trace (Merge.script (merge_env ["/data/a.xlsx"]) (mkOS data_dir [])).2)
    = [MergeScriptFacts.mkdir_failed_line (merge_env ["/data/a.xlsx"]) not_a_directory_message;
       ""]
  ∧ Forall (λ l, Str.startswith l "(EE)" = false)
      (printed (trace (Merge.script (merge_env ["/data/a.xlsx"]) (mkOS data_dir [])).2)).
Proof.
  split; [vm_compute; reflexivity|]. split; [vm_compute; reflexivity|].
  split; [vm_compute; reflexivity|].
  vm_compute. repeat constructor.
Qed.

(** The split script reports a missing input file and a wrong number of
    arguments without the prefix as well. *)
Example split_missing_file_console :
  printed (trace (Split.script (split_env ["/data/none.xlsx"]) (mkOS data_dir [])).2)
  = [""; "Error: File '/data/none.xlsx' not found."]
  ∧ exit_code (Split.script (split_env ["/data/none.xlsx"]) (mkOS data_dir [])) = 1%Z.
Proof. split; vm_compute; reflexivity. Qed.

Example split_usage_console :
  printed (trace (Split.script (split_env ["/data/a.xlsx"; "extra"]) (mkOS data_dir [])).2)
  = [""; "Usage: split_excel_sheets.py <excel_file>"]
  ∧ exit_code (Split.script (split_env ["/data/a.xlsx"; "extra"]) (mkOS data_dir [])) = 1%Z.
Proof. split; vm_compute; reflexivity. Qed.

(** ** The split loop *)

Module SplitFacts.
Import Split StrFacts PathFacts FsFacts SplitScriptFacts.

(** The file the sheet titled [t] is saved to. *)
Definition out_path (folder t : string) : string := Path.join folder (t +:+ ".xlsx").


(** The entries of a directory after a file named [n] was saved in it. *)
Definition add_entry (names : list string) (n : string) : list string :=
  if bool_decide (n ∈ names) then names else names ++ [n].





Lemma lacks_of_valid_title t : valid_title t = true → Str.lacks Str.slash (t +:+ ".xlsx") = true.
Proof.
  unfold valid_title, invalid_title_chars. cbn. intros Hv.
  rewrite lacks_app.
  repeat (apply andb_prop in Hv as [? Hv]).
  apply andb_true_intro. by split.
Qed.



















Lemma folder_name_plain env excel_file : plain_dir (folder_name_of env excel_file).
Proof.
  unfold folder_name_of. split.
  - intros Heq. apply (f_equal String.length) in Heq.
    rewrite !str_length_app, strftime_length in Heq. cbn in Heq. lia.
  - rewrite ends_in_app by done. rewrite ends_in_app by done. apply strftime_ends_plain.
Qed.



End SplitFacts.

(** ** One file per sheet *)

Section one_file_per_sheet.
Import Split SplitFacts.



(** A workbook with the sheets [Jan] and [Feb]. *)
Definition book_months : Workbook :=
  [mkSheet "Jan" [id_name; [CInt 1; CText "ann"]; [CInt 2; CText "bob"]];
   mkSheet "Feb" [id_name; [CInt 3; CText "cy"]]].

Definition months_dir : FS :=
  <["/data" := Dir ["months.xlsx"]]> (<["/data/months.xlsx" := File (Xlsx book_months)]> data_dir).





(** The two files of the example, as the scenario of the specification has
    them. *)
Example split_months_files :
  written (trace (Split.script (split_env ["/data/months.xlsx"]) (mkOS months_dir [])).2)
  = ["/data/months_20240307_0905/Jan.xlsx"; "/data/months_20240307_0905/Feb.xlsx"].
Proof. vm_compute. reflexivity. Qed.

End one_file_per_sheet.

(** ** The renaming of repeated labels *)

Module RenameFacts.
Import StrFacts.

Lemma str_app_inj_l s t1 t2 : s +:+ t1 = s +:+ t2 → t1 = t2.
Proof.
  induction s as [|a s IH]; [done|]. rewrite !str_app_cons. intros [= H]. by apply IH.
Qed.

Lemma numbered_inj old k k' : numbered old k = numbered old k' → k = k'.
Proof.
  unfold numbered. intros [= H].
  apply str_app_inj_l, str_app_inj_l in H. by apply (inj pretty).
Qed.

Lemma numbered_ne old k : numbered old k ≠ old.
Proof.
  unfold numbered. destruct old as [s|z]; [|done]. cbn. intros [= H].
  apply (f_equal String.length) in H. rewrite !str_length_app in H. cbn in H. lia.
Qed.

Lemma filter_ne_length (x : label) (l : list label) :
  x ∈ l → length (filter (λ y, y ≠ x) l) < length l.
Proof.
  induction l as [|y l IH]; intros Hin; [by apply elem_of_nil in Hin|].
  destruct (decide (y = x)) as [->|Hne].
  - rewrite filter_cons_False by (intros H; by apply H).
    pose proof (length_filter (λ y, y ≠ x) l). cbn. lia.
  - rewrite filter_cons_True by done. cbn.
    apply elem_of_cons in Hin as [->|Hin]; [done|]. specialize (IH Hin). lia.
Qed.

(** What the loop that looks for a free name ends with, when every counted
    label is among the columns: it has found its name, and it has counted
    no label but the one it renames. *)
Lemma next_free_ends fuel cols old counts col cur (avail : list label) :
  (∀ c, 0 < counts !!! c → c ∈ cols) →
  old ∈ cols →
  (∀ k, cur ≤ k → numbered old k ∈ cols → numbered old k ∈ avail) →
  length avail < fuel →
  (next_free fuel cols old counts col cur).1.2 = 0
  ∧ ∀ c, 0 < (next_free fuel cols old counts col cur).2 !!! c →
         0 < counts !!! c ∨ (c = old ∧ 0 < cur).
Proof.
  revert counts col cur avail.
  induction fuel as [|fuel IH]; intros counts col cur avail Hcounted Hold Havail Hlen; [lia|].
  destruct cur as [|cur]; [cbn; by eauto|].
  cbn [next_free].
  set (counts1 := <[old := S cur + 1]> counts).
  assert (∀ c, 0 < counts1 !!! c → c ∈ cols) as Hcounted1.
  { intros c. unfold counts1. destruct (decide (c = old)) as [->|Hne]; [done|].
    rewrite lookup_total_insert_ne by done. apply Hcounted. }
  assert (∀ c, 0 < counts1 !!! c → 0 < counts !!! c ∨ (c = old ∧ 0 < S cur)) as Hgrow.
  { intros c. unfold counts1. destruct (decide (c = old)) as [->|Hne].
    - intros _. right. split; [done|lia].
    - rewrite lookup_total_insert_ne by done. by left. }
  case_bool_decide as Hin.
  - destruct (IH counts1 (numbered old (S cur)) (S cur + 1)
                (filter (λ y, y ≠ numbered old (S cur)) avail)) as [Hend Hc]; try done.
    + intros k Hk Hcols. apply list_elem_of_filter. split.
      * intros Heq%numbered_inj. lia.
      * apply Havail; [lia|done].
    + assert (numbered old (S cur) ∈ avail) as Hav by (by apply Havail).
      pose proof (filter_ne_length _ _ Hav). lia.
    + split; [done|]. intros c Hpos. destruct (Hc c Hpos) as [H1|[-> _]].
      * by apply Hgrow.
      * right. split; [done|lia].
  - assert (counts1 !!! numbered old (S cur) = 0) as Hzero.
    { destruct (counts1 !!! numbered old (S cur)) eqn:Hn; [done|].
      destruct Hin. apply Hcounted1. lia. }
    rewrite Hzero. destruct fuel; cbn; split; by auto.
Qed.

(** The labels counted so far are the labels at the positions gone
    through. *)
Definition counted (seen : list nat) (cols : list label) (counts : gmap label nat) : Prop :=
  ∀ c, 0 < counts !!! c → ∃ j, j ∈ seen ∧ cols !! j = Some c.

Lemma counted_in_columns seen cols counts c :
  counted seen cols counts → 0 < counts !!! c → c ∈ cols.
Proof. intros Hc Hpos. destruct (Hc c Hpos) as (j & _ & Hj). by eapply list_elem_of_lookup_2. Qed.

(** In every round of the renaming the search for a free name ends before
    its fuel does. *)
Fixpoint settled (order : list nat) (st : list label * gmap label nat) : Prop :=
  match order with
  | [] => True
  | i :: order' =>
      match st.1 !! i with
      | Some col =>
          (next_free (S (length st.1)) st.1 col st.2 col (st.2 !!! col)).1.2 = 0
      | None => True
      end
      ∧ settled order' (dedup_step st i)
  end.

Lemma dedup_step_counted seen cols counts i :
  counted seen cols counts → i ∉ seen →
  match cols !! i with
  | Some col => (next_free (S (length cols)) cols col counts col (counts !!! col)).1.2 = 0
  | None => True
  end
  ∧ counted (i :: seen) (dedup_step (cols, counts) i).1 (dedup_step (cols, counts) i).2.
Proof.
  intros Hcounted Hi. unfold dedup_step.
  destruct (cols !! i) as [col|] eqn:Hcol.
  2:{ split; [done|]. intros c Hpos. destruct (Hcounted c Hpos) as (j & Hj & Hc).
      exists j. split; [by right|done]. }
  destruct (next_free_ends (S (length cols)) cols col counts col (counts !!! col) cols)
    as [Hend Hgrow].
  { intros c. by apply (counted_in_columns seen). }
  { by eapply list_elem_of_lookup_2. }
  { done. }
  { lia. }
  split; [done|].
  destruct (next_free _ _ _ _ _ _) as [[col' cur'] counts'] eqn:Hnf. cbn [fst snd] in *.
  intros c. destruct (decide (c = col')) as [->|Hne].
  - intros _. exists i. split; [by left|].
    apply list_lookup_insert_eq. by eapply lookup_lt_Some.
  - rewrite lookup_total_insert_ne by done. intros Hpos.
    assert (0 < counts !!! c) as Hpos'.
    { destruct (Hgrow c Hpos) as [?|[-> ?]]; done. }
    destruct (Hcounted c Hpos') as (j & Hj & Hc).
    exists j. split; [by right|].
    rewrite list_lookup_insert_ne; [done|]. by intros ->.
Qed.

Lemma dedup_settled order seen cols counts :
  NoDup order → (∀ i, i ∈ order → i ∉ seen) → counted seen cols counts →
  settled order (cols, counts).
Proof.
  revert seen cols counts.
  induction order as [|i order IH]; intros seen cols counts Hnd Hfresh Hcounted; [done|].
  apply NoDup_cons in Hnd as [Hi Hnd].
  destruct (dedup_step_counted seen cols counts i Hcounted) as [Hend Hnext].
  { apply Hfresh. by left. }
  cbn [settled fst snd]. split; [exact Hend|].
  destruct (dedup_step (cols, counts) i) as [cols' counts'] eqn:Hstep.
  apply (IH (i :: seen)); [done| |done].
  intros j Hj [->|Hin]%elem_of_cons; [done|].
  apply (Hfresh j); [by right|done].
Qed.

Lemma col_loop_order_nodup header : NoDup (col_loop_order header).
Proof.
  unfold col_loop_order. cbn zeta. apply NoDup_app. split; [|split].
  - apply NoDup_filter, NoDup_seq.
  - intros i [Hi _]%list_elem_of_filter [Hi' _]%list_elem_of_filter. congruence.
  - apply NoDup_filter, NoDup_seq.
Qed.

(** The renaming of the labels of a header row never runs out of fuel. *)
Lemma dedup_names_settled header :
  settled (col_loop_order header) (imap header_label header, ∅).
Proof.
  apply (dedup_settled _ []).
  - apply col_loop_order_nodup.
  - intros i _. apply not_elem_of_nil.
  - intros c. rewrite lookup_total_empty. cbn. lia.
Qed.

End RenameFacts.

(** ** The library calls on small inputs *)

(** Header cells that repeat are renamed apart. *)
Example duplicate_headers_are_renamed :
  to_frame [[CText "id"; CText "id"]; [CInt 1; CInt 2]]
  = mkFrame [LText "id"; LText "id.1"] [[CInt 1; CInt 2]].
Proof. vm_compute. reflexivity. Qed.

(** A header cell that holds a number gives a numeric label. *)
Example numeric_header_is_a_number :
  to_frame [[CInt 2023; CText "name"]; [CInt 1; CText "ann"]]
  = mkFrame [LInt 2023; LText "name"] [[CInt 1; CText "ann"]].
Proof. vm_compute. reflexivity. Qed.

(** The text [NA] is read as a missing value. *)
Example na_text_is_read_as_missing :
  to_frame [[CText "id"; CText "name"]; [CInt 1; CText "NA"]]
  = mkFrame [LText "id"; LText "name"] [[CInt 1; CBlank]].
Proof. vm_compute. reflexivity. Qed.

(** A list of numbers selects by position, a mixed list is refused, and an
    empty list gives the empty frame. *)
Example usecols_of_numbers_are_positions :
  usecols_select [LInt 1; LInt 2]
    (to_frame [[CInt 1; CInt 2; CInt 3]; [CInt 7; CInt 8; CInt 9]])
  = Ok (mkFrame [LInt 2; LInt 3] [[CInt 8; CInt 9]]).
Proof. vm_compute. reflexivity. Qed.

Example usecols_of_mixed_labels_is_refused :
  usecols_select [LInt 2023; LText "name"]
    (to_frame [[CInt 2023; CText "name"]; [CInt 1; CText "ann"]])
  = Raise (Exc ValueError
             "'usecols' must either be list-like of all strings, all integers or a callable.").
Proof. vm_compute. reflexivity. Qed.

Example usecols_empty_gives_empty_frame :
  usecols_select [] (to_frame [[CText "id"]; [CInt 1]]) = Ok (mkFrame [] []).
Proof. vm_compute. reflexivity. Qed.

(** [load_workbook] refuses a workbook that is stored under another
    extension. *)
Example misnamed_workbook_is_refused :
  (load_workbook "/data/notes.txt"
     (mkOS (<["/data/notes.txt" := File (Xlsx book_a)]> data_dir) [])).1
  = Raise (Exc InvalidFileException
             ("openpyxl does not support .txt file format, please check you can open it "
              +:+ "with Excel first. Supported formats are: .xlsx,.xlsm,.xltx,.xltm")).
Proof. vm_compute. reflexivity. Qed.

(** The title setter of a new workbook keeps [Sheet] and renames its
    respellings. *)
Example title_of_new_sheet :
  set_title new_worksheet "Sheet" = Ok (mkSheet "Sheet" [])
  ∧ set_title new_worksheet "sheet" = Ok (mkSheet "sheet1" [])
  ∧ set_title new_worksheet "Jan" = Ok (mkSheet "Jan" []).
Proof. repeat split; vm_compute; reflexivity. Qed.

(** ** Reading back what the split wrote *)

Module RoundTripFacts.
Import Merge MergeFacts StrFacts PathFacts FsFacts Split SplitFacts.

(** The rows of a sheet below its header row. *)
Definition data_rows (sh : Sheet) : list (list cell) := drop 1 (sheet_rows sh).

(** The words that pandas reads as a missing value, a number or a truth
    value, in small letters. *)
Definition reserved_words : list string :=
  ["na"; "n/a"; "nan"; "null"; "none"; "inf"; "infinity"; "true"; "false"].

Definition is_letter (a : ascii) : bool :=
  let n := nat_of_ascii a in
  bool_decide (65 ≤ n ≤ 90) || bool_decide (97 ≤ n ≤ 122).

(** A text that pandas hands on as the text it is: it starts with a letter
    and is none of the reserved words, however capitalised. *)
Definition plain_text (s : string) : bool :=
  match s with
  | EmptyString => false
  | String a _ => is_letter a && negb (bool_decide (Str.lower s ∈ reserved_words))
  end.

(** A cell that reads back as it is: a whole number, a plain text, or
    nothing. *)
Definition plain_cell (c : cell) : bool :=
  match c with
  | CText s => plain_text s
  | CInt _ => true
  | CBlank => true
  end.

(** A row of such cells that is not empty throughout. *)
Definition plain_row (row : list cell) : Prop :=
  Forall (λ c, plain_cell c = true) row ∧ Exists (λ c, c ≠ CBlank) row.

(** A sheet with the header row [hs], all of text, and below it plain rows
    as wide as the header row. *)
Definition has_headers (hs : list string) (sh : Sheet) : Prop :=
  head (sheet_rows sh) = Some (CText <$> hs)
  ∧ Forall (λ row, length row = length hs ∧ plain_row row) (data_rows sh).

Global Instance has_headers_dec hs sh : Decision (has_headers hs sh).
Proof. unfold has_headers, plain_row. apply _. Defined.






















(** Sheets in the order of the files they are saved to. *)
Definition by_path (folder : string) (sh1 sh2 : Sheet) : Prop :=
  String.le (out_path folder (title sh1)) (out_path folder (title sh2)).

Global Instance by_path_dec folder : RelDecision (by_path folder).
Proof. intros sh1 sh2. unfold by_path. apply _. Defined.

Global Instance by_path_total folder : Total (by_path folder).
Proof. intros sh1 sh2. unfold by_path. apply String.le_total. Qed.

Global Instance by_path_trans folder : Transitive (by_path folder).
Proof. intros sh1 sh2 sh3. unfold by_path. apply transitivity. Qed.





Global Instance xlsx_name_inj : Inj (=) (=) (λ t : string, t +:+ ".xlsx").
Proof. intros t1 t2. apply str_app_inj_r. Qed.



End RoundTripFacts.

(** ** Split, then merge *)

Section split_then_merge.
Import Merge MergeFacts PathFacts FsFacts Split SplitFacts RoundTripFacts.



End split_then_merge.


(** The months come back in the order of their files, [Feb.xlsx] before
    [Jan.xlsx]. *)
Example split_then_merge_months :
  (Merge.merge_excel_data_in_path "/data/months_20240307_0905"
     (Split.split_worksheets_to_files (split_env ["/data/months.xlsx"]) "/data/months.xlsx"
        (mkOS months_dir [])).2).1
  = Ok (Some (mkFrame [LText "id"; LText "name"]
                [[CInt 3; CText "cy"]; [CInt 1; CText "ann"]; [CInt 2; CText "bob"]])).
Proof. vm_compute. reflexivity. Qed.




(** A workbook with a cell that holds the text [NA]. *)
Definition book_na : Workbook :=
  [mkSheet "Jan" [id_name; [CInt 1; CText "NA"]]].

Definition na_dir : FS :=
  <["/data" := Dir ["na.xlsx"]]> (<["/data/na.xlsx" := File (Xlsx book_na)]> data_dir).

(** Why the cells have to be plain: the text [NA] comes back from the merge
    as a missing value. *)
Example na_text_is_lost_in_round_trip :
  (Merge.merge_excel_data_in_path "/data/na_20240307_0905"
     (Split.split_worksheets_to_files (split_env ["/data/na.xlsx"]) "/data/na.xlsx"
        (mkOS na_dir [])).2).1
  = Ok (Some (mkFrame [LText "id"; LText "name"] [[CInt 1; CBlank]])).
Proof. vm_compute. reflexivity. Qed.

(** * Further properties of the two scripts *)

(** ** The merge function over any directory *)

Module MergeLoopFacts.
Import Merge MergeFacts.

(** The lines of a console that start with [pre]. *)
Definition lines_with (pre : string) (ls : list string) : list string :=
  filter (λ l, Str.startswith l pre = true) ls.

(** How the two kinds of line an iteration of the loop ends with start. *)
Definition appending_prefix : string := "Appending data from file: ".
Definition error_prefix : string := "(EE) Error while reading ".

Lemma lines_with_app pre ls1 ls2 :
  lines_with pre (ls1 ++ ls2) = lines_with pre ls1 ++ lines_with pre ls2.
Proof. apply filter_app. Qed.

Lemma lines_with_cons pre l ls :
  lines_with pre (l :: ls)
  = if Str.startswith l pre then l :: lines_with pre ls else lines_with pre ls.
Proof.
  unfold lines_with. destruct (Str.startswith l pre) eqn:Hl.
  - by rewrite filter_cons_True.
  - rewrite filter_cons_False; [done|]. by rewrite Hl.
Qed.

Lemma appending_line_starts p :
  Str.startswith (appending_line p) appending_prefix = true
  ∧ Str.startswith (appending_line p) error_prefix = false.
Proof. split; vm_compute; reflexivity. Qed.

Lemma error_line_starts p msg :
  Str.startswith (error_line p msg) error_prefix = true
  ∧ Str.startswith (error_line p msg) appending_prefix = false.
Proof. split; vm_compute; reflexivity. Qed.

(** An iteration either accepts its file, and then prints one line that
    announces it and no error, or leaves the frames as they are and prints
    one error line. *)
Lemma step_accounts f i p loc :
  let r := step f i p loc in
  length (frames r.1)
  = length (frames loc) + length (lines_with appending_prefix (printed r.2))
  ∧ length (lines_with appending_prefix (printed r.2))
    + length (lines_with error_prefix (printed r.2)) = 1.
Proof.
  cbn zeta.
  destruct (appending_line_starts p) as [Ha1 Ha2].
  destruct (step_has_shape f i p loc) as [df _ _|df hs g _ _ _ _ _|df hs msg _ _ _ _ _|msg _];
    cbn [fst snd frames].
  - rewrite length_app.
    change (printed _) with
      (["Grabbing headers from first file..." +:+ nl;
        "Wait for all merge operations to finish..." +:+ nl] ++ [appending_line p]).
    rewrite !lines_with_app, !lines_with_cons, Ha1, Ha2. split; reflexivity.
  - rewrite length_app.
    change (printed _) with [appending_line p].
    rewrite !lines_with_cons, Ha1, Ha2. split; reflexivity.
  - destruct (error_line_starts p msg) as [He1 He2].
    change (printed _) with [""; error_line p msg].
    rewrite !lines_with_cons, He1, He2. cbn. lia.
  - destruct (error_line_starts p msg) as [He1 He2].
    change (printed _) with [""; error_line p msg].
    rewrite !lines_with_cons, He1, He2. cbn. lia.
Qed.

Lemma loop_accounts f files i loc :
  length (frames (loop_locals f i files loc))
  = length (frames loc)
    + length (lines_with appending_prefix (printed (loop_events f i files loc)))
  ∧ length (lines_with appending_prefix (printed (loop_events f i files loc)))
    + length (lines_with error_prefix (printed (loop_events f i files loc)))
    = length files.
Proof.
  revert i loc. induction files as [|p files IH]; intros i loc.
  - cbn. lia.
  - rewrite loop_locals_cons, loop_events_cons, printed_app, !lines_with_app, !length_app.
    destruct (IH (S i) (step f i p loc).1) as [IH1 IH2].
    destruct (step_accounts f i p loc) as [H1 H2]. cbn zeta in H1, H2.
    cbn [length]. lia.
Qed.

(** The cells a later file contributes when its leading columns are the
    captured headers and its labels are distinct: the leading cells of each
    row. *)
Lemma pick_prefix (hs extra : list label) (row : list cell) :
  (∀ c, c ∈ extra → c ∉ hs) →
  length row = length (hs ++ extra) →
  pick ((λ c, bool_decide (c ∈ hs)) <$> (hs ++ extra)) row = take (length hs) row.
Proof.
  intros Hdisj Hlen.
  assert (∀ (l : list label) (r : list cell),
            (∀ c, c ∈ l → c ∈ hs) → length r = length l →
            ∀ rest, pick ((λ c, bool_decide (c ∈ hs)) <$> (l ++ extra)) (r ++ rest)
                    = r ++ pick ((λ c, bool_decide (c ∈ hs)) <$> extra) rest) as Hkeep.
  { induction l as [|c l IH]; intros [|x r] Hin Hl rest; try done.
    cbn in Hl. unfold pick. cbn.
    rewrite bool_decide_eq_true_2 by (apply Hin; left). cbn. f_equal.
    apply IH; [|lia]. intros c' Hc'. apply Hin. by right. }
  assert (∀ (l : list label) (r : list cell),
            (∀ c, c ∈ l → c ∉ hs) → pick ((λ c, bool_decide (c ∈ hs)) <$> l) r = []) as Hdrop.
  { induction l as [|c l IH]; intros [|x r] Hin; try done.
    unfold pick. cbn.
    rewrite bool_decide_eq_false_2 by (apply Hin; left). cbn.
    apply IH. intros c' Hc'. apply Hin. by right. }
  rewrite <- (take_drop (length hs) row) at 1.
  rewrite Hkeep; [|done|].
  - by rewrite Hdrop, app_nil_r.
  - rewrite length_take, Hlen, length_app. lia.
Qed.

Lemma filter_prefix (hs extra : list label) :
  (∀ c, c ∈ extra → c ∉ hs) → filter (λ c, c ∈ hs) (hs ++ extra) = hs.
Proof.
  intros Hdisj. rewrite filter_app, filter_all_in.
  rewrite (filter_none _ extra); [by rewrite app_nil_r|].
  apply Forall_forall. intros c Hc. by apply Hdisj.
Qed.

Lemma select_prefix (hs : list label) (df : DataFrame) :
  take (length hs) (columns df) = hs →
  NoDup (columns df) →
  Forall (λ row, length row = length (columns df)) (rows df) →
  select hs df = mkFrame hs (take (length hs) <$> rows df).
Proof.
  intros Htake Hnd Hrect. unfold select.
  rewrite <- (take_drop (length hs) (columns df)) in Hnd, Hrect |- *.
  rewrite Htake in Hnd, Hrect |- *.
  apply NoDup_app in Hnd as (_ & Hdisj & _).
  assert (∀ c, c ∈ drop (length hs) (columns df) → c ∉ hs) as Hdisj'.
  { intros c Hc Hin. by apply (Hdisj c). }
  rewrite filter_prefix by done. f_equal.
  apply list_eq_Forall2, Forall2_fmap, Forall2_same_length_lookup_2; [done|].
  intros i r1 r2 H1 H2. rewrite H1 in H2. injection H2 as <-.
  apply pick_prefix; [done|].
  by apply (Forall_lookup_1 _ _ _ _ Hrect H1).
Qed.

(** What the loop keeps once the headers are captured: every accepted frame
    has the captured headers as its columns and one cell per header in every
    row. *)
Definition well_formed (hs : list label) (g : DataFrame) : Prop :=
  columns g = hs ∧ Forall (λ row, length row = length hs) (rows g).

Definition readable_frames_regular (f : FS) (files : list string) : Prop :=
  ∀ p df, p ∈ files → frame_of f p = Ok df →
    NoDup (columns df) ∧ Forall (λ row, length row = length (columns df)) (rows df).

Lemma step_well_formed f hs i p loc :
  i ≠ 0 → headers loc = Some hs →
  forallb is_text hs = true →
  (∀ df, frame_of f p = Ok df →
     NoDup (columns df) ∧ Forall (λ row, length row = length (columns df)) (rows df)) →
  Forall (well_formed hs) (frames loc) →
  Forall (well_formed hs) (frames (step f i p loc).1).
Proof.
  intros Hi Hh Htext Hreg Hwf.
  destruct (step_has_shape f i p loc)
    as [df ? _|df hs' g _ Hread Hh' Htake Hsel|df hs' msg _ _ _ _ _|msg _];
    cbn [fst frames]; try done.
  rewrite Hh in Hh'. injection Hh' as <-.
  apply Forall_app. split; [done|]. apply Forall_singleton.
  destruct (decide (hs = [])) as [->|Hne].
  { rewrite usecols_select_nil in Hsel. injection Hsel as <-. by split. }
  rewrite usecols_select_prefix in Hsel by done. injection Hsel as <-.
  destruct (Hreg df Hread) as [Hnd Hrect].
  rewrite select_prefix by done. split; [done|]. cbn.
  apply Forall_fmap. eapply Forall_impl; [exact Hrect|].
  intros row Hrow. cbn in Hrow |- *.
  assert (length hs ≤ length (columns df)) as Hle.
  { rewrite <- Htake at 1. rewrite length_take. lia. }
  rewrite length_take, Hrow. lia.
Qed.

Lemma loop_well_formed f hs files i loc :
  i ≠ 0 → headers loc = Some hs →
  forallb is_text hs = true →
  readable_frames_regular f files →
  Forall (well_formed hs) (frames loc) →
  Forall (well_formed hs) (frames (loop_locals f i files loc)).
Proof.
  revert i loc. induction files as [|p files IH]; intros i loc Hi Hh Htext Hreg Hwf; [done|].
  rewrite loop_locals_cons. apply IH.
  - done.
  - by rewrite step_headers_later.
  - done.
  - intros q df Hq. apply Hreg. by right.
  - apply step_well_formed; try done. intros df. apply Hreg. by left.
Qed.

(** The frames of a prefix of the files stay, in place, among those of all
    files. *)
Lemma step_frames_grow f i p loc :
  ∃ more, frames (step f i p loc).1 = frames loc ++ more.
Proof.
  destruct (step_has_shape f i p loc); cbn [fst frames];
    (by eexists) || (exists []; by rewrite app_nil_r).
Qed.

Lemma loop_frames_grow f files i loc :
  ∃ more, frames (loop_locals f i files loc) = frames loc ++ more.
Proof.
  revert i loc. induction files as [|p files IH]; intros i loc.
  - exists []. by rewrite app_nil_r.
  - rewrite loop_locals_cons.
    destruct (IH (S i) (step f i p loc).1) as [more2 ->].
    destruct (step_frames_grow f i p loc) as [more1 ->].
    exists (more1 ++ more2). by rewrite app_assoc.
Qed.

(** Files that all show the captured headers, all of them text, in their
    leading columns are all accepted, each cut to these columns. *)
Lemma loop_prefix_headers f hs (srcs : list (string * DataFrame)) i loc :
  i ≠ 0 → headers loc = Some hs →
  hs ≠ [] → forallb is_text hs = true →
  Forall (λ pd, frame_of f pd.1 = Ok pd.2 ∧ take (length hs) (columns pd.2) = hs) srcs →
  loop_locals f i srcs.*1 loc = mkLocals (frames loc ++ (select hs <$> srcs.*2)) (Some hs).
Proof.
  intros Hi Hh Hne Htext Hall. revert i loc Hi Hh.
  induction Hall as [|[p df] srcs [Hread Hcols] _ IH]; intros i loc Hi Hh; cbn.
  - rewrite app_nil_r. destruct loc; cbn in *; by subst.
  - cbn in Hread, Hcols.
    rewrite (step_match _ _ _ _ _ _ Hi Hread Hh) by done.
    rewrite IH by done. cbn. by rewrite <- app_assoc.
Qed.




End MergeLoopFacts.

Section merge_function.
Import Merge MergeFacts MergeLoopFacts.


(** In the example directory with a file of other headers, [a.xlsx] and
    [c.xlsx] are read once and [d.xlsx], which is accepted, twice. *)
Example reads_of_data_dir_mismatch :
  reads (trace (merge_excel_data_in_path "/data" (mkOS data_dir_mismatch [])).2)
  = ["/data/a.xlsx"; "/data/c.xlsx"; "/data/d.xlsx"; "/data/d.xlsx"].
Proof. vm_compute. reflexivity. Qed.

(** X2: on a path that is no directory, and on a directory in which every
    entry is a subdirectory or has a name that is not eligible, the function
    returns [None] and prints nothing. *)
Theorem merge_without_candidates (f : FS) (folder : string) (tr : list event) :
  (∀ names, f !! folder = Some (Dir names) →
     Forall (λ n, eligible n = false ∨ isdir f (Path.join folder n) = true) names) →
  merge_excel_data_in_path folder (mkOS f tr) = (Ok None, mkOS f tr).
Proof.
  intros Hnone.
  assert (collect f folder = []) as Hcollect.
  { destruct (f !! folder) as [[names|c]|] eqn:Htop.
    - rewrite (collect_dir _ _ _ Htop).
      rewrite (filter_none _ _); [done|].
      apply Forall_forall. intros n [Hdir Hin]%list_elem_of_filter Hel.
      specialize (Hnone names eq_refl).
      rewrite Forall_forall in Hnone. destruct (Hnone n Hin); congruence.
    - apply collect_not_dir. unfold isdir. by rewrite Htop.
    - apply collect_not_dir. unfold isdir. by rewrite Htop. }
  rewrite merge_excel_data_in_path_run, merge_files_run. cbn [fs trace].
  rewrite Hcollect. cbn. by rewrite app_nil_r.
Qed.

Lemma merge_without_candidates_witness :
  (∀ names, data_dir !! "/app" = Some (Dir names) →
     Forall (λ n, eligible n = false ∨ isdir data_dir (Path.join "/app" n) = true) names)
  ∧ merge_excel_data_in_path "/app" (mkOS data_dir []) = (Ok None, mkOS data_dir []).
Proof.
  assert (∀ names, data_dir !! "/app" = Some (Dir names) →
     Forall (λ n, eligible n = false ∨ isdir data_dir (Path.join "/app" n) = true) names) as H.
  { intros names Hnames. vm_compute in Hnames. injection Hnames as <-.
    repeat constructor. }
  split; [exact H|].
  apply (merge_without_candidates data_dir "/app" [] H).
Defined.

(** X3: every file the loop takes up is accounted for on the console by
    exactly one line: the line [Appending data from file: ...] when its frame
    is accepted, an [(EE) Error while reading ...] line when it is not.  So
    the accepted frames are as many as the former lines, and both kinds
    together as many as the eligible files. *)
Theorem every_file_is_reported (folder : string) (s : OS) :
  ∃ res tr',
    merge_excel_data_in_path folder s = (Ok res, mkOS (fs s) (trace s ++ tr'))
    ∧ length (lines_with appending_prefix (printed tr'))
      + length (lines_with error_prefix (printed tr'))
      = length (sorted (collect (fs s) folder))
    ∧ (res = None ↔ lines_with appending_prefix (printed tr') = []).
Proof.
  rewrite merge_excel_data_in_path_run, merge_files_run.
  eexists _, _. split; [reflexivity|].
  destruct (loop_accounts (fs s) (sorted (collect (fs s) folder)) 0 (mkLocals [] None))
    as [Hfr Hall].
  split; [exact Hall|].
  cbn [frames length] in Hfr.
  destruct (frames _) as [|df frs] eqn:Hframes.
  - cbn in Hfr. split; [intros _|done].
    by apply length_zero_iff_nil.
  - split.
    + unfold merged_of, concat. by case_bool_decide.
    + intros Hnil. rewrite Hnil in Hfr. cbn in Hfr. lia.
Qed.

(** X4: when the first file reads, with at least one column and labels that
    are all text, and every later file shows the headers of the first in its
    leading columns, with distinct labels and one cell per label in every
    row, all files are accepted; the merged frame has the columns of the
    first file, and its rows are those of the first file followed, in file
    order, by the rows of the later files cut to these leading columns. *)
Theorem later_files_are_cut_to_the_headers
    (f : FS) (folder : string) (tr : list event)
    (p0 : string) (df0 : DataFrame) (rest : list (string * DataFrame)) :
  sorted (collect f folder) = p0 :: rest.*1 →
  frame_of f p0 = Ok df0 →
  columns df0 ≠ [] →
  forallb is_text (columns df0) = true →
  Forall (λ pd, frame_of f pd.1 = Ok pd.2
                ∧ take (length (columns df0)) (columns pd.2) = columns df0
                ∧ NoDup (columns pd.2)
                ∧ Forall (λ row, length row = length (columns pd.2)) (rows pd.2)) rest →
  ∃ tr',
    merge_excel_data_in_path folder (mkOS f tr)
    = (Ok (Some (mkFrame (columns df0)
                   (rows df0 ++ (rest.*2 ≫= λ df, take (length (columns df0)) <$> rows df)))),
       mkOS f (tr ++ tr')).
Proof.
  intros Hfiles Hfirst Hne Htext Hrest.
  rewrite merge_excel_data_in_path_run, merge_files_run. cbn [fs trace].
  rewrite Hfiles. eexists. f_equal. f_equal.
  rewrite loop_locals_cons, (step_first_ok _ _ _ _ Hfirst). cbn [fst frames app].
  rewrite (loop_prefix_headers f (columns df0) rest 1); [|done|done|done|done|].
  2:{ eapply Forall_impl; [exact Hrest|]. by intros pd (? & ? & _). }
  cbn [frames app].
  assert (select (columns df0) <$> rest.*2
          = (λ df, mkFrame (columns df0) (take (length (columns df0)) <$> rows df)) <$> rest.*2)
    as ->.
  { apply Forall_fmap_ext_1, Forall_fmap.
    eapply Forall_impl; [exact Hrest|].
    intros [p g] (_ & Htake & Hnd & Hrect). cbn in *. by apply select_prefix. }
  unfold merged_of.
  rewrite (concat_same_columns (columns df0)); [|done|].
  - f_equal. f_equal. cbn. f_equal.
    generalize (rest.*2). intros l. induction l as [|g l IH]; [done|].
    cbn. by rewrite IH.
  - apply Forall_fmap, Forall_forall. by intros.
Qed.

(** The directory [/data] with a first file of two columns and a later file
    that has a third column. *)
Definition book_wide : Workbook :=
  [mkSheet "Sheet1"
     [[CText "id"; CText "name"; CText "city"];
      [CInt 7; CText "gus"; CText "Oslo"];
      [CInt 8; CText "hal"; CText "Rome"]]].

Definition data_dir_wide : FS :=
  <["/data" := Dir ["w.xlsx"; "a.xlsx"]]> (<["/data/w.xlsx" := File (Xlsx book_wide)]> data_dir).

Lemma later_files_are_cut_to_the_headers_witness :
  ∃ tr',
    merge_excel_data_in_path "/data" (mkOS data_dir_wide [])
    = (Ok (Some (mkFrame [LText "id"; LText "name"]
                   ([[CInt 1; CText "ann"]; [CInt 2; CText "bob"]]
                    ++ ([to_frame (sheet_rows (mkSheet "Sheet1"
                           [[CText "id"; CText "name"; CText "city"];
                            [CInt 7; CText "gus"; CText "Oslo"];
                            [CInt 8; CText "hal"; CText "Rome"]]))]
                        ≫= λ df, take 2 <$> rows df)))),
       mkOS data_dir_wide ([] ++ tr')).
Proof.
  apply (later_files_are_cut_to_the_headers data_dir_wide "/data" []
           "/data/a.xlsx" frame_a
           [("/data/w.xlsx",
             to_frame (sheet_rows (mkSheet "Sheet1"
                           [[CText "id"; CText "name"; CText "city"];
                            [CInt 7; CText "gus"; CText "Oslo"];
                            [CInt 8; CText "hal"; CText "Rome"]])))]).
  - vm_compute. reflexivity.
  - vm_compute. reflexivity.
  - discriminate.
  - reflexivity.
  - constructor; [|constructor].
    split; [vm_compute; reflexivity|].
    split; [vm_compute; reflexivity|].
    split; [apply (bool_decide_unpack _); vm_compute; exact I|].
    vm_compute. repeat constructor.
Defined.

(** X5: when the first file reads with labels that are all text, and every
    file that reads has distinct labels and one cell per label in every row,
    the merged frame has exactly the columns of the first file and one cell
    per column in every row, and it starts with the rows of the first file;
    whatever the other files are, unreadable, of other headers or wider. *)
Theorem merged_frame_has_first_headers
    (f : FS) (folder : string) (tr : list event)
    (p0 : string) (df0 : DataFrame) (files : list string) :
  sorted (collect f folder) = p0 :: files →
  frame_of f p0 = Ok df0 →
  forallb is_text (columns df0) = true →
  Forall (λ row, length row = length (columns df0)) (rows df0) →
  readable_frames_regular f files →
  ∃ merged tr',
    merge_excel_data_in_path folder (mkOS f tr) = (Ok (Some merged), mkOS f (tr ++ tr'))
    ∧ columns merged = columns df0
    ∧ Forall (λ row, length row = length (columns df0)) (rows merged)
    ∧ ∃ more, rows merged = rows df0 ++ more.
Proof.
  intros Hfiles Hfirst Htext Hrect0 Hreg.
  rewrite merge_excel_data_in_path_run, merge_files_run. cbn [fs trace].
  rewrite Hfiles, loop_locals_cons, (step_first_ok _ _ _ _ Hfirst). cbn [fst frames app].
  pose proof (loop_well_formed f (columns df0) files 1
                (mkLocals [df0] (Some (columns df0))) ltac:(done) eq_refl Htext Hreg) as Hwf.
  destruct (loop_frames_grow f files 1 (mkLocals [df0] (Some (columns df0)))) as [more Hmore].
  cbn [frames] in Hwf, Hmore. rewrite Hmore in Hwf |- *.
  specialize (Hwf ltac:(by apply Forall_singleton)).
  cbn [app] in Hwf |- *.
  apply Forall_cons in Hwf as [_ Hwf].
  unfold merged_of. rewrite (concat_same_columns (columns df0)); [|done|].
  - eexists _, _. split; [reflexivity|]. cbn [columns rows].
    split; [done|]. split; [|by eexists].
    cbn. apply Forall_app. split; [done|].
    apply Forall_bind. eapply Forall_impl; [exact Hwf|]. by intros g [_ Hg].
  - eapply Forall_impl; [exact Hwf|]. by intros g [Hg _].
Qed.

Lemma merged_frame_has_first_headers_witness :
  ∃ merged tr',
    merge_excel_data_in_path "/data" (mkOS data_dir_mismatch [])
    = (Ok (Some merged), mkOS data_dir_mismatch ([] ++ tr'))
    ∧ columns merged = [LText "id"; LText "name"]
    ∧ Forall (λ row, length row = 2) (rows merged)
    ∧ ∃ more, rows merged = [[CInt 1; CText "ann"]; [CInt 2; CText "bob"]] ++ more.
Proof.
  apply (merged_frame_has_first_headers data_dir_mismatch "/data" []
           "/data/a.xlsx" frame_a ["/data/c.xlsx"; "/data/d.xlsx"]).
  - vm_compute. reflexivity.
  - vm_compute. reflexivity.
  - reflexivity.
  - repeat constructor.
  - intros p df Hp Hread.
    apply elem_of_cons in Hp as [->|Hp].
    { vm_compute in Hread. injection Hread as <-.
      split; [apply (bool_decide_unpack _); vm_compute; exact I | repeat constructor]. }
    apply elem_of_cons in Hp as [->|Hp].
    { vm_compute in Hread. injection Hread as <-.
      split; [apply (bool_decide_unpack _); vm_compute; exact I | repeat constructor]. }
    by apply elem_of_nil in Hp.
Defined.

End merge_function.

(** ** The output files of a merge run *)

Module MergeOutputFacts.
Import Merge MergeFacts StrFacts PathFacts FsFacts MergeScriptFacts SplitFacts.

(** The names and paths [main] builds for its two output files. *)
Definition xlsx_name (env : Env) : string :=
  "merged_excel_data_" +:+ strftime (now env) +:+ ".xlsx".

Definition csv_name (env : Env) : string :=
  "merged_excel_data_" +:+ strftime (now env) +:+ ".csv".

Definition xlsx_path (env : Env) : string := Path.join (target_dir_path env) (xlsx_name env).
Definition csv_path (env : Env) : string := Path.join (target_dir_path env) (csv_name env).

(** The three lines [main] prints after it has written both files. *)
Definition complete_lines (env : Env) : list string :=
  [nl +:+ "Merge operation COMPLETE. Look in the 'merged_excel_files' subfolder.";
   nl +:+ "Merged XLSX file name:" +:+ nl +:+ nl +:+ "    " +:+ quoted (xlsx_path env);
   nl +:+ "Merged CSV file name:" +:+ nl +:+ nl +:+ "    " +:+ quoted (csv_path env)].

(** The sheet [to_excel] writes for a frame. *)
Definition sheet_of (df : DataFrame) : Workbook :=
  [mkSheet "Sheet1" ((label_cell <$> columns df) :: rows df)].

Lemma xlsx_name_lacks_slash env : Str.lacks Str.slash (xlsx_name env) = true.
Proof.
  unfold xlsx_name. by rewrite !lacks_app, strftime_lacks_slash.
Qed.

Lemma csv_name_lacks_slash env : Str.lacks Str.slash (csv_name env) = true.
Proof.
  unfold csv_name. by rewrite !lacks_app, strftime_lacks_slash.
Qed.


Lemma target_dir_plain env :
  plain_dir (files_to_merge_dir env) → plain_dir (target_dir_path env).
Proof.
  intros Hd. unfold target_dir_path. rewrite join_plain by done.
  split.
  - intros Heq. apply (f_equal String.length) in Heq.
    rewrite !str_length_app in Heq. cbn in Heq. lia.
  - rewrite ends_in_app by done. by rewrite ends_in_app.
Qed.

Lemma target_dir_longer env :
  plain_dir (files_to_merge_dir env) →
  String.length (files_to_merge_dir env) < String.length (target_dir_path env).
Proof. intros Hd. by apply join_longer. Qed.







(** The result of the merge function does not depend on the trace it starts
    from. *)
Lemma merge_result folder s :
  (merge_excel_data_in_path folder s).1 = Ok (merged_of (accepted (fs s) folder)).
Proof. by rewrite merge_excel_data_in_path_run, merge_files_run. Qed.

(** [main] past its guard: the loop, then the two writes and the three
    lines, or the line that nothing was found. *)
Lemma main_run env s :
  files_to_merge_dir env ≠ this_file_dir env →
  main env s
  = let s1 :=
      mkOS (fs s)
        (trace s ++ [EPrint looking_line]
         ++ loop_events (fs s) 0 (sorted (collect (fs s) (files_to_merge_dir env)))
              (mkLocals [] None)) in
    match merged_of (accepted (fs s) (files_to_merge_dir env)) with
    | Some merged =>
        match write_file (xlsx_path env) (Xlsx (sheet_of merged)) s1 with
        | (Ok _, s2) =>
            match write_file (csv_path env) (Csv merged) s2 with
            | (Ok _, s3) => (Ok tt, mkOS (fs s3) (trace s3 ++ (EPrint <$> complete_lines env)))
            | (Raise e, s3) => (Raise e, s3)
            end
        | (Raise e, s2) => (Raise e, s2)
        end
    | None => (Ok tt, mkOS (fs s1) (trace s1 ++ [EPrint ""; EPrint nothing_found_line]))
    end.
Proof.
  intros Hne. destruct s as [f tr]. unfold main. py_unfold.
  rewrite bool_decide_eq_false_2 by done. cbn.
  rewrite merge_excel_data_in_path_run, merge_files_run. cbn [fs trace].
  unfold accepted. rewrite <- !app_assoc. cbn [app].
  destruct (merged_of _) as [merged|]; cbn.
  - unfold to_excel, to_csv, xlsx_path, csv_path, xlsx_name, csv_name, sheet_of.
    destruct (write_file _ _ _) as [[[]|e] s2]; [|done].
    destruct (write_file _ _ _) as [[[]|e] s3]; [|done].
    cbn. by rewrite <- !app_assoc.
  - by rewrite <- !app_assoc.
Qed.

(** What a call of [write_file] does to the file system: nothing when it
    raises; otherwise it puts the file and enters its name in the directory
    that holds it. *)
Lemma write_file_cases path c s :
  ∃ r f' tr',
    write_file path c s = (r, mkOS f' (trace s ++ tr'))
    ∧ (f' = fs s
       ∨ ∃ names,
           fs s !! (Path.split path).1 = Some (Dir names)
           ∧ f' = <[path := File c]>
                    (<[(Path.split path).1 := Dir (add_entry names (Path.split path).2)]> (fs s))).
Proof.
  destruct s as [f tr]. unfold write_file. py_unfold. cbn.
  destruct (Path.split path) as [head tail]. cbn.
  destruct (f !! path) as [[ns0|c0]|]; destruct (f !! head) as [[names|c1]|] eqn:Hhead; cbn.
  all: try (eexists _, f, []; rewrite app_nil_r; split; [reflexivity|by left]).
  all: eexists _, _, [_]; (split; [reflexivity|]); right; by exists names.
Qed.

End MergeOutputFacts.

Section merge_outputs.
Import Merge MergeFacts StrFacts PathFacts FsFacts MergeScriptFacts SplitFacts MergeOutputFacts.


End merge_outputs.


(** The files of the example run. *)
Example merge_run_output_paths :
  written (trace (Merge.script (merge_env ["/data"]) (mkOS data_dir [])).2)
  = ["/data/merged_excel_files/merged_excel_data_20240307_0905.xlsx";
     "/data/merged_excel_files/merged_excel_data_20240307_0905.csv"].
Proof. vm_compute. reflexivity. Qed.

(** ** A merge run does not feed later runs *)

Module RerunFacts.
Import Merge MergeFacts MergeLoopFacts StrFacts PathFacts FsFacts MergeScriptFacts SplitFacts.
Import MergeOutputFacts.

(** What [read_excel] returns for a path depends on the node at this path
    only, and so does an iteration of the loop. *)
Lemma frame_of_ext f f' p : f' !! p = f !! p → frame_of f' p = frame_of f p.
Proof.
  intros Hp. unfold frame_of, read_excel. py_unfold. cbn. rewrite Hp.
  by destruct (f !! p) as [[ns|[[|sh wb]|df|]]|].
Qed.

Lemma step_ext f f' i p loc : f' !! p = f !! p → step f' i p loc = step f i p loc.
Proof.
  intros Hp. pose proof (frame_of_ext _ _ _ Hp) as Hfr.
  destruct (frame_of f p) as [df|e] eqn:Hread.
  - destruct (decide (i = 0)) as [->|Hi].
    { by rewrite (step_first_ok _ _ _ _ Hread), (step_first_ok _ _ _ _ Hfr). }
    destruct (headers loc) as [hs|] eqn:Hh.
    + destruct (decide (take (length hs) (columns df) = hs)) as [Htake|Hne].
      * destruct (usecols_select hs df) as [g|e] eqn:Hsel.
        -- rewrite (step_usecols_ok f _ _ _ _ _ _ Hi Hread Hh Htake Hsel).
           by rewrite (step_usecols_ok f' _ _ _ _ _ _ Hi Hfr Hh Htake Hsel).
        -- destruct (usecols_select_raises _ _ _ Hsel) as [msg ->].
           rewrite (step_usecols_raise f _ _ _ _ _ _ _ Hi Hread Hh Htake Hsel).
           by rewrite (step_usecols_raise f' _ _ _ _ _ _ _ Hi Hfr Hh Htake Hsel).
      * rewrite (step_mismatch f _ _ _ _ _ Hi Hread Hh) by done.
        by rewrite (step_mismatch f' _ _ _ _ _ Hi Hfr Hh).
    + rewrite (step_no_headers f _ _ _ _ Hi Hread Hh).
      by rewrite (step_no_headers f' _ _ _ _ Hi Hfr Hh).
  - destruct (frame_of_raises _ _ _ Hread) as (k & msg & ->).
    rewrite (step_unreadable f _ _ _ _ _ Hread).
    by rewrite (step_unreadable f' _ _ _ _ _ Hfr).
Qed.

Lemma loop_locals_ext f f' files i loc :
  (∀ p, p ∈ files → f' !! p = f !! p) →
  loop_locals f' i files loc = loop_locals f i files loc.
Proof.
  revert i loc. induction files as [|p files IH]; intros i loc Hsame; [done|].
  rewrite !loop_locals_cons, (step_ext f f') by (apply Hsame; left).
  apply IH. intros q Hq. apply Hsame. by right.
Qed.

Lemma filter_ext_elem {A} (P Q : A → Prop) `{!∀ x, Decision (P x)} `{!∀ x, Decision (Q x)}
    (l : list A) :
  (∀ x, x ∈ l → P x ↔ Q x) → filter P l = filter Q l.
Proof.
  induction l as [|x l IH]; intros Hiff; [done|].
  assert (filter P l = filter Q l) as IH' by (apply IH; intros y Hy; apply Hiff; by right).
  destruct (decide (P x)) as [HP|HP].
  - assert (Q x) as HQ by (apply Hiff; [left|done]).
    rewrite (filter_cons_True P), (filter_cons_True Q) by done. by rewrite IH'.
  - assert (¬ Q x) as HQ by (intros HQ; apply HP, Hiff; [left|done]).
    by rewrite (filter_cons_False P), (filter_cons_False Q).
Qed.

(** A file system shows the scan of directory [d], whose entries on [f0]
    are [names], what [f0] shows it: [d] lists the same entries, followed at
    most by entries that are not eligible, and the eligible entries are the
    same nodes. *)
Definition same_inputs (d : string) (names : list string) (f0 f : FS) : Prop :=
  (∃ extra, f !! d = Some (Dir (names ++ extra)) ∧ Forall (λ n, eligible n = false) extra)
  ∧ ∀ n, n ∈ names → eligible n = true → f !! Path.join d n = f0 !! Path.join d n.

Lemma same_inputs_refl d names f0 :
  f0 !! d = Some (Dir names) → same_inputs d names f0 f0.
Proof.
  intros Hd. split; [|done]. exists []. by rewrite app_nil_r.
Qed.

Lemma same_inputs_collect d names f0 f :
  f0 !! d = Some (Dir names) → same_inputs d names f0 f → collect f d = collect f0 d.
Proof.
  intros Hd [(extra & Hd' & Hextra) Hsame].
  rewrite (collect_dir _ _ _ Hd), (collect_dir _ _ _ Hd'). f_equal.
  rewrite !filter_app, !list_filter_filter.
  rewrite (filter_none _ extra).
  2:{ eapply Forall_impl; [exact Hextra|]. intros n Hn [Hel _]. congruence. }
  rewrite app_nil_r. apply filter_ext_elem. intros n Hin.
  split; intros [Hel Hdir]; (split; [done|]); unfold isdir in *.
  - by rewrite <- (Hsame n Hin Hel).
  - by rewrite (Hsame n Hin Hel).
Qed.

Lemma same_inputs_accepted d names f0 f :
  f0 !! d = Some (Dir names) → same_inputs d names f0 f → accepted f d = accepted f0 d.
Proof.
  intros Hd Hsame. unfold accepted.
  rewrite (same_inputs_collect _ _ _ _ Hd Hsame). f_equal.
  apply loop_locals_ext. intros p Hp.
  rewrite sorted_perm, (collect_dir _ _ _ Hd) in Hp.
  apply list_elem_of_fmap in Hp as (n & -> & [Hel [_ Hin]%list_elem_of_filter]%list_elem_of_filter).
  by apply Hsame.
Qed.

Section paths.
Context (env : Env) (names : list string).
Hypothesis Hplain : plain_dir (files_to_merge_dir env).
Hypothesis Hnames : Forall (λ n, Str.lacks Str.slash n = true) names.

Lemma entry_not_dir n :
  n ∈ names → Path.join (files_to_merge_dir env) n ≠ files_to_merge_dir env.
Proof.
  intros Hin Heq. rewrite Forall_forall in Hnames.
  pose proof (join_longer _ n Hplain (Hnames n Hin)) as Hlen.
  rewrite Heq in Hlen. lia.
Qed.

Lemma entry_not_target n :
  n ∈ names → eligible n = true →
  Path.join (files_to_merge_dir env) n ≠ target_dir_path env.
Proof.
  intros Hin Hel Heq. rewrite Forall_forall in Hnames.
  apply join_inj in Heq; [|done|by apply Hnames|done].
  by rewrite Heq in Hel.
Qed.

Lemma entry_not_output n nm :
  n ∈ names → Str.lacks Str.slash nm = true →
  Path.join (files_to_merge_dir env) n ≠ Path.join (target_dir_path env) nm.
Proof.
  intros Hin Hnm Heq. rewrite Forall_forall in Hnames.
  apply (f_equal Path.split) in Heq.
  rewrite (split_join _ n Hplain (Hnames n Hin)) in Heq.
  rewrite (split_join _ nm (target_dir_plain env Hplain) Hnm) in Heq.
  injection Heq as Heq _.
  pose proof (target_dir_longer env Hplain) as Hlen. rewrite <- Heq in Hlen. lia.
Qed.

Lemma dir_not_target : files_to_merge_dir env ≠ target_dir_path env.
Proof.
  intros Heq. pose proof (target_dir_longer env Hplain) as Hlen.
  rewrite <- Heq in Hlen. lia.
Qed.

Lemma dir_not_output nm :
  Str.lacks Str.slash nm = true →
  files_to_merge_dir env ≠ Path.join (target_dir_path env) nm.
Proof.
  intros Hnm Heq. pose proof (target_dir_longer env Hplain) as Hlen.
  pose proof (join_longer _ nm (target_dir_plain env Hplain) Hnm) as Hlen'.
  rewrite <- Heq in Hlen'. lia.
Qed.

(** The two ways a run changes the file system keep the inputs of the scan:
    the [mkdir] of the output directory, and a write into it. *)
Lemma same_inputs_mkdir f0 f names1 :
  same_inputs (files_to_merge_dir env) names f0 f →
  f !! files_to_merge_dir env = Some (Dir names1) →
  same_inputs (files_to_merge_dir env) names f0
    (<[target_dir_path env := Dir []]>
       (<[files_to_merge_dir env := Dir (names1 ++ ["merged_excel_files"])]> f)).
Proof.
  intros [(extra & Hd & Hextra) Hsame] Hd1.
  rewrite Hd in Hd1. injection Hd1 as <-.
  split.
  - exists (extra ++ ["merged_excel_files"]).
    rewrite lookup_insert_ne by (apply not_eq_sym, dir_not_target).
    rewrite lookup_insert_eq, <- app_assoc. split; [done|].
    apply Forall_app. split; [done|]. by apply Forall_singleton.
  - intros n Hin Hel.
    rewrite lookup_insert_ne by (apply not_eq_sym; by apply entry_not_target).
    rewrite lookup_insert_ne by (apply not_eq_sym; by apply entry_not_dir).
    by apply Hsame.
Qed.

Lemma same_inputs_write f0 f nm c listed :
  Str.lacks Str.slash nm = true →
  same_inputs (files_to_merge_dir env) names f0 f →
  same_inputs (files_to_merge_dir env) names f0
    (<[Path.join (target_dir_path env) nm := File c]>
       (<[target_dir_path env := Dir listed]> f)).
Proof.
  intros Hnm [(extra & Hd & Hextra) Hsame].
  split.
  - exists extra.
    rewrite lookup_insert_ne by (apply not_eq_sym; by apply dir_not_output).
    rewrite lookup_insert_ne by (apply not_eq_sym, dir_not_target). done.
  - intros n Hin Hel.
    rewrite lookup_insert_ne by (apply not_eq_sym; by apply entry_not_output).
    rewrite lookup_insert_ne by (apply not_eq_sym; by apply entry_not_target).
    by apply Hsame.
Qed.

Lemma same_inputs_write_file f0 s nm c :
  Str.lacks Str.slash nm = true →
  same_inputs (files_to_merge_dir env) names f0 (fs s) →
  same_inputs (files_to_merge_dir env) names f0
    (fs (write_file (Path.join (target_dir_path env) nm) c s).2).
Proof.
  intros Hnm Hsame.
  destruct (write_file_cases (Path.join (target_dir_path env) nm) c s)
    as (r & f' & tr' & -> & [->|(listed & _ & ->)]); cbn [snd fs]; [done|].
  rewrite (split_join _ nm (target_dir_plain env Hplain) Hnm). cbn [fst snd].
  by apply same_inputs_write.
Qed.

Lemma same_inputs_main f0 s :
  same_inputs (files_to_merge_dir env) names f0 (fs s) →
  same_inputs (files_to_merge_dir env) names f0 (fs (main env s).2).
Proof.
  intros Hsame.
  destruct (decide (files_to_merge_dir env = this_file_dir env)) as [Heq|Hne].
  { by rewrite main_same_directory. }
  rewrite main_run by done. cbn zeta.
  destruct (merged_of _) as [merged|]; [|done].
  set (s1 := mkOS (fs s) _).
  pose proof (same_inputs_write_file f0 s1 (xlsx_name env) (Xlsx (sheet_of merged))
                (xlsx_name_lacks_slash env) Hsame) as H2.
  fold (xlsx_path env) in H2.
  destruct (write_file (xlsx_path env) _ s1) as [[[]|e] s2]; [|done].
  cbn [snd] in H2.
  pose proof (same_inputs_write_file f0 s2 (csv_name env) (Csv merged)
                (csv_name_lacks_slash env) H2) as H3.
  fold (csv_path env) in H3.
  by destruct (write_file (csv_path env) _ s2) as [[[]|e] s3].
Qed.

(** With the directory to merge in place, [os.makedirs] has nothing to
    create above the output directory. *)
Lemma makedirs_target s :
  exists_ (fs s) (files_to_merge_dir env) = true →
  makedirs (target_dir_path env) s = mkdir_exist_ok (target_dir_path env) s.
Proof.
  intros Hex. unfold makedirs. rewrite makedirs_rec_unfold.
  rewrite parent_of_tail by (by rewrite (target_dir_split env Hplain)).
  rewrite (target_dir_split env Hplain). cbn [fst snd].
  rewrite Hex. cbn [negb]. by rewrite andb_false_r.
Qed.

End paths.

Lemma mkdir_exist_ok_existing name s :
  isdir (fs s) name = true → mkdir_exist_ok name s = (Ok tt, s).
Proof.
  destruct s as [f tr]. unfold isdir. cbn. intros Hdir.
  destruct (f !! name) as [[ns|c]|] eqn:Hn; try done.
  unfold mkdir_exist_ok, mkdir. py_unfold. cbn. rewrite Hn. cbn.
  unfold isdir. cbn. by rewrite Hn.
Qed.

End RerunFacts.

Section merge_rerun.
Import Merge MergeFacts StrFacts PathFacts FsFacts MergeScriptFacts SplitFacts MergeOutputFacts.
Import RerunFacts.

(** X7: nothing a merge run does changes what a later scan of the same
    directory finds and merges.  For a directory that exists, with entry
    names as a file system gives them (no slash), the state in which the
    script ends, however it ends, makes [merge_excel_data_in_path] collect
    the same files and return the same frame as the state in which the
    script started: the subdirectory [merged_excel_files] is no file and its
    name is not eligible, and the two output files are not entries of the
    directory. *)
Theorem run_leaves_scan_unchanged
    (env : Env) (f0 : FS) (tr0 : list event) (names : list string) :
  plain_dir (files_to_merge_dir env) →
  f0 !! files_to_merge_dir env = Some (Dir names) →
  Forall (λ n, Str.lacks Str.slash n = true) names →
  collect (fs (script env (mkOS f0 tr0)).2) (files_to_merge_dir env)
  = collect f0 (files_to_merge_dir env)
  ∧ (merge_excel_data_in_path (files_to_merge_dir env) (script env (mkOS f0 tr0)).2).1
    = (merge_excel_data_in_path (files_to_merge_dir env) (mkOS f0 tr0)).1.
Proof.
  intros Hplain Hd Hnames.
  assert (same_inputs (files_to_merge_dir env) names f0 (fs (script env (mkOS f0 tr0)).2))
    as Hsame.
  { destruct (decide (length (argv env) < 2)) as [Hargs|Hargs].
    { rewrite script_no_arguments by done. by apply same_inputs_refl. }
    assert (2 ≤ length (argv env)) as Hargs' by lia.
    assert (makedirs (target_dir_path env) (mkOS f0 tr0)
            = mkdir_exist_ok (target_dir_path env) (mkOS f0 tr0)) as Hmk.
    { apply makedirs_target; [done|]. unfold exists_. cbn. by rewrite Hd. }
    destruct (mkdir_exist_ok_spec (target_dir_path env) (mkOS f0 tr0))
      as (r & f1 & Hrun & Hraise & Hok).
    rewrite Hrun in Hmk. cbn [fs trace] in *.
    destruct r as [[]|e].
    - assert (same_inputs (files_to_merge_dir env) names f0 f1) as H1.
      { destruct (Hok eq_refl) as [_ [->|(names1 & _ & Hhead & ->)]].
        - by apply same_inputs_refl.
        - rewrite (target_dir_split env Hplain) in Hhead |- *. cbn [fst snd] in *.
          apply same_inputs_mkdir; [done|done| |done]. by apply same_inputs_refl. }
      rewrite (script_runs_main env _ _ Hargs' Hmk). cbn [fs trace].
      pose proof (same_inputs_main env names Hplain Hnames f0 (mkOS f1 (tr0 ++ [EPrint ""])) H1)
        as H2.
      by destruct (main env _) as [[[]|e] s2].
    - destruct (Hraise e eq_refl) as (-> & _).
      destruct (script_makedirs_fails env _ _ _ Hargs' Hmk) as (kind & msg & _ & ->).
      by apply same_inputs_refl. }
  split.
  - by apply (same_inputs_collect _ names).
  - rewrite !merge_result. cbn [fs]. by rewrite (same_inputs_accepted _ names f0).
Qed.

(** X8: when the directory to merge and its subdirectory [merged_excel_files]
    both exist, the [os.makedirs] of the set-up succeeds and changes
    nothing: the output directory of an earlier run is used again, with
    whatever it holds. *)
Theorem existing_output_directory_is_kept (env : Env) (s : OS) :
  plain_dir (files_to_merge_dir env) →
  exists_ (fs s) (files_to_merge_dir env) = true →
  isdir (fs s) (target_dir_path env) = true →
  makedirs (target_dir_path env) s = (Ok tt, s).
Proof.
  intros Hplain Hex Hdir.
  rewrite (makedirs_target env Hplain s Hex).
  by apply mkdir_exist_ok_existing.
Qed.

End merge_rerun.

Lemma run_leaves_scan_unchanged_witness :
  Merge.collect (fs (Merge.script (merge_env ["/data"]) (mkOS data_dir [])).2)
    (Merge.files_to_merge_dir (merge_env ["/data"]))
  = Merge.collect data_dir (Merge.files_to_merge_dir (merge_env ["/data"]))
  ∧ (Merge.merge_excel_data_in_path (Merge.files_to_merge_dir (merge_env ["/data"]))
       (Merge.script (merge_env ["/data"]) (mkOS data_dir [])).2).1
    = (Merge.merge_excel_data_in_path (Merge.files_to_merge_dir (merge_env ["/data"]))
         (mkOS data_dir [])).1.
Proof.
  apply (run_leaves_scan_unchanged (merge_env ["/data"]) data_dir []
           ["b.xlsx"; "notes.txt"; "old"; "a.xlsx"; "merged_excel_data_1.xlsx"]).
  - split; [discriminate | vm_compute; reflexivity].
  - vm_compute. reflexivity.
  - repeat constructor.
Defined.

(** The state the example run ends in, with its output directory in place. *)
Definition data_dir_after_run : FS :=
  fs (Merge.script (merge_env ["/data"]) (mkOS data_dir [])).2.

Lemma existing_output_directory_is_kept_witness :
  makedirs (Merge.target_dir_path (merge_env ["/data"])) (mkOS data_dir_after_run [])
  = (Ok tt, mkOS data_dir_after_run []).
Proof.
  apply (existing_output_directory_is_kept (merge_env ["/data"]) (mkOS data_dir_after_run [])).
  - split; [discriminate | vm_compute; reflexivity].
  - vm_compute. reflexivity.
  - vm_compute. reflexivity.
Defined.

(** ** The split script as a whole *)

Module SplitRunFacts.
Import Split StrFacts PathFacts FsFacts SplitScriptFacts SplitFacts MergeOutputFacts.



Lemma write_file_on_dir path c s :
  isdir (fs s) path = true →
  write_file path c s
  = (Raise (Exc IsADirectoryError ("[Errno 21] Is a directory: " +:+ quoted path)), s).
Proof.
  destruct s as [f tr]. unfold write_file, isdir. py_unfold. cbn.
  destruct (Path.split path) as [head tail].
  by destruct (f !! path) as [[ns|c0]|].
Qed.

(** No call of the script replaces or removes a regular file, except that a
    write replaces the file at its own path. *)
Lemma mkdir_exist_ok_keeps name s k c :
  fs s !! k = Some (File c) → fs (mkdir_exist_ok name s).2 !! k = Some (File c).
Proof.
  intros Hk. destruct (mkdir_exist_ok_spec name s) as (r & f' & -> & Hraise & Hok).
  cbn [snd fs]. destruct r as [[]|e].
  - destruct (Hok eq_refl) as [_ [->|(names & Hnone & Hhead & ->)]]; [done|].
    rewrite !lookup_insert_ne; [done|congruence|congruence].
  - by destruct (Hraise e eq_refl) as [-> _].
Qed.

Lemma makedirs_rec_keeps n name s k c :
  fs s !! k = Some (File c) → fs (makedirs_rec n name s).2 !! k = Some (File c).
Proof.
  revert name s. induction n as [|n IH]; intros name s Hk;
    rewrite makedirs_rec_unfold; cbn zeta.
  - destruct (_ && _); by apply mkdir_exist_ok_keeps.
  - destruct (_ && _); [|by apply mkdir_exist_ok_keeps].
    specialize (IH (parent_of name).1 s Hk).
    destruct (makedirs_rec n _ s) as [[[]|[k' msg|code]] s1]; cbn [snd] in *.
    + case_bool_decide; [done|by apply mkdir_exist_ok_keeps].
    + destruct (except_FileExistsError k'); [|done].
      case_bool_decide; [done|by apply mkdir_exist_ok_keeps].
    + done.
Qed.

Lemma write_file_keeps path c0 s k c :
  fs s !! k = Some (File c) → k ≠ path →
  fs (write_file path c0 s).2 !! k = Some (File c).
Proof.
  intros Hk Hne.
  destruct (write_file_cases path c0 s) as (r & f' & tr' & -> & [->|(names & Hhead & ->)]);
    cbn [snd fs]; [done|].
  rewrite !lookup_insert_ne; [done|congruence|done].
Qed.

Lemma split_sheet_keeps (wb : Workbook) folder t s k c :
  fs s !! k = Some (File c) →
  (valid_title t = true → k ≠ out_path folder t) →
  fs (split_sheet wb folder t s).2 !! k = Some (File c).
Proof.
  intros Hk Hne. unfold split_sheet, save. py_unfold.
  destruct (wb_getitem wb t) as [sh|e]; [|done].
  unfold set_title. destruct (valid_title t) eqn:Hv; [|done].
  match goal with
  | |- context [write_file ?p ?c0 s] =>
      pose proof (write_file_keeps p c0 s k c Hk (Hne eq_refl)) as Hw;
      destruct (write_file p c0 s) as [[[]|e] s']
  end; done.
Qed.

Lemma for_each_split_keeps (wb : Workbook) folder (names : list string) s k c :
  fs s !! k = Some (File c) →
  (∀ t, t ∈ names → valid_title t = true → k ≠ out_path folder t) →
  fs (for_each (split_sheet wb folder) names s).2 !! k = Some (File c).
Proof.
  revert s. induction names as [|t names IH]; intros s Hk Hne; [done|].
  cbn [for_each]. py_unfold.
  pose proof (split_sheet_keeps wb folder t s k c Hk (Hne t ltac:(left))) as Hstep.
  destruct (split_sheet wb folder t s) as [[[]|e] s']; [|done].
  apply IH; [done|]. intros t' Ht'. apply Hne. by right.
Qed.

Lemma split_keeps env excel_file s (wb : Workbook) k c :
  fs s !! excel_file = Some (File (Xlsx wb)) →
  fs s !! k = Some (File c) →
  (∀ t, t ∈ sheetnames wb → valid_title t = true →
        k ≠ out_path (folder_name_of env excel_file) t) →
  fs (split_worksheets_to_files env excel_file s).2 !! k = Some (File c).
Proof.
  intros Hwb Hk Hne. unfold split_worksheets_to_files. py_unfold.
  destruct (load_workbook excel_file s).1 as [wb'|e] eqn:Hload.
  - apply load_workbook_ok in Hload as [Hext _].
    rewrite (load_workbook_run excel_file s wb Hext Hwb).
    pose proof (makedirs_rec_keeps (String.length (folder_name_of env excel_file))
                  (folder_name_of env excel_file) s k c Hk) as Hmk.
    fold (makedirs (folder_name_of env excel_file)) in Hmk.
    destruct (makedirs (folder_name_of env excel_file) s) as [[[]|e] s1]; [|done].
    by apply for_each_split_keeps.
  - apply load_workbook_raises in Hload as [-> _]. done.
Qed.

(** [os.path.splitext] cuts a path in two parts, the second of which is
    empty or starts with a dot. *)
Lemma str_app_nil_r s : s +:+ "" = s.
Proof. induction s as [|a s IH]; [done|]. by rewrite str_app_cons, IH. Qed.

Lemma splitext_parts p :
  (Path.splitext p).1 +:+ (Path.splitext p).2 = p
  ∧ ((Path.splitext p).2 = "" ∨ ∃ b, (Path.splitext p).2 = String Str.dot b).
Proof.
  unfold Path.splitext.
  destruct (Str.rsplit Str.slash p) as [[h t]|] eqn:Hs.
  - apply rsplit_some in Hs as [Hp _].
    destruct (Str.rsplit Str.dot t) as [[a b]|] eqn:Hd.
    + apply rsplit_some in Hd as [Ht _].
      destruct (Str.all_are Str.dot a); cbn [fst snd].
      * split; [apply str_app_nil_r|by left].
      * split; [|right; exists b; by rewrite str_app_cons, str_app_nil_l].
        rewrite Hp, Ht, !str_app_assoc, !str_app_cons, !str_app_nil_l. done.
    + cbn [fst snd]. split; [apply str_app_nil_r|by left].
  - destruct (Str.rsplit Str.dot p) as [[a b]|] eqn:Hd.
    + apply rsplit_some in Hd as [Hp _].
      destruct (Str.all_are Str.dot a); cbn [fst snd].
      * split; [apply str_app_nil_r|by left].
      * split; [|right; exists b; by rewrite str_app_cons, str_app_nil_l].
        rewrite Hp, !str_app_nil_l, !str_app_cons, !str_app_nil_l. done.
    + cbn [fst snd]. split; [apply str_app_nil_r|by left].
Qed.

(** No file the split writes is the workbook it reads. *)
Lemma out_path_not_source env excel_file t :
  valid_title t = true → excel_file ≠ out_path (folder_name_of env excel_file) t.
Proof.
  intros Hv Heq. unfold out_path in Heq.
  rewrite join_plain in Heq
    by (apply folder_name_plain || by apply lacks_of_valid_title).
  unfold folder_name_of in Heq.
  destruct (splitext_parts excel_file) as [Hp Hext].
  set (root := (Path.splitext excel_file).1) in *.
  set (ext := (Path.splitext excel_file).2) in *.
  rewrite <- Hp in Heq at 1. rewrite !str_app_assoc in Heq.
  apply (inj (String.app root)) in Heq.
  rewrite str_app_cons in Heq.
  destruct Hext as [Hext|[b Hext]]; rewrite Hext in Heq; discriminate.
Qed.

End SplitRunFacts.

Section split_runs.
Import Split StrFacts PathFacts FsFacts SplitScriptFacts SplitFacts SplitRunFacts.



(** X11: the split never touches the workbook it reads, nor any other
    regular file that is not one of its outputs, however the run ends: the
    workbook and every file outside the paths [<folder>/<title>.xlsx] are
    in the final file system as they were. *)
Theorem split_keeps_other_files
    (env : Env) (excel_file : string) (s : OS) (wb : Workbook) :
  fs s !! excel_file = Some (File (Xlsx wb)) →
  fs (split_worksheets_to_files env excel_file s).2 !! excel_file = Some (File (Xlsx wb))
  ∧ ∀ k c,
      fs s !! k = Some (File c) →
      k ∉ out_path (folder_name_of env excel_file) <$> sheetnames wb →
      fs (split_worksheets_to_files env excel_file s).2 !! k = Some (File c).
Proof.
  intros Hwb. split.
  - apply (split_keeps env excel_file s wb); [done|done|].
    intros t _ Hv. by apply out_path_not_source.
  - intros k c Hk Hnot. apply (split_keeps env excel_file s wb); [done|done|].
    intros t Ht _ ->. apply Hnot. by apply list_elem_of_fmap_2.
Qed.

(** X12: a file that exists and is no workbook makes the script fail in
    [load_workbook], before the folder is made: the exception is not
    handled, the exit code is 1, only the empty line was printed and the
    file system is as it was. *)
Theorem split_of_other_file_changes_nothing (env : Env) (s : OS) (c : content) :
  length (argv env) = 2 →
  fs s !! (argv env !!! 1) = Some (File c) →
  (∀ wb, c ≠ Xlsx wb) →
  ∃ kind msg,
    script env s = (Raise (Exc kind msg), mkOS (fs s) (trace s ++ [EPrint ""]))
    ∧ exit_code (script env s) = 1%Z.
Proof.
  intros Hargs Hfile Hc.
  rewrite script_runs_split by (try done; unfold isfile; by rewrite Hfile).
  unfold split_worksheets_to_files. py_unfold.
  destruct (load_workbook (argv env !!! 1) (mkOS (fs s) (trace s ++ [EPrint ""]))).1
    as [wb|e] eqn:Hload.
  - apply load_workbook_ok in Hload as [_ Hwb]. cbn [fs] in Hwb.
    rewrite Hfile in Hwb. injection Hwb as ->. by destruct (Hc wb).
  - apply load_workbook_raises in Hload as [-> (kind & msg & ->)]. by eexists _, _.
Qed.

End split_runs.




Lemma split_keeps_other_files_witness :
  fs (Split.split_worksheets_to_files (split_env ["/data/months.xlsx"]) "/data/months.xlsx"
        (mkOS months_dir [])).2 !! "/data/months.xlsx"
  = Some (File (Xlsx book_months))
  ∧ ∀ k c,
      months_dir !! k = Some (File c) →
      k ∉ SplitFacts.out_path
            (Split.folder_name_of (split_env ["/data/months.xlsx"]) "/data/months.xlsx")
          <$> sheetnames book_months →
      fs (Split.split_worksheets_to_files (split_env ["/data/months.xlsx"]) "/data/months.xlsx"
            (mkOS months_dir [])).2 !! k
      = Some (File c).
Proof.
  apply (split_keeps_other_files (split_env ["/data/months.xlsx"]) "/data/months.xlsx"
           (mkOS months_dir []) book_months).
  vm_compute. reflexivity.
Defined.

Lemma split_of_other_file_changes_nothing_witness :
  ∃ kind msg,
    Split.script (split_env ["/data/notes.txt"]) (mkOS data_dir [])
    = (Raise (Exc kind msg), mkOS data_dir ([] ++ [EPrint ""]))
    ∧ exit_code (Split.script (split_env ["/data/notes.txt"]) (mkOS data_dir [])) = 1%Z.
Proof.
  apply (split_of_other_file_changes_nothing (split_env ["/data/notes.txt"])
           (mkOS data_dir []) Other).
  - reflexivity.
  - vm_compute. reflexivity.
  - discriminate.
Defined.

(** ** The order of the directory listing *)

Section listing_order.
Import Merge MergeFacts MergeLoopFacts StrFacts PathFacts MergeScriptFacts MergeOutputFacts.
Import RerunFacts.

(** X13: the order in which the operating system lists the directory plays
    no role: the files are sorted before the loop, so the same entries
    listed in another order give the same merged frame. *)
Theorem listing_order_does_not_matter
    (f : FS) (folder : string) (names names' : list string) (tr : list event) :
  plain_dir folder →
  f !! folder = Some (Dir names) →
  Forall (λ n, Str.lacks Str.slash n = true) names →
  names' ≡ₚ names →
  sorted (collect (<[folder := Dir names']> f) folder) = sorted (collect f folder)
  ∧ (merge_excel_data_in_path folder (mkOS (<[folder := Dir names']> f) tr)).1
    = (merge_excel_data_in_path folder (mkOS f tr)).1.
Proof.
  intros Hplain Hd Hnames Hperm.
  assert (∀ n, n ∈ names → <[folder := Dir names']> f !! Path.join folder n
                           = f !! Path.join folder n) as Hentry.
  { intros n Hin. apply lookup_insert_ne. intros Heq.
    rewrite Forall_forall in Hnames.
    pose proof (join_longer folder n Hplain (Hnames n Hin)) as Hlen.
    rewrite <- Heq in Hlen. lia. }
  assert (collect (<[folder := Dir names']> f) folder ≡ₚ collect f folder) as Hcollect.
  { rewrite (collect_dir f folder names Hd).
    rewrite (collect_dir _ folder names' (lookup_insert_eq _ _ _)).
    apply fmap_Permutation. rewrite !list_filter_filter.
    rewrite (filter_ext_elem _
               (λ n, eligible n = true ∧ isdir f (Path.join folder n) = false) names').
    - by rewrite Hperm.
    - intros n Hin. rewrite Hperm in Hin. unfold isdir. by rewrite (Hentry n Hin). }
  assert (sorted (collect (<[folder := Dir names']> f) folder) = sorted (collect f folder))
    as Hsorted.
  { apply (StronglySorted_unique String.le).
    - apply sorted_sorted.
    - apply sorted_sorted.
    - by rewrite !sorted_perm. }
  split; [done|].
  rewrite !merge_result. cbn [fs]. unfold accepted. rewrite Hsorted. do 3 f_equal.
  apply loop_locals_ext. intros p Hp.
  rewrite sorted_perm, (collect_dir _ _ _ Hd) in Hp.
  apply list_elem_of_fmap in Hp as (n & -> & [_ [_ Hin]%list_elem_of_filter]%list_elem_of_filter).
  by apply Hentry.
Qed.

End listing_order.

Lemma listing_order_does_not_matter_witness :
  Merge.sorted
    (Merge.collect
       (<["/data" := Dir ["a.xlsx"; "merged_excel_data_1.xlsx"; "b.xlsx"; "old"; "notes.txt"]]>
          data_dir) "/data")
  = Merge.sorted (Merge.collect data_dir "/data")
  ∧ (Merge.merge_excel_data_in_path "/data"
       (mkOS (<["/data" := Dir ["a.xlsx"; "merged_excel_data_1.xlsx"; "b.xlsx"; "old";
                               "notes.txt"]]> data_dir) [])).1
    = (Merge.merge_excel_data_in_path "/data" (mkOS data_dir [])).1.
Proof.
  apply (listing_order_does_not_matter data_dir "/data"
           ["b.xlsx"; "notes.txt"; "old"; "a.xlsx"; "merged_excel_data_1.xlsx"]
           ["a.xlsx"; "merged_excel_data_1.xlsx"; "b.xlsx"; "old"; "notes.txt"] []).
  - split; [discriminate | vm_compute; reflexivity].
  - vm_compute. reflexivity.
  - repeat constructor.
  - apply (bool_decide_unpack _). vm_compute. exact I.
Defined.

(** ** Where the outputs go *)

Module NamingFacts.
Import StrFacts PathFacts SplitRunFacts.

(** [os.path.splitext] and [os.path.split] on a path with a last slash. *)
Lemma splitext_root_lacks_slash t :
  Str.lacks Str.slash t = true → Str.lacks Str.slash (Path.splitext t).1 = true.
Proof.
  intros Ht. unfold Path.splitext. rewrite (rsplit_lacks _ _ Ht).
  destruct (Str.rsplit Str.dot t) as [[a b]|] eqn:Hd; [|done].
  destruct (Str.all_are Str.dot a); [done|]. cbn [fst].
  apply rsplit_some in Hd as [Heq _]. rewrite Heq, lacks_app in Ht.
  apply andb_true_iff in Ht as [Ha _]. by rewrite str_app_nil_l.
Qed.

Lemma splitext_with_dir h t :
  Str.lacks Str.slash t = true →
  (Path.splitext (h +:+ String Str.slash t)).1 = h +:+ String Str.slash (Path.splitext t).1.
Proof.
  intros Ht. unfold Path.splitext. rewrite (rsplit_app _ h t Ht), (rsplit_lacks _ _ Ht).
  destruct (Str.rsplit Str.dot t) as [[a b]|] eqn:Hd; [|done].
  destruct (Str.all_are Str.dot a); [done|]. cbn [fst].
  by rewrite str_app_assoc, str_app_cons, !str_app_nil_l.
Qed.

Lemma split_with_dir h t :
  Str.lacks Str.slash t = true →
  Path.split (h +:+ String Str.slash t)
  = (if Str.all_are Str.slash (h +:+ "/") then h +:+ "/" else Str.rstrip Str.slash (h +:+ "/"),
     t).
Proof. intros Ht. unfold Path.split. by rewrite (rsplit_app _ h t Ht). Qed.

Lemma split_no_dir p : Str.lacks Str.slash p = true → Path.split p = ("", p).
Proof. intros Hp. unfold Path.split. by rewrite (rsplit_lacks _ _ Hp). Qed.

(** The two digits [digits2] prints tell the number up to 100. *)
Lemma digit_mod n m : digit n = digit m → n `mod` 10 = m `mod` 10.
Proof.
  unfold digit.
  pose proof (Nat.mod_upper_bound n 10 ltac:(done)) as Hn.
  pose proof (Nat.mod_upper_bound m 10 ltac:(done)) as Hm.
  destruct (n `mod` 10) as [|[|[|[|[|[|[|[|[|[|a]]]]]]]]]]; [..|lia];
    destruct (m `mod` 10) as [|[|[|[|[|[|[|[|[|[|b]]]]]]]]]]; try done; lia.
Qed.

Lemma digits2_inj n m r r' :
  digits2 n r = digits2 m r' → n `mod` 100 = m `mod` 100 ∧ r = r'.
Proof.
  unfold digits2. intros [= H1%digit_mod H2%digit_mod Hr]. split; [|done].
  change ((n `div` 10) `mod` 10 = (m `div` 10) `mod` 10) in H1.
  pose proof (Nat.div_mod_eq n 10). pose proof (Nat.div_mod_eq m 10).
  pose proof (Nat.div_mod_eq (n `div` 10) 10). pose proof (Nat.div_mod_eq (m `div` 10) 10).
  pose proof (Nat.div_mod_eq n 100). pose proof (Nat.div_mod_eq m 100).
  pose proof (Nat.mod_upper_bound n 100 ltac:(done)).
  pose proof (Nat.mod_upper_bound m 100 ltac:(done)).
  pose proof (Nat.mod_upper_bound n 10 ltac:(done)).
  pose proof (Nat.mod_upper_bound m 10 ltac:(done)).
  pose proof (Nat.mod_upper_bound (n `div` 10) 10 ltac:(done)).
  pose proof (Nat.mod_upper_bound (m `div` 10) 10 ltac:(done)).
  pose proof (Nat.Div0.div_div n 10 10) as Hn. change (10 * 10) with 100 in Hn.
  pose proof (Nat.Div0.div_div m 10 10) as Hm. change (10 * 10) with 100 in Hm.
  lia.
Qed.

Lemma str_cons_inj a (s s' : string) : String a s = String a s' → s = s'.
Proof. by intros [= ->]. Qed.

(** A clock as a calendar gives it: a year of four digits, the other fields
    of two. *)
Definition valid_clock (d : DateTime) : Prop :=
  year d `div` 100 < 100 ∧ month d < 100 ∧ day d < 100 ∧ hour d < 100 ∧ minute d < 100.

Lemma strftime_inj d d' :
  valid_clock d → valid_clock d' → strftime d = strftime d' → d = d'.
Proof.
  intros (Hy & Hmo & Hd & Hh & Hmi) (Hy' & Hmo' & Hd' & Hh' & Hmi').
  unfold strftime. intros Heq.
  apply digits2_inj in Heq as [Hc Heq]. apply digits2_inj in Heq as [Hyy Heq].
  apply digits2_inj in Heq as [Hm Heq]. apply digits2_inj in Heq as [Hdd Heq].
  apply str_cons_inj in Heq.
  apply digits2_inj in Heq as [Hhh Heq]. apply digits2_inj in Heq as [Hmm _].
  destruct d as [y mo da h mi], d' as [y' mo' da' h' mi']. cbn [year month day hour minute] in *.
  rewrite !Nat.mod_small in Hc, Hm, Hdd, Hhh, Hmm by done.
  pose proof (Nat.div_mod_eq y 100). pose proof (Nat.div_mod_eq y' 100).
  f_equal; lia.
Qed.

End NamingFacts.

Section output_places.
Import Merge Split StrFacts PathFacts MergeOutputFacts SplitFacts SplitRunFacts NamingFacts.

(** X14: the folder of a split lies beside the workbook: it has the
    directory part of the path of the workbook, and its name is the name of
    the workbook up to its extension, followed by an underscore and the
    timestamp. *)
Theorem folder_is_beside_workbook (env : Env) (excel_file : string) :
  Path.dirname (folder_name_of env excel_file) = Path.dirname excel_file
  ∧ Path.basename (folder_name_of env excel_file)
    = (Path.splitext (Path.basename excel_file)).1 +:+ "_" +:+ strftime (now env).
Proof.
  unfold Path.dirname, Path.basename, folder_name_of.
  assert (Str.lacks Str.slash ("_" +:+ strftime (now env)) = true) as Hts.
  { by rewrite lacks_app, strftime_lacks_slash. }
  destruct (Str.rsplit Str.slash excel_file) as [[h t]|] eqn:Hs.
  - apply rsplit_some in Hs as [-> Ht].
    pose proof (splitext_root_lacks_slash t Ht) as Hroot.
    rewrite (splitext_with_dir h t Ht), str_app_assoc, str_app_cons.
    rewrite !split_with_dir; [done|done|].
    by rewrite lacks_app, Hroot, Hts.
  - apply rsplit_none in Hs.
    pose proof (splitext_root_lacks_slash excel_file Hs) as Hroot.
    rewrite !split_no_dir; [done|done|].
    by rewrite lacks_app, Hroot, Hts.
Qed.

(** X15: merge runs on the same directory at different minutes write to
    different paths: no output of one run is overwritten by another. *)
Theorem runs_in_other_minutes_write_other_files (env env' : Env) :
  plain_dir (files_to_merge_dir env) →
  files_to_merge_dir env' = files_to_merge_dir env →
  valid_clock (now env) → valid_clock (now env') →
  now env ≠ now env' →
  xlsx_path env ≠ xlsx_path env' ∧ csv_path env ≠ csv_path env'
  ∧ xlsx_path env ≠ csv_path env' ∧ csv_path env ≠ xlsx_path env'.
Proof.
  intros Hplain Hsame Hc Hc' Hne.
  assert (target_dir_path env' = target_dir_path env) as Htarget.
  { unfold target_dir_path. by rewrite Hsame. }
  pose proof (target_dir_plain env Hplain) as Htp.
  unfold xlsx_path, csv_path. rewrite Htarget.
  assert (∀ n n' : string,
            Str.lacks Str.slash n = true → Str.lacks Str.slash n' = true → n ≠ n' →
            Path.join (target_dir_path env) n ≠ Path.join (target_dir_path env) n') as Hjoin.
  { intros n n' Hn Hn' Hnn Heq. apply Hnn. by apply (join_inj (target_dir_path env)). }
  assert (strftime (now env) ≠ strftime (now env')) as Hts.
  { intros Heq. apply Hne. by apply strftime_inj. }
  repeat split; apply Hjoin;
    try apply xlsx_name_lacks_slash; try apply csv_name_lacks_slash;
    unfold xlsx_name, csv_name; intros Heq; apply (inj (String.app _)) in Heq.
  - by apply str_app_inj_r in Heq.
  - by apply str_app_inj_r in Heq.
  - apply (f_equal String.length) in Heq.
    rewrite !str_length_app, !strftime_length in Heq. cbn in Heq. lia.
  - apply (f_equal String.length) in Heq.
    rewrite !str_length_app, !strftime_length in Heq. cbn in Heq. lia.
Qed.

End output_places.

Lemma runs_in_other_minutes_write_other_files_witness :
  MergeOutputFacts.xlsx_path (merge_env ["/data"])
  ≠ MergeOutputFacts.xlsx_path
      (mkEnv ["merge_excel_files.py"; "/data"] "/app/merge_excel_files.py" id
         (mkDateTime 2024 3 7 9 6))
  ∧ MergeOutputFacts.csv_path (merge_env ["/data"])
    ≠ MergeOutputFacts.csv_path
        (mkEnv ["merge_excel_files.py"; "/data"] "/app/merge_excel_files.py" id
           (mkDateTime 2024 3 7 9 6))
  ∧ MergeOutputFacts.xlsx_path (merge_env ["/data"])
    ≠ MergeOutputFacts.csv_path
        (mkEnv ["merge_excel_files.py"; "/data"] "/app/merge_excel_files.py" id
           (mkDateTime 2024 3 7 9 6))
  ∧ MergeOutputFacts.csv_path (merge_env ["/data"])
    ≠ MergeOutputFacts.xlsx_path
        (mkEnv ["merge_excel_files.py"; "/data"] "/app/merge_excel_files.py" id
           (mkDateTime 2024 3 7 9 6)).
Proof.
  apply (runs_in_other_minutes_write_other_files (merge_env ["/data"])
           (mkEnv ["merge_excel_files.py"; "/data"] "/app/merge_excel_files.py" id
              (mkDateTime 2024 3 7 9 6))).
  - split; [discriminate | vm_compute; reflexivity].
  - reflexivity.
  - repeat split; cbn; lia.
  - repeat split; cbn; lia.
  - discriminate.
Defined.

(** ** How the scripts end *)

Module ExitFacts.
Import StrFacts PathFacts FsFacts MergeOutputFacts SplitFacts SplitRunFacts.

(** Library calls raise exceptions, never [SystemExit]. *)
Lemma write_file_raises path c s e s' :
  write_file path c s = (Raise e, s') → ∃ k msg, e = Exc k msg.
Proof.
  destruct s as [f tr]. unfold write_file. py_unfold. cbn.
  destruct (Path.split path) as [head tail].
  destruct (f !! path) as [[ns|c0]|]; destruct (f !! head) as [[names|c1]|];
    cbn; intros [= <- <-]; eauto.
Qed.

Lemma makedirs_raises name s e s' :
  makedirs name s = (Raise e, s') → ∃ k msg, e = Exc k msg.
Proof.
  intros Hmk. destruct (makedirs_spec name s) as (r & f' & Hrun & _ & Hraise & _).
  rewrite Hmk in Hrun. injection Hrun as <- _.
  destruct (Hraise e eq_refl) as (k & msg & -> & _). eauto.
Qed.

Lemma split_sheet_raises (wb : Workbook) folder t s e s' :
  Split.split_sheet wb folder t s = (Raise e, s') → ∃ k msg, e = Exc k msg.
Proof.
  unfold Split.split_sheet, save, wb_getitem, set_title. py_unfold.
  destruct (list_find _ wb) as [[i sh]|]; [|intros [= <- <-]; eauto].
  destruct (valid_title t); [|intros [= <- <-]; eauto].
  destruct (write_file _ _ s) as [[[]|e0] s0] eqn:Hw; [done|].
  intros [= <- <-]. by apply write_file_raises in Hw.
Qed.

Lemma for_each_split_raises (wb : Workbook) folder names s e s' :
  for_each (Split.split_sheet wb folder) names s = (Raise e, s') → ∃ k msg, e = Exc k msg.
Proof.
  revert s. induction names as [|t names IH]; intros s; [done|].
  cbn [for_each]. py_unfold.
  destruct (Split.split_sheet wb folder t s) as [[[]|e0] s0] eqn:Hstep.
  - apply IH.
  - intros [= <- <-]. by apply split_sheet_raises in Hstep.
Qed.

Lemma split_worksheets_raises env excel_file s e s' :
  Split.split_worksheets_to_files env excel_file s = (Raise e, s') → ∃ k msg, e = Exc k msg.
Proof.
  unfold Split.split_worksheets_to_files. py_unfold.
  destruct (load_workbook excel_file s).1 as [wb|e0] eqn:Hload.
  - apply SplitScriptFacts.load_workbook_ok in Hload as Hok. destruct Hok as [Hext Hwb].
    rewrite (SplitScriptFacts.load_workbook_run _ _ _ Hext Hwb).
    destruct (makedirs _ s) as [[[]|e1] s0] eqn:Hmk.
    + apply for_each_split_raises.
    + intros [= <- <-]. by apply makedirs_raises in Hmk.
  - apply SplitScriptFacts.load_workbook_raises in Hload as [-> Hexc]. by intros [= <- <-].
Qed.

End ExitFacts.

Section exits.
Import Merge MergeFacts StrFacts PathFacts FsFacts MergeScriptFacts MergeOutputFacts.
Import SplitScriptFacts SplitFacts SplitRunFacts ExitFacts.

(** X16: the writes of [main] have no handler.  When a directory stands at
    the path of the output workbook, a run that merged a frame ends with
    this error: exit code 1, no file written, the file system as the set-up
    left it. *)
Theorem merge_output_error_is_fatal
    (env : Env) (f0 : FS) (tr0 : list event) (s1 : OS) (merged : DataFrame) :
  2 ≤ length (argv env) →
  files_to_merge_dir env ≠ this_file_dir env →
  makedirs (target_dir_path env) (mkOS f0 tr0) = (Ok tt, s1) →
  (merge_excel_data_in_path (files_to_merge_dir env) s1).1 = Ok (Some merged) →
  isdir (fs s1) (xlsx_path env) = true →
  ∃ msg tr',
    script env (mkOS f0 tr0) = (Raise (Exc IsADirectoryError msg), mkOS (fs s1) (tr0 ++ tr'))
    ∧ exit_code (script env (mkOS f0 tr0)) = 1%Z
    ∧ written tr' = [].
Proof.
  intros Hargs Hne Hmk Hmerged Hx.
  rewrite merge_result in Hmerged. injection Hmerged as Hmerged.
  pose proof (makedirs_trace _ _ _ _ Hmk) as Htr. cbn [trace] in Htr.
  rewrite (script_runs_main env _ _ Hargs Hmk), main_run by done. cbn [fs trace].
  rewrite Hmerged. cbn zeta.
  rewrite write_file_on_dir by done. rewrite Htr.
  eexists _, _. split.
  { f_equal. f_equal. rewrite <- !app_assoc. reflexivity. }
  split; [reflexivity|].
  rewrite !written_app, loop_written. reflexivity.
Qed.

(** X17: a run of the merge script ends with exit code 0 or 1, whatever the
    arguments and the file system are. *)
Theorem merge_exit_code_is_0_or_1 (env : Env) (s : OS) :
  exit_code (Merge.script env s) = 0%Z ∨ exit_code (Merge.script env s) = 1%Z.
Proof.
  destruct (decide (length (argv env) < 2)) as [Hargs|Hargs].
  { rewrite script_no_arguments by done. by right. }
  assert (2 ≤ length (argv env)) as Hargs' by lia.
  destruct (makedirs (target_dir_path env) s) as [[[]|e] s1] eqn:Hmk.
  - rewrite (script_runs_main env _ _ Hargs' Hmk).
    destruct (decide (files_to_merge_dir env = this_file_dir env)) as [Heq|Hne].
    { rewrite main_same_directory by done. by right. }
    rewrite main_run by done. cbn zeta.
    destruct (merged_of _) as [merged|]; [|by left].
    destruct (write_file (xlsx_path env) _ _) as [[[]|e] s2] eqn:Hw1.
    + destruct (write_file (csv_path env) _ _) as [[[]|e] s3] eqn:Hw2; [by left|].
      apply write_file_raises in Hw2 as (k & msg & ->). by right.
    + apply write_file_raises in Hw1 as (k & msg & ->). by right.
  - destruct (script_makedirs_fails env _ _ _ Hargs' Hmk) as (kind & msg & _ & ->).
    by right.
Qed.

(** X18: a run of the split script ends with exit code 0 or 1, whatever the
    arguments and the file system are. *)
Theorem split_exit_code_is_0_or_1 (env : Env) (s : OS) :
  exit_code (Split.script env s) = 0%Z ∨ exit_code (Split.script env s) = 1%Z.
Proof.
  destruct (decide (length (argv env) < 2)) as [Hargs|Hargs].
  { rewrite split_no_arguments by done. by right. }
  destruct (decide (2 < length (argv env))) as [Hmany|Hmany].
  { rewrite script_wrong_count by done. by right. }
  assert (length (argv env) = 2) as Htwo by lia.
  destruct (isfile (fs s) (argv env !!! 1)) eqn:Hfile.
  - rewrite script_runs_split by done.
    destruct (Split.split_worksheets_to_files env _ _) as [[[]|e] s'] eqn:Hrun; [by left|].
    apply split_worksheets_raises in Hrun as (k & msg & ->). by right.
  - rewrite script_file_missing by done. by right.
Qed.

End exits.

(** The example directory with a directory where the output workbook of the
    run is to go. *)
Definition data_dir_output_blocked : FS :=
  <["/data/merged_excel_files/merged_excel_data_20240307_0905.xlsx" := Dir []]> data_dir.

Lemma merge_output_error_is_fatal_witness :
  ∃ msg tr',
    Merge.script (merge_env ["/data"]) (mkOS data_dir_output_blocked [])
    = (Raise (Exc IsADirectoryError msg),
       mkOS (fs (makedirs (Merge.target_dir_path (merge_env ["/data"]))
                   (mkOS data_dir_output_blocked [])).2) ([] ++ tr'))
    ∧ exit_code (Merge.script (merge_env ["/data"]) (mkOS data_dir_output_blocked [])) = 1%Z
    ∧ written tr' = [].
Proof.
  apply (merge_output_error_is_fatal (merge_env ["/data"]) data_dir_output_blocked []
           (makedirs (Merge.target_dir_path (merge_env ["/data"]))
              (mkOS data_dir_output_blocked [])).2
           (mkFrame [LText "id"; LText "name"] (rows frame_a ++ rows frame_b))).
  - vm_compute. lia.
  - vm_compute. discriminate.
  - vm_compute. reflexivity.
  - vm_compute. reflexivity.
  - vm_compute. reflexivity.
Defined.
